(** * RAG tutorial notebooks over Azure Cosmos DB: a shallow embedding

    The repository is a set of Jupyter notebooks.  Three of them carry the
    helper functions studied here:

    - the vCore question-answering notebook ([cosmos-demos-langchain.ipynb]):
      [generate_embeddings], [vector_search], [get_conversation_history],
      [generate_completion], [cache_generation] and the interactive loop;
    - the vCore ingestion notebook: database set-up, [generate_embeddings]
      and the ingestion loop;
    - the NoSQL ingestion notebook: [generate_embeddings] under the
      [tenacity] retry decorator and [insert_data].

    The fourth notebook wires LangChain and Gradio objects together; its
    own code is the submit callback of the form, embedded over abstract
    LangChain operations.

    Python values are dynamically typed, so documents are modelled as JSON
    like values and every subscript, addition and SDK call returns a
    [result]: a value or the Python exception that is raised.  What the
    program does not decide (the answers of Azure OpenAI and of the
    database's vector index, network faults, the ObjectIds the driver
    generates, random draws) is given by oracles indexed by the number of
    SDK calls issued so far, which lets two calls with the same arguments
    answer differently. *)

From Stdlib Require Import ZArith QArith Qminmax Lia Ascii DecimalString.
From stdpp Require Import base list strings gmap.

Set Warnings "-register-all".

Local Open Scope Z_scope.
Local Open Scope string_scope.
Local Open Scope list_scope.

(** ** Python values *)

(** A Python [float] is kept as its IEEE-754 binary64 bit pattern: the
    notebooks never compute with an embedding, they only pass it on. *)
Definition float64 := Z.

Inductive value :=
| VNone
| VBool (b : bool)
| VInt (n : Z)
| VFloat (bits : float64)
| VStr (s : string)
| VObjectId (n : N)
| VList (l : list value)
| VDict (d : list (string * value)).

(** A Python [dict] with string keys keeps insertion order. *)
Definition dict := list (string * value).

Fixpoint dict_get (k : string) (d : dict) : option value :=
  match d with
  | [] => None
  | (k', v) :: d' => if String.eqb k k' then Some v else dict_get k d'
  end.

(** [d[k] = v]: replaces in place, or appends a new key. *)
Fixpoint dict_set (k : string) (v : value) (d : dict) : dict :=
  match d with
  | [] => [(k, v)]
  | (k', v') :: d' =>
      if String.eqb k k' then (k, v) :: d' else (k', v') :: dict_set k v d'
  end.

Definition dict_keys (d : dict) : list string := map fst d.

Fixpoint value_eqb (a b : value) : bool :=
  match a, b with
  | VNone, VNone => true
  | VBool x, VBool y => Bool.eqb x y
  | VInt x, VInt y => Z.eqb x y
  | VFloat x, VFloat y => Z.eqb x y
  | VStr x, VStr y => String.eqb x y
  | VObjectId x, VObjectId y => N.eqb x y
  | VList l, VList m =>
      (fix go (l m : list value) : bool :=
         match l, m with
         | [], [] => true
         | x :: l', y :: m' => value_eqb x y && go l' m'
         | _, _ => false
         end) l m
  | VDict d, VDict e =>
      (fix go (d e : list (string * value)) : bool :=
         match d, e with
         | [], [] => true
         | (k, x) :: d', (k', y) :: e' =>
             String.eqb k k' && value_eqb x y && go d' e'
         | _, _ => false
         end) d e
  | _, _ => false
  end.

(** [bool(v)]: the truth value of a Python value.  The two zeros of a
    [float] are false. *)
Definition truthy (v : value) : bool :=
  match v with
  | VNone => false
  | VBool b => b
  | VInt n => negb (n =? 0)%Z
  | VFloat bits => negb ((bits =? 0)%Z || (bits =? 2 ^ 63)%Z)
  | VStr s => negb (String.eqb s EmptyString)
  | VObjectId _ => true
  | VList l => negb (Nat.eqb (length l) 0)
  | VDict d => negb (Nat.eqb (length d) 0)
  end.

(** ** Exceptions and results *)

Inductive exn :=
| KeyError (key : string)
| IndexError
| TypeError
| ValueError
| AttributeError
| EOFError
| OpenAIError (msg : string)
| PyMongoError (msg : string)
| DuplicateKeyError
| CosmosHttpResponseError (status : Z)
| CosmosClientError (msg : string)
| RetryError (last : exn).

Inductive result (A : Type) :=
| Ok (a : A)
| Raise (e : exn).
Arguments Ok {A} a.
Arguments Raise {A} e.

(** [v[k]] for a string key. *)
Definition getitem (v : value) (k : string) : result value :=
  match v with
  | VDict d =>
      match dict_get k d with
      | Some x => Ok x
      | None => Raise (KeyError k)
      end
  | _ => Raise TypeError
  end.

(** [l[0]] on a Python list. *)
Definition first {A} (l : list A) : result A :=
  match l with
  | x :: _ => Ok x
  | [] => Raise IndexError
  end.

(** [a + b], on the values a document can hold: only [str + str] matters
    here, every other combination with a [str] operand is a [TypeError]. *)
Definition py_add_str (a : value) (b : value) : result value :=
  match a, b with
  | VStr s, VStr t => Ok (VStr (s +:+ t))
  | _, _ => Raise TypeError
  end.

(** [str(n)] for an [int]. *)
Definition str_of_int (n : Z) : string := NilZero.string_of_int (Z.to_int n).

(** ** State and exception monad

    A computation takes the state of the outside world, returns a result
    or raises, and leaves a new state: effects performed before an
    exception stay performed. *)

Definition M (S A : Type) : Type := S -> result A * S.

Definition ret {S A} (a : A) : M S A := fun s => (Ok a, s).
Definition raise {S A} (e : exn) : M S A := fun s => (Raise e, s).
Definition lift {S A} (r : result A) : M S A := fun s => (r, s).

Definition bind {S A B} (m : M S A) (k : A -> M S B) : M S B :=
  fun s =>
    match m s with
    | (Ok a, s') => k a s'
    | (Raise e, s') => (Raise e, s')
    end.

Notation "'let!' x ':=' m 'in' k" := (bind m (fun x => k))
  (at level 10, x name, m at level 100, k at level 200).
Notation "'run!' m 'in' k" := (bind m (fun _ => k))
  (at level 10, m at level 100, k at level 200).

(** [for x in xs: body x], stopping at the first exception. *)
Fixpoint for_each {S A} (body : A -> M S unit) (xs : list A) : M S unit :=
  match xs with
  | [] => ret tt
  | x :: xs' => run! body x in for_each body xs'
  end.

(** ** The SDK's response models *)

Record Embedding := { embedding : list float64; index : Z }.
Record CreateEmbeddingResponse := { data : list Embedding }.

Record ChatCompletionMessage := { content : option string }.
Record Choice := { message : ChatCompletionMessage }.
Record CompletionUsage :=
  { completion_tokens : Z; prompt_tokens : Z; total_tokens : Z }.
Record ChatCompletion :=
  { choices : list Choice; model : string; usage : option CompletionUsage }.

Definition vector_value (v : list float64) : value := VList (map VFloat v).

(** [response.model_dump()['data'][0]['embedding']] on the outcome of the
    embeddings call. *)
Definition first_embedding_of (r : result CreateEmbeddingResponse)
  : result (list float64) :=
  match r with
  | Ok response =>
      match data response with
      | head :: _ => Ok (embedding head)
      | [] => Raise IndexError
      end
  | Raise e => Raise e
  end.

Definition optional_str (o : option string) : value :=
  match o with
  | Some s => VStr s
  | None => VNone
  end.

(** [str(x)] as [print] applies it to an optional string. *)
Definition print_repr (o : option string) : string :=
  match o with
  | Some s => s
  | None => "None"
  end.

Record chat_message := { role : string; msg_content : value }.


(** [str.lower()], on the ASCII range.  Code points above 127 (held here
    as their UTF-8 bytes) are left as they are; none of them lowers to an
    ASCII letter of the word compared against in this program. *)
Definition lower_ascii (c : Ascii.ascii) : Ascii.ascii :=
  let n := Ascii.N_of_ascii c in
  if ((65 <=? n) && (n <=? 90))%N then Ascii.ascii_of_N (n + 32) else c.

Fixpoint lower (s : string) : string :=
  match s with
  | EmptyString => EmptyString
  | String c s' => String (lower_ascii c) (lower s')
  end.

Definition nl : string := String (Ascii.ascii_of_N 10) EmptyString.
Definition dquote : string := String (Ascii.ascii_of_N 34) EmptyString.


(** * The MongoDB vCore notebooks *)

Module VCore.

Inductive collection_name := Products | Cache.

(** What the notebooks ask of the outside world, in program order. *)
Inductive event :=
| EmbeddingsCreate (input : value) (deployment : string) (dimensions : Z)
| Aggregate (pipeline : value)
| FindSortLimit (filter projection : value) (sort_field : string)
    (direction : Z) (limit : Z)
| ChatCompletionsCreate (deployment : string) (messages : list chat_message)
    (user : string)
| InsertOne (coll : collection_name) (document : dict)
| ListDatabaseNames
| DropDatabase
| CreateIndexes (coll : collection_name)
| DropIndexes (coll : collection_name)
| DownloadBlob
| Print (text : string)
| Input (prompt : string).

Record world := mkWorld {
  db_exists : bool;
  products : list dict;
  cache : list dict;
  calls : nat;
  trace : list event
}.

(** Values read once from the environment file. *)
Record config := {
  mongo_collection_name : string;
  openai_embeddings_deployment : string;
  openai_embeddings_dimensions : Z;
  openai_completions_deployment : string
}.

(** The managed services.  The first argument is the number of SDK calls
    issued before this one. *)
Record services := {
  embeddings_api : nat -> value -> result CreateEmbeddingResponse;
  chat_api : nat -> list chat_message -> result ChatCompletion;
  vector_index : nat -> list dict -> value -> result (list value);
  mongo_fault : nat -> option exn;
  (** [bson.ObjectId()], twelve bytes read as a number: the client's
      clock, a value drawn once per process, a counter *)
  object_id : nat -> N;
  blob_items : nat -> result (list value);
  json_dumps : value -> result string
}.

Definition collection (c : collection_name) (w : world) : list dict :=
  match c with
  | Products => products w
  | Cache => cache w
  end.

Definition set_collection (c : collection_name) (docs : list dict) (w : world)
  : world :=
  match c with
  | Products => mkWorld true docs (cache w) (calls w) (trace w)
  | Cache => mkWorld true (products w) docs (calls w) (trace w)
  end.

(** An SDK call: one more call issued, one more event. *)
Definition issue (e : event) (w : world) : world :=
  mkWorld (db_exists w) (products w) (cache w) (S (calls w)) (trace w ++ [e]).

(** Console traffic: an event, but no SDK call. *)
Definition console (e : event) : M world unit :=
  fun w =>
    (Ok tt, mkWorld (db_exists w) (products w) (cache w) (calls w)
              (trace w ++ [e])).

Definition print (text : string) : M world unit := console (Print text).

(** ** Documents and their [_id] *)

Definition doc_id (d : dict) : value := default VNone (dict_get "_id" d).

(** BSON comparison order of the value kinds. *)
Definition bson_rank (v : value) : N :=
  match v with
  | VNone => 1
  | VInt _ | VFloat _ => 2
  | VStr _ => 3
  | VDict _ => 4
  | VList _ => 5
  | VObjectId _ => 7
  | VBool _ => 8
  end%N.

(** [a <= b] on [_id] values: by kind first, then inside the scalar kinds
    a collection's ids are made of. *)
Definition id_leb (a b : value) : bool :=
  match a, b with
  | VObjectId m, VObjectId n => (m <=? n)%N
  | VInt m, VInt n => (m <=? n)%Z
  | VStr s, VStr t => String.leb s t
  | VBool x, VBool y => implb x y
  | _, _ => (bson_rank a <=? bson_rank b)%N
  end.

Fixpoint insert_desc (d : dict) (sorted : list dict) : list dict :=
  match sorted with
  | [] => [d]
  | d' :: rest =>
      if id_leb (doc_id d') (doc_id d) then d :: sorted
      else d' :: insert_desc d rest
  end.

(** [.sort([("_id", -1)])] *)
Definition sort_id_desc (docs : list dict) : list dict :=
  foldr insert_desc [] docs.

(** A projection [{f1: 1, f2: 1, ...}]: [_id] and the named fields. *)
Definition project (fields : list string) (d : dict) : dict :=
  List.filter (fun kv => existsb (String.eqb (fst kv)) ("_id" :: fields)) d.

(** [.limit(n)]: zero means no limit, a negative limit counts as its
    absolute value. *)
Definition limit_docs {A} (n : Z) (docs : list A) : list A :=
  if (n =? 0)%Z then docs else firstn (Z.abs_nat n) docs.

(** ** SDK calls *)

Section SDK.

Variable cfg : config.
Variable svc : services.

(** [openai_client.embeddings.create(input=..., model=..., dimensions=...)] *)
Definition embeddings_create (input : value)
  : M world CreateEmbeddingResponse :=
  fun w =>
    (embeddings_api svc (calls w) input,
     issue (EmbeddingsCreate input (openai_embeddings_deployment cfg)
              (openai_embeddings_dimensions cfg)) w).

(** [collection.aggregate(pipeline)]: the answer is the vector index's. *)
Definition aggregate (pipeline : value) : M world (list value) :=
  fun w =>
    (vector_index svc (calls w) (products w) pipeline,
     issue (Aggregate pipeline) w).

(** [cache.find({}, projection).sort([("_id", -1)]).limit(n)].  The cursor
    is read right after it is built, so the query is issued here. *)
Definition find_sort_limit (fields : list string) (n : Z)
  : M world (list dict) :=
  fun w =>
    let w' :=
      issue (FindSortLimit (VDict [])
               (VDict (map (fun f => (f, VInt 1)) fields)) "_id" (-1) n) w in
    match mongo_fault svc (calls w) with
    | Some e => (Raise e, w')
    | None =>
        (Ok (map (project fields) (limit_docs n (sort_id_desc (cache w)))), w')
    end.

(** [openai_client.chat.completions.create(model=..., messages=..., user=...)] *)
Definition chat_completions_create (messages : list chat_message)
  (user : string) : M world ChatCompletion :=
  fun w =>
    (chat_api svc (calls w) messages,
     issue (ChatCompletionsCreate (openai_completions_deployment cfg)
              messages user) w).

(** The ObjectId the driver generates during the call issued after [n]
    others.  Nothing in the program orders it against the ids already
    stored. *)
Definition new_object_id (n : nat) : N := (object_id svc n mod 2 ^ 96)%N.

(** [coll.insert_one(document)]: the driver gives a document without
    [_id] an ObjectId of its own making; the server refuses a document
    whose [_id] is already stored. *)
Definition insert_one (c : collection_name) (document : dict)
  : M world unit :=
  fun w =>
    let w' := issue (InsertOne c document) w in
    match mongo_fault svc (calls w) with
    | Some e => (Raise e, w')
    | None =>
        let docs := collection c w in
        match dict_get "_id" document with
        | Some i =>
            if existsb (fun d => value_eqb (doc_id d) i) docs
            then (Raise DuplicateKeyError, w')
            else (Ok tt, set_collection c (docs ++ [document]) w')
        | None =>
            let i := VObjectId (new_object_id (calls w)) in
            if existsb (fun d => value_eqb (doc_id d) i) docs
            then (Raise DuplicateKeyError, w')
            else (Ok tt, set_collection c (docs ++ [("_id", i) :: document]) w')
        end
    end.

(** [mongo_client.list_database_names()], asked whether the database is
    among them. *)
Definition database_listed : M world bool :=
  fun w =>
    let w' := issue ListDatabaseNames w in
    match mongo_fault svc (calls w) with
    | Some e => (Raise e, w')
    | None => (Ok (db_exists w), w')
    end.

(** [mongo_client.drop_database(name)]: every collection goes. *)
Definition drop_database : M world unit :=
  fun w =>
    let w' := issue DropDatabase w in
    match mongo_fault svc (calls w) with
    | Some e => (Raise e, w')
    | None => (Ok tt, mkWorld false [] [] (calls w') (trace w'))
    end.

(** [database.command({"createIndexes": name, ...})] *)
Definition create_indexes (c : collection_name) : M world unit :=
  fun w =>
    let w' := issue (CreateIndexes c) w in
    match mongo_fault svc (calls w) with
    | Some e => (Raise e, w')
    | None =>
        (Ok tt, mkWorld true (products w') (cache w') (calls w') (trace w'))
    end.

(** [coll.drop_indexes()]: the documents stay. *)
Definition drop_indexes (c : collection_name) : M world unit :=
  fun w =>
    let w' := issue (DropIndexes c) w in
    match mongo_fault svc (calls w) with
    | Some e => (Raise e, w')
    | None => (Ok tt, w')
    end.

(** [blob_client.download_blob().readall()] parsed by [ijson.items]. *)
Definition download_items : M world (list value) :=
  fun w => (blob_items svc (calls w), issue DownloadBlob w).

End SDK.

(** ** The question-answering notebook *)

Module Chat.

Section Notebook.

Variable cfg : config.
Variable svc : services.

Definition generate_embeddings (text : value) : M world (list float64) :=
  let! response := embeddings_create cfg svc text in
  let! head := lift (first (data response)) in
  ret (embedding head).

(** [num_results=3] and [completions=3] are default arguments: [None]
    stands for an omitted argument. *)
Definition vector_search (query_embedding : value)
  (num_results : option value) : M world (list value) :=
  let num_results := default (VInt 3) num_results in
  let pipeline :=
    VList
      [ VDict
          [("$search",
            VDict
              [("cosmosSearch",
                VDict [("vector", query_embedding);
                       ("path", VStr "contentVector");
                       ("k", num_results)]);
               ("returnStoredSource", VBool true)])];
        VDict
          [("$project",
            VDict [("similarityScore", VDict [("$meta", VStr "searchScore")]);
                   ("document", VStr "$$ROOT")])] ] in
  let! results := aggregate svc pipeline in
  ret results.

Definition get_conversation_history (completions : option Z)
  : M world (list dict) :=
  let completions := default 3 completions in
  let! results := find_sort_limit svc ["prompt"; "completion"] completions in
  ret results.

Definition system_prompt : string :=
  String.concat EmptyString
    [ nl;
      "    You are an intelligent assistant for Microsoft Azure services."; nl;
      "    You are designed to provide helpful answers to user questions about Azure services given the information about to be provided."; nl;
      "        - Only answer questions related to the information provided below, provide 3 clear suggestions in a list format."; nl;
      "        - Write two lines of whitespace between each answer in the list."; nl;
      "        - Only provide answers that have products that are part of Microsoft Azure and based on the content items."; nl;
      "        - If you're unsure of an answer, you can say "; dquote; dquote;
      "I don't know"; dquote; dquote; " or "; dquote; dquote; "I'm not sure";
      dquote; dquote; " and recommend users search themselves."; dquote; nl;
      "    " ].

Definition system_message (text : value) : chat_message :=
  {| role := "system"; msg_content := text |}.

Definition user_message (text : value) : chat_message :=
  {| role := "user"; msg_content := text |}.

Definition rbind {A B} (r : result A) (k : A -> result B) : result B :=
  match r with
  | Ok a => k a
  | Raise e => Raise e
  end.

(** [item['prompt'] + " " + item['completion']], evaluated left to right. *)
Definition history_content (item : dict) : result value :=
  rbind (getitem (VDict item) "prompt") (fun p =>
  rbind (py_add_str p (VStr " ")) (fun ps =>
  rbind (getitem (VDict item) "completion") (fun c =>
  py_add_str ps c))).

(** [item['document']['content']] *)
Definition result_content (item : value) : result value :=
  rbind (getitem item "document") (fun d => getitem d "content").

(** [for item in items: messages.append({"role": "system", "content": f(item)})] *)
Fixpoint append_system {A} (f : A -> result value) (items : list A)
  (messages : list chat_message) : result (list chat_message) :=
  match items with
  | [] => Ok messages
  | item :: rest =>
      rbind (f item) (fun c =>
        append_system f rest (messages ++ [system_message c]))
  end.

Definition generate_completion (vector_search_results : list value)
  (user_prompt : string) : M world ChatCompletion :=
  let messages := [system_message (VStr system_prompt)] in
  let! conversation_history := get_conversation_history (Some 3) in
  let! messages :=
    lift (append_system history_content conversation_history messages) in
  let messages := messages ++ [user_message (VStr user_prompt)] in
  let! messages :=
    lift (append_system result_content vector_search_results messages) in
  let! response := chat_completions_create cfg svc messages "Mark" in
  ret response.

(** [response['usage'][...]] on an absent usage subscripts [None]. *)
Definition usage_of (response : ChatCompletion) : result CompletionUsage :=
  match usage response with
  | Some u => Ok u
  | None => Raise TypeError
  end.

Definition cache_generation (user_prompt : string)
  (user_embeddings : list float64) (response : ChatCompletion)
  : M world unit :=
  let! choice := lift (first (choices response)) in
  let! u := lift (usage_of response) in
  let chat :=
    [ [ ("prompt", VStr user_prompt);
        ("completion", optional_str (content (message choice)));
        ("completionTokens", VStr (str_of_int (completion_tokens u)));
        ("promptTokens", VStr (str_of_int (prompt_tokens u)));
        ("totalTokens", VStr (str_of_int (total_tokens u)));
        ("model", VStr (model response));
        ("vectorContent", vector_value user_embeddings) ] ] in
  let! document := lift (first chat) in
  insert_one svc Cache document.

(** One pass through the body of the [while] loop. *)
Definition loop_body (user_input : string) : M world unit :=
  let! user_embeddings := generate_embeddings (VStr user_input) in
  let! search_results := vector_search (vector_value user_embeddings) None in
  let! completions_results := generate_completion search_results user_input in
  run! print (nl +:+ user_input) in
  let! choice := lift (first (choices completions_results)) in
  run! print (print_repr (content (message choice))) in
  cache_generation user_input user_embeddings completions_results.

(** [input("Prompt: ")] reading the next pending line; with none left the
    call raises. *)
Definition input_prompt : M world unit := console (Input "Prompt: ").

(** [while user_input.lower() != "end": ...; user_input = input(...)].
    [pending] holds the lines the user will still type. *)
Fixpoint qa_loop (user_input : string) (pending : list string)
  : M world unit :=
  if String.eqb (lower user_input) "end" then ret tt
  else
    run! loop_body user_input in
    run! input_prompt in
    match pending with
    | [] => raise EOFError
    | next :: pending' => qa_loop next pending'
    end.

Definition banner : string :=
  "*** Please ask your model questions about Azure services. Type 'end' to end the session." +:+ nl.

(** The whole cell: banner, first [input], loop. *)
Definition qa_cell (inputs : list string) : M world unit :=
  run! print banner in
  run! input_prompt in
  match inputs with
  | [] => raise EOFError
  | user_input :: pending => qa_loop user_input pending
  end.

End Notebook.

End Chat.

(** ** Reading a trace *)

(** The steps of one query. *)
Inductive step := Embed | Search | ReadHistory | Complete | WriteCache.

Definition step_of (e : event) : option step :=
  match e with
  | EmbeddingsCreate _ _ _ => Some Embed
  | Aggregate _ => Some Search
  | FindSortLimit _ _ _ _ _ => Some ReadHistory
  | ChatCompletionsCreate _ _ _ => Some Complete
  | InsertOne Cache _ => Some WriteCache
  | _ => None
  end.

Definition steps (evs : list event) : list step := omap step_of evs.

(** The inputs sent to the embeddings endpoint. *)
Definition embedded_inputs (evs : list event) : list value :=
  omap (fun e => match e with
                 | EmbeddingsCreate input _ _ => Some input
                 | _ => None
                 end) evs.

(** The pipelines sent to the vector index. *)
Definition searches (evs : list event) : list value :=
  omap (fun e => match e with
                 | Aggregate pipeline => Some pipeline
                 | _ => None
                 end) evs.

(** The documents handed to [insert_one] on the cache collection. *)
Definition cache_inserts (evs : list event) : list dict :=
  omap (fun e => match e with
                 | InsertOne Cache d => Some d
                 | _ => None
                 end) evs.

(** [l[0]] on a value. *)
Definition item0 (v : value) : result value :=
  match v with
  | VList l => first l
  | _ => Raise TypeError
  end.

(** [pipeline[0]['$search']['cosmosSearch']['vector']] *)
Definition search_vector (pipeline : value) : result value :=
  match item0 pipeline with
  | Ok stage =>
      match getitem stage "$search" with
      | Ok s =>
          match getitem s "cosmosSearch" with
          | Ok c => getitem c "vector"
          | Raise e => Raise e
          end
      | Raise e => Raise e
      end
  | Raise e => Raise e
  end.

(** Events that can change the documents of a collection: the only calls
    of that kind the notebooks ever issue. *)
Definition writes_documents (e : event) : bool :=
  match e with
  | InsertOne _ _ | DropDatabase => true
  | _ => false
  end.


(** ** The ingestion notebook *)

Module Ingest.

Section Notebook.

Variable cfg : config.
Variable svc : services.

Definition create_collection_and_vector_index (c : collection_name)
  : M world unit :=
  create_indexes svc c.

(** The set-up cell: an existing database is dropped, then both
    collections are created with their vector index. *)
Definition setup_database : M world unit :=
  let! listed := database_listed svc in
  run! (if listed then drop_database svc else ret tt) in
  run! create_collection_and_vector_index Products in
  create_collection_and_vector_index Cache.

Definition generate_embeddings (text : value) : M world (list float64) :=
  let! response := embeddings_create cfg svc text in
  let! head := lift (first (data response)) in
  ret (embedding head).

(** The body of [for obj in objects]. *)
Definition ingest_object (obj : value) : M world unit :=
  let! sObject := lift (json_dumps svc obj) in
  let! vectorArray := generate_embeddings (VStr sObject) in
  match obj with
  | VDict d =>
      let obj := dict_set "contentVector" (vector_value vectorArray) d in
      insert_one svc Products obj
  | _ => raise TypeError
  end.

Definition ingest_cell : M world unit :=
  let! objects := download_items svc in
  run! for_each ingest_object objects in
  print ("Data inserted into collection: '" +:+ mongo_collection_name cfg
         +:+ "'." +:+ nl).

End Notebook.

End Ingest.

End VCore.

(** * The NoSQL ingestion notebook *)

Module NoSql.

Inductive event :=
| EmbeddingsCreate (input : value) (deployment : string) (dimensions : Z)
| Sleep (seconds : Q)
| ClientEnter
| CreateDatabaseIfNotExists (id : string)
| CreateContainerIfNotExists (id : string)
| UpsertItem (body : value)
| Print (text : string).

(** The data container is partitioned on [/id]: one document per id. *)
Record world := mkWorld {
  container : gmap string dict;
  calls : nat;
  trace : list event
}.

Record config := {
  cosmos_database : string;
  cosmos_collection : string;
  cosmos_cache : string;
  openai_embeddings_deployment : string;
  openai_embeddings_dimensions : Z
}.

Record services := {
  embeddings_api : nat -> value -> result CreateEmbeddingResponse;
  cosmos_fault : nat -> option exn;
  (** [random.uniform(a, b)] *)
  random_uniform : nat -> Q -> Q -> Q
}.

Definition issue (e : event) (w : world) : world :=
  mkWorld (container w) (S (calls w)) (trace w ++ [e]).

Definition note (e : event) : M world unit :=
  fun w => (Ok tt, mkWorld (container w) (calls w) (trace w ++ [e])).

Definition print (text : string) : M world unit := note (Print text).

(** ** The client's check of a document

    [__ValidateResource]: an id that is not falsy must be a string, free
    of the characters [/ \ ? #] and not ending with a space. *)

Definition illegal_id_char (c : Ascii.ascii) : bool :=
  existsb (N.eqb (Ascii.N_of_ascii c)) [47; 92; 63; 35]%N.

Fixpoint has_illegal_char (i : string) : bool :=
  match i with
  | EmptyString => false
  | String c rest => illegal_id_char c || has_illegal_char rest
  end.

Fixpoint ends_with_space (i : string) : bool :=
  match i with
  | EmptyString => false
  | String c EmptyString => (Ascii.N_of_ascii c =? 32)%N
  | String _ rest => ends_with_space rest
  end.

Definition validate_resource (d : dict) : option exn :=
  match dict_get "id" d with
  | Some v =>
      if truthy v then
        match v with
        | VStr i =>
            if has_illegal_char i || ends_with_space i then Some ValueError
            else None
        | _ => Some TypeError
        end
      else None
  | None => None
  end.

(** The id under which a document is stored when neither the client nor
    the service refuses it. *)
Definition stored_id (d : dict) : option string :=
  match validate_resource d, dict_get "id" d with
  | None, Some (VStr (String c rest)) => Some (String c rest)
  | _, _ => None
  end.

(** ** The [tenacity] decorator *)

Record retrying := {
  wait_min : Q;
  wait_max : Q;
  stop_after_attempt : nat
}.

(** Upper end of the waiting window after attempt [attempt_number]:
    [2 ** (attempt_number - 1)] clamped between the minimum and the
    maximum. *)
Definition wait_high (p : retrying) (attempt_number : nat) : Q :=
  Qmax (Qmax 0%Q (wait_min p))
       (Qmin (inject_Z (2 ^ (Z.of_nat attempt_number - 1))) (wait_max p)).

Section Notebook.

Variable cfg : config.
Variable svc : services.

(** [wait_random_exponential]: a uniform draw from the window. *)
Definition wait_random_exponential (p : retrying) (attempt_number : nat)
  : M world Q :=
  fun w =>
    (Ok (random_uniform svc (calls w) (wait_min p) (wait_high p attempt_number)),
     w).

Definition sleep (seconds : Q) : M world unit := note (Sleep seconds).

(** [@retry(wait=..., stop=stop_after_attempt(n))]: call again after any
    exception, sleeping in between; once attempt [n] has failed, raise
    [RetryError] from the last exception.  [budget] counts the attempts
    still allowed after the current one. *)
Fixpoint retry_from {A} (p : retrying) (fn : M world A) (budget : nat)
  (attempt_number : nat) : M world A :=
  fun w =>
    match fn w with
    | (Ok a, w') => (Ok a, w')
    | (Raise e, w') =>
        match budget with
        | O => (Raise (RetryError e), w')
        | S budget' =>
            (let! seconds := wait_random_exponential p attempt_number in
             run! sleep seconds in
             retry_from p fn budget' (S attempt_number)) w'
        end
    end.

Definition retry {A} (p : retrying) (fn : M world A) : M world A :=
  retry_from p fn (stop_after_attempt p - 1) 1.

Definition embeddings_create (input : value)
  : M world CreateEmbeddingResponse :=
  fun w =>
    (embeddings_api svc (calls w) input,
     issue (EmbeddingsCreate input (openai_embeddings_deployment cfg)
              (openai_embeddings_dimensions cfg)) w).

(** The function under the decorator. *)
Definition generate_embeddings_undecorated (text : value)
  : M world (list float64) :=
  let! response := embeddings_create text in
  let! head := lift (first (data response)) in
  ret (embedding head).

Definition generate_embeddings (text : value) : M world (list float64) :=
  retry {| wait_min := 1%Q; wait_max := 10%Q; stop_after_attempt := 20 |}
    (generate_embeddings_undecorated text).

(** ** Containers *)

Definition cosmos_call (e : event) : M world unit :=
  fun w =>
    let w' := issue e w in
    match cosmos_fault svc (calls w) with
    | Some ex => (Raise ex, w')
    | None => (Ok tt, w')
    end.

(** [try: body  except <class>: raise] *)
Definition try_except_raise {A} (body : M world A) (caught : exn -> bool)
  : M world A :=
  fun w =>
    match body w with
    | (Ok a, w') => (Ok a, w')
    | (Raise e, w') => if caught e then (Raise e, w') else (Raise e, w')
    end.

Definition is_cosmos_http_response_error (e : exn) : bool :=
  match e with
  | CosmosHttpResponseError _ => true
  | _ => false
  end.

(** [format(id)] of the builtin [id]. *)
Definition created_message : string :=
  "Container with id '<built-in function id>' created".

Definition create_containers_cell : M world unit :=
  run! cosmos_call (CreateDatabaseIfNotExists (cosmos_database cfg)) in
  run! try_except_raise
         (run! cosmos_call (CreateContainerIfNotExists (cosmos_collection cfg)) in
          print created_message)
         is_cosmos_http_response_error in
  try_except_raise
    (run! cosmos_call (CreateContainerIfNotExists (cosmos_cache cfg)) in
     print created_message)
    is_cosmos_http_response_error.

(** [container.upsert_item(body=object)].  The client reads the body as
    a dict and checks its id before it sends anything; the service then
    stores the document under its id, in the place of the one stored
    there if any.  A document that reaches the service without a
    non-empty string id (the client generates none here) is answered with
    status 400. *)
Definition upsert_item (body : value) : M world unit :=
  fun w =>
    let w' := issue (UpsertItem body) w in
    match body with
    | VDict d =>
        match validate_resource d with
        | Some e => (Raise e, w')
        | None =>
            match cosmos_fault svc (calls w) with
            | Some e => (Raise e, w')
            | None =>
                match dict_get "id" d with
                | Some (VStr EmptyString) =>
                    (Raise (CosmosHttpResponseError 400), w')
                | Some (VStr i) =>
                    (Ok tt,
                     mkWorld (<[i := d]> (container w')) (calls w') (trace w'))
                | _ => (Raise (CosmosHttpResponseError 400), w')
                end
            end
        end
    | VStr _ | VList _ => (Raise AttributeError, w')
    | _ => (Raise TypeError, w')
    end.

Definition progress_message (counter : Z) : string :=
  "Inserted " +:+ str_of_int counter +:+ " documents into collection.".

(** [for object in data: ...], threading the local [counter]. *)
Fixpoint insert_loop (data : list value) (counter : Z) : M world Z :=
  match data with
  | [] => ret counter
  | object :: rest =>
      run! upsert_item object in
      let counter := counter + 1 in
      run! (if (counter mod 100 =? 0)%Z then print (progress_message counter)
            else ret tt) in
      insert_loop rest counter
  end.

Definition insert_data (data : list value) : M world unit :=
  let counter := 0 in
  run! cosmos_call ClientEnter in
  let! counter := insert_loop data counter in
  print "Upsert completed!".

End Notebook.

(** ** Reading a trace *)

Definition upserted (evs : list event) : list value :=
  omap (fun e => match e with
                 | UpsertItem body => Some body
                 | _ => None
                 end) evs.

Definition printed (evs : list event) : list string :=
  omap (fun e => match e with
                 | Print text => Some text
                 | _ => None
                 end) evs.

Definition embedding_calls (evs : list event) : list value :=
  omap (fun e => match e with
                 | EmbeddingsCreate input _ _ => Some input
                 | _ => None
                 end) evs.

Definition sleeps (evs : list event) : list Q :=
  omap (fun e => match e with
                 | Sleep seconds => Some seconds
                 | _ => None
                 end) evs.

(** The events of a loop over [data] that meets no exception, entered with
    the counter at [counter]. *)
Fixpoint loop_trace (data : list value) (counter : Z) : list event :=
  match data with
  | [] => []
  | object :: rest =>
      UpsertItem object
      :: (if ((counter + 1) mod 100 =? 0)%Z
          then [Print (progress_message (counter + 1))]
          else [])
      ++ loop_trace rest (counter + 1)
  end.

(** The string ids of [data]: the ids under which it can be written. *)
Definition written_ids (data : list value) : list string :=
  omap (fun object => match object with
                      | VDict d =>
                          match dict_get "id" d with
                          | Some (VStr i) => Some i
                          | _ => None
                          end
                      | _ => None
                      end) data.

End NoSql.

(** * Sample services

    Concrete services and worlds on which the notebooks are run below. *)

Module Sample.

Definition vcore_cfg : VCore.config :=
  {| VCore.mongo_collection_name := "FabConfCollection";
     VCore.openai_embeddings_deployment := "embeddings";
     VCore.openai_embeddings_dimensions := 2;
     VCore.openai_completions_deployment := "completions" |}.

Definition two_embeddings : CreateEmbeddingResponse :=
  {| data := [ {| embedding := [11; 12]; index := 0 |};
               {| embedding := [21; 22]; index := 1 |} ] |}.

Definition completion : ChatCompletion :=
  {| choices := [ {| message := {| content := Some "Use Azure ML." |} |} ];
     model := "gpt-35-turbo";
     usage := Some {| completion_tokens := 5; prompt_tokens := 70;
                      total_tokens := 75 |} |}.

Definition hit (text : string) : value :=
  VDict [("similarityScore", VInt 1);
         ("document", VDict [("title", VStr "t"); ("content", VStr text)])].

(** Every service answers; nothing fails. *)
Definition vcore_svc : VCore.services :=
  {| VCore.embeddings_api := fun _ _ => Ok two_embeddings;
     VCore.chat_api := fun _ _ => Ok completion;
     VCore.vector_index := fun _ _ _ => Ok [hit "Azure ML"; hit "Azure AI"];
     VCore.mongo_fault := fun _ => None;
     VCore.object_id := fun n => (100 + N.of_nat n)%N;
     VCore.blob_items :=
       fun _ => Ok [VDict [("id", VStr "1"); ("content", VStr "Azure ML")]];
     VCore.json_dumps := fun _ => Ok "{}" |}.

(** The same services with a completion endpoint that answers
    [completion]. *)
Definition vcore_svc_answering (completion : ChatCompletion)
  : VCore.services :=
  {| VCore.embeddings_api := fun _ _ => Ok two_embeddings;
     VCore.chat_api := fun _ _ => Ok completion;
     VCore.vector_index := fun _ _ _ => Ok [hit "Azure ML"; hit "Azure AI"];
     VCore.mongo_fault := fun _ => None;
     VCore.object_id := fun n => (100 + N.of_nat n)%N;
     VCore.blob_items := fun _ => Ok [];
     VCore.json_dumps := fun _ => Ok "{}" |}.


(** The embedding endpoint is down. *)
Definition vcore_svc_down : VCore.services :=
  {| VCore.embeddings_api := fun _ _ => Raise (OpenAIError "429");
     VCore.chat_api := fun _ _ => Ok completion;
     VCore.vector_index := fun _ _ _ => Ok [];
     VCore.mongo_fault := fun _ => None;
     VCore.object_id := fun n => (100 + N.of_nat n)%N;
     VCore.blob_items := fun _ => Ok [];
     VCore.json_dumps := fun _ => Ok "{}" |}.

Definition cached (n : N) (p c : string) : dict :=
  [("_id", VObjectId n); ("prompt", VStr p); ("completion", VStr c);
   ("model", VStr "gpt-35-turbo")].

Definition vcore_empty : VCore.world := VCore.mkWorld true [] [] 0 [].

Definition vcore_world : VCore.world :=
  VCore.mkWorld true []
    [cached 1 "q1" "a1"; cached 2 "q2" "a2"; cached 3 "q3" "a3";
     cached 4 "q4" "a4"] 0 [].

Definition nosql_cfg : NoSql.config :=
  {| NoSql.cosmos_database := "db";
     NoSql.cosmos_collection := "movies";
     NoSql.cosmos_cache := "cache";
     NoSql.openai_embeddings_deployment := "embeddings";
     NoSql.openai_embeddings_dimensions := 2 |}.

Definition nosql_svc : NoSql.services :=
  {| NoSql.embeddings_api := fun _ _ => Ok two_embeddings;
     NoSql.cosmos_fault := fun _ => None;
     NoSql.random_uniform := fun _ a _ => a |}.

(** The embedding endpoint never answers. *)
Definition nosql_svc_down : NoSql.services :=
  {| NoSql.embeddings_api := fun _ _ => Raise (OpenAIError "429");
     NoSql.cosmos_fault := fun _ => None;
     NoSql.random_uniform := fun _ a _ => a |}.

Definition nosql_empty : NoSql.world := NoSql.mkWorld ∅ 0 [].

Definition movie (i title : string) : value :=
  VDict [("id", VStr i); ("original_title", VStr title)].

End Sample.

(** * The chatbot notebook: the submit callback

    The last notebook builds its chain, semantic cache and message history
    out of LangChain objects and shows them through a Gradio form.  Its own
    code is the callback [user], the module-level list [hist] and the two
    event bindings.  The LangChain objects are kept abstract: their state
    is a type [lib] and each method used by the callback is a computation
    over it. *)

Module Chatbot.

(** [l[-n:]] for a positive [n]: the last [n] elements, or all of [l]. *)
Definition last_n {A} (n : nat) (l : list A) : list A :=
  skipn (length l - n) l.

Section Callback.

Variable lib : Type.
Variable message : Type.

(** [conversational_memory.buffer_as_messages] *)
Variable buffer_as_messages : M lib (list message).
(** [chatbot_chain.invoke({"question": ..., "chat_history": ...}, ...)] *)
Variable chain_invoke : string -> list message -> M lib value.
(** [cosmos_message_history.add_user_message(...)] *)
Variable add_user_message : string -> M lib unit.
(** [cosmos_message_history.add_ai_message(...)] *)
Variable add_ai_message : value -> M lib unit.

(** The module-level list [hist] and the LangChain objects. *)
Record world := mkWorld {
  hist : list (list value);
  langchain : lib
}.

Definition in_lib {A} (m : M lib A) : M world A :=
  fun w =>
    let (r, l) := m (langchain w) in
    (r, mkWorld (hist w) l).

(** [hist.append(row)] *)
Definition hist_append (row : list value) : M world unit :=
  fun w => (Ok tt, mkWorld (hist w ++ [row]) (langchain w)).

(** The callback returns [gr.update(value="")], here the new value of the
    text box, and the list [hist] itself. *)
Definition user (user_message : string) (chat_history : list (list value))
  : M world (string * list (list value)) :=
  let! buffer := in_lib buffer_as_messages in
  let! response := in_lib (chain_invoke user_message (last_n 6 buffer)) in
  let! answer := lift (getitem response "answer") in
  let! reply := lift (py_add_str (VStr "Chatbot: ") answer) in
  run! hist_append [VStr ("User: " +:+ user_message); reply] in
  run! in_lib (add_user_message user_message) in
  let! answer := lift (getitem response "answer") in
  run! in_lib (add_ai_message answer) in
  fun w => (Ok (EmptyString, hist w), w).

(** [lambda: None], bound to the Clear button. *)
Definition clear : M world (option (list (list value))) := ret None.

(** What the form sends: a submitted text or a click on Clear. *)
Inductive ui_event := Submit (text : string) | ClickClear.

(** One event against the displayed conversation ([None] once cleared):
    [msg.submit(user, [msg, chatbot], [msg, chatbot])] and
    [clear.click(lambda: None, None, chatbot)]. *)
Definition handle (e : ui_event) (chatbot : option (list (list value)))
  : M world (option (list (list value))) :=
  match e with
  | Submit text =>
      let! out := user text (default [] chatbot) in
      ret (Some (snd out))
  | ClickClear => clear
  end.

(** A sequence of events; a callback that raises leaves the display as
    it was and the form goes on. *)
Fixpoint session (events : list ui_event)
  (chatbot : option (list (list value))) (w : world)
  : option (list (list value)) * world :=
  match events with
  | [] => (chatbot, w)
  | e :: rest =>
      match handle e chatbot w with
      | (Ok shown, w') => session rest shown w'
      | (Raise _, w') => session rest chatbot w'
      end
  end.

Definition is_submit (e : ui_event) : bool :=
  match e with
  | Submit _ => true
  | ClickClear => false
  end.

End Callback.

Arguments mkWorld {lib}.
Arguments hist {lib}.
Arguments langchain {lib}.
Arguments in_lib {lib A}.
Arguments hist_append {lib}.
Arguments user {lib message}.
Arguments clear {lib}.
Arguments handle {lib message}.
Arguments session {lib message}.

End Chatbot.

(** * Further readings of states and traces *)

Module Reading.

(** The lines printed by the vCore notebooks. *)
Definition printed_lines (evs : list VCore.event) : list string :=
  omap (fun e => match e with
                 | VCore.Print text => Some text
                 | _ => None
                 end) evs.

(** The message lists sent to the completion endpoint. *)
Definition completion_calls (evs : list VCore.event)
  : list (list chat_message) :=
  omap (fun e => match e with
                 | VCore.ChatCompletionsCreate _ messages _ => Some messages
                 | _ => None
                 end) evs.

(** The steps of a pass that come before the completion call all go
    through: the embeddings endpoint yields [emb], the vector index
    answers [results], each holding a document with a content, and the
    history is read, its documents (the three of greatest id) each
    holding a string prompt and a string completion. *)
Definition reaches_completion (svc : VCore.services) (user_input : string)
  (w : VCore.world) (emb : list float64) (results : list value) : Prop :=
  first_embedding_of
    (VCore.embeddings_api svc (VCore.calls w) (VStr user_input)) = Ok emb
  /\ (forall pipeline,
         VCore.vector_index svc (1 + VCore.calls w) (VCore.products w) pipeline
         = Ok results)
  /\ Forall (fun item => exists c, VCore.Chat.result_content item = Ok c)
            results
  /\ VCore.mongo_fault svc (2 + VCore.calls w) = None
  /\ Forall (fun item =>
               exists p c,
                 dict_get "prompt" item = Some (VStr p)
                 /\ dict_get "completion" item = Some (VStr c))
            (firstn 3 (VCore.sort_id_desc (VCore.cache w))).



(** A document that the client and the service accept, with its id. *)
Definition upsertable (object : value) : option (string * dict) :=
  match object with
  | VDict d =>
      match NoSql.stored_id d with
      | Some i => Some (i, d)
      | None => None
      end
  | _ => None
  end.

(** The container after the documents of [loaded] have been written one
    after the other, later documents replacing earlier ones of the same
    id; documents that cannot be written are passed over. *)
Fixpoint upsert_all (loaded : list value) (stored : gmap string dict)
  : gmap string dict :=
  match loaded with
  | [] => stored
  | object :: rest =>
      match upsertable object with
      | Some (i, d) => upsert_all rest (<[i := d]> stored)
      | None => upsert_all rest stored
      end
  end.

(** The last document of [loaded] written under id [i], if any. *)
Fixpoint written_last (i : string) (loaded : list value) : option dict :=
  match loaded with
  | [] => None
  | object :: rest =>
      match written_last i rest with
      | Some d => Some d
      | None =>
          match upsertable object with
          | Some (j, d) => if String.eqb i j then Some d else None
          | None => None
          end
      end
  end.

End Reading.

Module SampleChatbot.

(** A message history held as a list of texts, a chain that always
    answers. *)
Definition buffer : M (list string) (list string) := fun l => (Ok l, l).

Definition chain (question : string) (window : list string)
  : M (list string) value :=
  fun l => (Ok (VDict [("answer", VStr "Toy Story"); ("question", VStr question)]), l).

Definition add_user (text : string) : M (list string) unit :=
  fun l => (Ok tt, l ++ ["human: " +:+ text]).

Definition add_ai (answer : value) : M (list string) unit :=
  fun l =>
    match answer with
    | VStr a => (Ok tt, l ++ ["ai: " +:+ a])
    | _ => (Raise TypeError, l)
    end.

(** A chain that is down. *)
Definition chain_down (question : string) (window : list string)
  : M (list string) value :=
  fun l => (Raise (OpenAIError "429"), l).

Definition start : Chatbot.world (list string) := Chatbot.mkWorld [] [].

End SampleChatbot.

(** * Properties *)

Example str_of_int_0 : str_of_int 0 = "0".
Proof. reflexivity. Qed.
Example str_of_int_42 : str_of_int 42 = "42".
Proof. reflexivity. Qed.
Example str_of_int_neg : str_of_int (-7) = "-7".
Proof. reflexivity. Qed.
Example lower_END : lower "END" = "end".
Proof. reflexivity. Qed.
Example lower_mixed : lower "Azure ML?" = "azure ml?".
Proof. reflexivity. Qed.

(** ** [generate_embeddings] *)

Lemma first_cons {A} (x : A) (l : list A) : first (x :: l) = Ok x.
Proof. reflexivity. Qed.

Lemma chat_generate_embeddings_eq cfg svc text w :
  VCore.Chat.generate_embeddings cfg svc text w =
  (first_embedding_of (VCore.embeddings_api svc (VCore.calls w) text),
   VCore.issue
     (VCore.EmbeddingsCreate text (VCore.openai_embeddings_deployment cfg)
        (VCore.openai_embeddings_dimensions cfg)) w).
Proof.
  unfold VCore.Chat.generate_embeddings, VCore.embeddings_create, bind, lift,
    ret, first_embedding_of.
  destruct (VCore.embeddings_api svc (VCore.calls w) text) as [r|e]; [|done].
  by destruct (data r).
Qed.

Lemma ingest_generate_embeddings_eq cfg svc text w :
  VCore.Ingest.generate_embeddings cfg svc text w =
  (first_embedding_of (VCore.embeddings_api svc (VCore.calls w) text),
   VCore.issue
     (VCore.EmbeddingsCreate text (VCore.openai_embeddings_deployment cfg)
        (VCore.openai_embeddings_dimensions cfg)) w).
Proof. exact (chat_generate_embeddings_eq cfg svc text w). Qed.

Lemma nosql_undecorated_eq cfg svc text w :
  NoSql.generate_embeddings_undecorated cfg svc text w =
  (first_embedding_of (NoSql.embeddings_api svc (NoSql.calls w) text),
   NoSql.issue
     (NoSql.EmbeddingsCreate text (NoSql.openai_embeddings_deployment cfg)
        (NoSql.openai_embeddings_dimensions cfg)) w).
Proof.
  unfold NoSql.generate_embeddings_undecorated, NoSql.embeddings_create, bind,
    lift, ret, first_embedding_of.
  destruct (NoSql.embeddings_api svc (NoSql.calls w) text) as [r|e]; [|done].
  by destruct (data r).
Qed.

(** A first attempt that succeeds is the decorated function's answer. *)
Lemma retry_first_success {A} svc p (fn : M NoSql.world A) w a w' :
  fn w = (Ok a, w') -> NoSql.retry svc p fn w = (Ok a, w').
Proof.
  intros Hfn. unfold NoSql.retry.
  destruct (NoSql.stop_after_attempt p - 1)%nat; simpl; by rewrite Hfn.
Qed.

(** C10: in each of the three notebooks, when the embeddings endpoint
    answers with a data array, [generate_embeddings] returns the embedding
    of its first element; the elements after the first play no part in the
    result, whatever the input (a text or a list of texts). *)
Theorem generate_embeddings_first_element_only :
  forall (text : value) (head : Embedding) (rest : list Embedding),
    (forall cfg svc w,
        VCore.embeddings_api svc (VCore.calls w) text
          = Ok {| data := head :: rest |} ->
        fst (VCore.Chat.generate_embeddings cfg svc text w)
          = Ok (embedding head)
        /\ fst (VCore.Ingest.generate_embeddings cfg svc text w)
          = Ok (embedding head))
    /\ (forall cfg svc w,
        NoSql.embeddings_api svc (NoSql.calls w) text
          = Ok {| data := head :: rest |} ->
        fst (NoSql.generate_embeddings cfg svc text w) = Ok (embedding head)).
Proof.
  intros text head rest. split.
  - intros cfg svc w Hapi.
    rewrite ingest_generate_embeddings_eq, chat_generate_embeddings_eq.
    rewrite Hapi. by split.
  - intros cfg svc w Hapi. unfold NoSql.generate_embeddings.
    erewrite retry_first_success; [reflexivity|].
    rewrite nosql_undecorated_eq, Hapi. reflexivity.
Qed.

Lemma generate_embeddings_first_element_only_witness :
  fst (VCore.Chat.generate_embeddings Sample.vcore_cfg Sample.vcore_svc
         (VList [VStr "first text"; VStr "second text"]) Sample.vcore_empty)
    = Ok [11; 12]
  /\ fst (NoSql.generate_embeddings Sample.nosql_cfg Sample.nosql_svc
         (VList [VStr "first text"; VStr "second text"]) Sample.nosql_empty)
    = Ok [11; 12].
Proof.
  pose proof (generate_embeddings_first_element_only
                (VList [VStr "first text"; VStr "second text"])
                {| embedding := [11; 12]; index := 0 |}
                [ {| embedding := [21; 22]; index := 1 |} ]) as [Hv Hn].
  split.
  - apply (Hv Sample.vcore_cfg Sample.vcore_svc Sample.vcore_empty).
    reflexivity.
  - apply (Hn Sample.nosql_cfg Sample.nosql_svc Sample.nosql_empty).
    reflexivity.
Defined.

(** An empty data array has no first element: the subscript raises. *)
Lemma generate_embeddings_empty_data cfg svc text w :
  VCore.embeddings_api svc (VCore.calls w) text = Ok {| data := [] |} ->
  fst (VCore.Chat.generate_embeddings cfg svc text w) = Raise IndexError.
Proof. intros H. by rewrite chat_generate_embeddings_eq, H. Qed.

(** ** [vector_search] *)

(** C7: [vector_search] issues one aggregation, whose pipeline is the
    two fixed stages [$search] (cosmosSearch over the given vector, path
    contentVector, k the requested number of results, 3 when omitted) and
    [$project] (similarityScore from the search score, document the whole
    stored document), and returns what the aggregation answers, untouched;
    the collections are left as they were. *)
Theorem vector_search_one_fixed_pipeline :
  forall svc (query_embedding : value) (num_results : option value) w,
    let pipeline :=
      VList
        [ VDict
            [("$search",
              VDict
                [("cosmosSearch",
                  VDict [("vector", query_embedding);
                         ("path", VStr "contentVector");
                         ("k", default (VInt 3) num_results)]);
                 ("returnStoredSource", VBool true)])];
          VDict
            [("$project",
              VDict
                [("similarityScore", VDict [("$meta", VStr "searchScore")]);
                 ("document", VStr "$$ROOT")])] ] in
    let (results, w') := VCore.Chat.vector_search svc query_embedding num_results w in
    results = VCore.vector_index svc (VCore.calls w) (VCore.products w) pipeline
    /\ VCore.trace w' = VCore.trace w ++ [VCore.Aggregate pipeline]
    /\ VCore.calls w' = S (VCore.calls w)
    /\ VCore.products w' = VCore.products w
    /\ VCore.cache w' = VCore.cache w.
Proof.
  intros svc q k w. cbv zeta.
  unfold VCore.Chat.vector_search, VCore.aggregate, bind, ret.
  destruct (VCore.vector_index svc (VCore.calls w) (VCore.products w) _)
    as [results|e]; simpl; auto.
Qed.

(** ** [insert_one] and [cache_generation] *)

Lemma value_eqb_oid v n : value_eqb v (VObjectId n) = true <-> v = VObjectId n.
Proof.
  destruct v; simpl; split; try discriminate.
  - intros H. apply N.eqb_eq in H. by subst.
  - intros [= ->]. apply N.eqb_refl.
Qed.

(** No stored document has the id [n]. *)
Lemma oid_not_stored n docs :
  existsb (fun d => value_eqb (VCore.doc_id d) (VObjectId n)) docs = false
  <-> Forall (fun d => VCore.doc_id d <> VObjectId n) docs.
Proof.
  induction docs as [|d docs IH]; simpl.
  - split; [constructor|done].
  - rewrite orb_false_iff, IH, Forall_cons. split.
    + intros [H1 H2]. split; [|done]. intros Heq.
      apply value_eqb_oid in Heq. congruence.
    + intros [H1 H2]. split; [|done].
      destruct (value_eqb _ _) eqn:E; [|done].
      apply value_eqb_oid in E. done.
Qed.

Lemma insert_one_trace svc c d w :
  VCore.trace (snd (VCore.insert_one svc c d w))
  = VCore.trace w ++ [VCore.InsertOne c d].
Proof.
  unfold VCore.insert_one.
  destruct (VCore.mongo_fault svc (VCore.calls w)); [done|].
  destruct (dict_get "_id" d); cbv zeta; destruct (existsb _ _);
    try done; by destruct c.
Qed.

(** The cache after [insert_one Cache]: unchanged when the call raises,
    one more document at the end otherwise. *)
Lemma insert_one_cache svc d w :
  dict_get "_id" d = None ->
  let (r, w') := VCore.insert_one svc VCore.Cache d w in
  VCore.products w' = VCore.products w
  /\ match r with
     | Ok _ =>
         VCore.cache w' =
         VCore.cache w
           ++ [("_id", VObjectId (VCore.new_object_id svc (VCore.calls w)))
               :: d]
     | Raise _ => VCore.cache w' = VCore.cache w
     end.
Proof.
  intros Hid. unfold VCore.insert_one. rewrite Hid.
  destruct (VCore.mongo_fault svc (VCore.calls w)); simpl; auto.
  destruct (existsb _ _); simpl; auto.
Qed.

(** C4: the document [cache_generation] hands to [insert_one] has exactly
    the seven fields prompt, completion, completionTokens, promptTokens,
    totalTokens, model and vectorContent: the user prompt, the first
    choice's message content, the three token counts of the response's
    usage (as decimal strings), the response's model and the query's
    embedding vector.  It is inserted into the cache collection, once,
    under the ObjectId the driver generates for it: stored at the end of
    the collection when the database answers and no cached document has
    that id, and not stored otherwise.  A response without a choice or
    without usage raises before anything is inserted. *)
Theorem cache_generation_document_fields :
  forall svc (user_prompt : string) (user_embeddings : list float64)
         (response : ChatCompletion) (w : VCore.world),
    let w' := snd (VCore.Chat.cache_generation svc user_prompt user_embeddings
                     response w) in
    (forall choice others u,
        choices response = choice :: others ->
        usage response = Some u ->
        let document :=
          [ ("prompt", VStr user_prompt);
            ("completion", optional_str (content (message choice)));
            ("completionTokens", VStr (str_of_int (completion_tokens u)));
            ("promptTokens", VStr (str_of_int (prompt_tokens u)));
            ("totalTokens", VStr (str_of_int (total_tokens u)));
            ("model", VStr (model response));
            ("vectorContent", VList (map VFloat user_embeddings)) ] in
        VCore.trace w' = VCore.trace w ++ [VCore.InsertOne VCore.Cache document]
        /\ dict_keys document =
           ["prompt"; "completion"; "completionTokens"; "promptTokens";
            "totalTokens"; "model"; "vectorContent"]
        /\ (let stored :=
              ("_id", VObjectId (VCore.new_object_id svc (VCore.calls w)))
              :: document in
            (VCore.mongo_fault svc (VCore.calls w) = None ->
             Forall (fun d => VCore.doc_id d <> VCore.doc_id stored)
                    (VCore.cache w) ->
             VCore.cache w' = VCore.cache w ++ [stored])
            /\ (VCore.cache w' = VCore.cache w
                \/ VCore.cache w' = VCore.cache w ++ [stored])))
    /\ (choices response = [] \/ usage response = None ->
        VCore.trace w' = VCore.trace w /\ VCore.cache w' = VCore.cache w).
Proof.
  intros svc user_prompt user_embeddings response w w'. subst w'. split.
  - intros choice others u Hc Hu document.
    unfold VCore.Chat.cache_generation, VCore.Chat.usage_of.
    unfold bind, lift. rewrite Hc, Hu. simpl first.
    fold document. split; [apply insert_one_trace|]. split; [done|].
    cbv zeta. unfold VCore.insert_one.
    change (dict_get "_id" document) with (@None value). cbv zeta.
    destruct (VCore.mongo_fault svc (VCore.calls w)) as [e|].
    { split; [discriminate|by left]. }
    destruct (existsb _ _) eqn:Ex.
    + split; [|by left]. intros _ Hnew.
      apply oid_not_stored in Hnew. simpl in Ex, Hnew. congruence.
    + split; [done|by right].
  - intros [Hc|Hu]; unfold VCore.Chat.cache_generation, bind, lift.
    + by rewrite Hc.
    + destruct (choices response); [done|].
      unfold VCore.Chat.usage_of. by rewrite Hu.
Qed.

(** ** One pass through the loop body *)

Ltac destruct_match :=
  match goal with
  | |- context [match ?x with _ => _ end] =>
      lazymatch x with
      | context [match _ with _ => _ end] => fail
      | _ => destruct x eqn:?
      end
  end.

Ltac unfold_chat :=
  unfold VCore.Chat.loop_body, VCore.Chat.generate_embeddings,
    VCore.Chat.vector_search, VCore.Chat.generate_completion,
    VCore.Chat.get_conversation_history, VCore.Chat.cache_generation,
    VCore.embeddings_create, VCore.aggregate, VCore.find_sort_limit,
    VCore.chat_completions_create, VCore.insert_one, VCore.print,
    VCore.console, bind, lift, ret.

Ltac tidy_trace := simpl; repeat rewrite <- app_assoc; simpl.

Lemma loop_body_outcome cfg svc u w :
  let (r, w') := VCore.Chat.loop_body cfg svc u w in
  exists evs,
    VCore.trace w' = VCore.trace w ++ evs
    /\ VCore.products w' = VCore.products w
    /\ VCore.embedded_inputs evs = [VStr u]
    /\ (length (VCore.searches evs) <= 1)%nat
    /\ VCore.steps evs `prefix_of`
         [VCore.Embed; VCore.Search; VCore.ReadHistory; VCore.Complete;
          VCore.WriteCache]
    /\ Forall (fun e => VCore.writes_documents e = true ->
                        exists d, e = VCore.InsertOne VCore.Cache d) evs
    /\ match r with
       | Ok _ =>
           VCore.steps evs =
             [VCore.Embed; VCore.Search; VCore.ReadHistory; VCore.Complete;
              VCore.WriteCache]
           /\ exists d,
               VCore.cache_inserts evs = [d]
               /\ dict_get "prompt" d = Some (VStr u)
               /\ VCore.cache w' =
                  VCore.cache w
                    ++ [("_id",
                         VObjectId
                           (VCore.new_object_id svc (4 + VCore.calls w)))
                        :: d]
       | Raise _ =>
           VCore.cache w' = VCore.cache w
           /\ (length (VCore.cache_inserts evs) <= 1)%nat
       end.
Proof.
  unfold_chat.
  repeat (destruct_match; simpl).
  all: eexists; split; [tidy_trace; reflexivity|].
  all: split; [reflexivity|]; split; [reflexivity|]; split; [simpl; lia|].
  all: split; [simpl; eexists; reflexivity|].
  all: split; [repeat constructor; simpl; try discriminate; eauto|].
  all: simpl; try (split; [reflexivity|lia]).
  all: try (split; [reflexivity|]; eexists; split; [reflexivity|]; split; reflexivity).
Qed.

(** ** The whole loop *)

Lemma string_eqb_false (a b : string) : String.eqb a b = false -> a <> b.
Proof. intros H ->. by rewrite String.eqb_refl in H. Qed.

Lemma string_eqb_true (a b : string) : String.eqb a b = true -> a = b.
Proof. apply String.eqb_eq. Qed.

Lemma embedded_inputs_app a b :
  VCore.embedded_inputs (a ++ b)
  = VCore.embedded_inputs a ++ VCore.embedded_inputs b.
Proof. apply omap_app. Qed.

Lemma searches_app a b :
  VCore.searches (a ++ b) = VCore.searches a ++ VCore.searches b.
Proof. apply omap_app. Qed.

Lemma cache_inserts_app a b :
  VCore.cache_inserts (a ++ b)
  = VCore.cache_inserts a ++ VCore.cache_inserts b.
Proof. apply omap_app. Qed.

(** What a whole run of the loop does, for any pending input: the body
    runs on the first [k] inputs, [j] of these runs complete, and the loop
    ends normally only in front of an input that lowers to the word end. *)
Lemma qa_loop_run cfg svc : forall pending u w,
  let (r, w') := VCore.Chat.qa_loop cfg svc u pending w in
  exists evs new k j,
    VCore.trace w' = VCore.trace w ++ evs
    /\ VCore.cache w' = VCore.cache w ++ new
    /\ VCore.products w' = VCore.products w
    /\ (j <= k <= length (u :: pending))%nat
    /\ Forall (fun x => lower x <> "end") (firstn k (u :: pending))
    /\ VCore.embedded_inputs evs = map VStr (firstn k (u :: pending))
    /\ (length (VCore.searches evs) <= k)%nat
    /\ (j <= length (VCore.cache_inserts evs) <= k)%nat
    /\ map (dict_get "prompt") new
       = map (fun x => Some (VStr x)) (firstn j (u :: pending))
    /\ Forall (fun e => VCore.writes_documents e = true ->
                        exists d, e = VCore.InsertOne VCore.Cache d) evs
    /\ (r = Ok tt ->
        j = k /\ exists t, (u :: pending) !! k = Some t /\ lower t = "end").
Proof.
  induction pending as [|next pending IH]; intros u w; simpl VCore.Chat.qa_loop.
  all: destruct (String.eqb (lower u) "end") eqn:Hend.
  1,3: apply string_eqb_true in Hend; exists [], [], 0%nat, 0%nat; simpl;
       rewrite !app_nil_r; repeat split; auto; try lia; eauto.
  all: apply string_eqb_false in Hend.
  all: pose proof (loop_body_outcome cfg svc u w) as Hbody.
  all: unfold bind at 1.
  all: destruct (VCore.Chat.loop_body cfg svc u w) as [[[]|e] w1].
  all: destruct Hbody as (evs & Ht & Hp & Hemb & Hs & _ & Hw & Hr).
  2,4: destruct Hr as [Hc Hi]; exists evs, [], 1%nat, 0%nat; simpl;
       rewrite app_nil_r; repeat split; auto; try lia; try discriminate.
  all: destruct Hr as (_ & d & Hi & Hd & Hc).
  - unfold bind, VCore.Chat.input_prompt, VCore.console, raise. simpl.
    exists (evs ++ [VCore.Input "Prompt: "]),
      [("_id", VObjectId (VCore.new_object_id svc (4 + VCore.calls w))) :: d],
      1%nat, 1%nat.
    rewrite embedded_inputs_app, searches_app, cache_inserts_app, Hemb, Hi.
    rewrite !length_app, Ht, app_assoc. simpl.
    repeat split; auto; try lia; try discriminate.
    + by rewrite Hd.
    + apply Forall_app. split; [done|]. repeat constructor. discriminate.
  - unfold bind at 1, VCore.Chat.input_prompt, VCore.console. simpl.
    match goal with |- context [VCore.Chat.qa_loop _ _ _ _ ?w2] =>
      specialize (IH next w2);
      destruct (VCore.Chat.qa_loop cfg svc next pending w2) as [r w'] end.
    destruct IH as (evs' & new' & k' & j' & Ht' & Hc' & Hp' & Hjk & Hnt
                    & Hemb' & Hs' & Hi' & Hnew & Hw' & Hok).
    simpl in Ht', Hc', Hp'.
    exists (evs ++ VCore.Input "Prompt: " :: evs'),
      ((("_id", VObjectId (VCore.new_object_id svc (4 + VCore.calls w))) :: d)
       :: new'),
      (S k'), (S j').
    rewrite embedded_inputs_app, searches_app, cache_inserts_app, Hemb, Hi.
    rewrite !length_app. simpl in *.
    repeat split; auto; try lia.
    + rewrite Ht', Ht, <- !app_assoc. reflexivity.
    + rewrite Hc', Hc, <- !app_assoc. reflexivity.
    + congruence.
    + by rewrite Hemb'.
    + by rewrite Hd, Hnew.
    + apply Forall_app. split; [done|]. constructor; [discriminate|done].
    + destruct (Hok H) as [-> _]. reflexivity.
    + destruct (Hok H) as [_ Ht2]. exact Ht2.
Qed.

(** C2: one pass through the loop body asks the outside world, in this
    order and never in another, for the embedding of the user input, the
    vector search, the cached history, the completion, and the cache
    write.  An SDK exception ends the pass after some first steps of that
    sequence; a pass that completes has run all of them, each once, the
    search on the embedding just obtained and the cache write carrying the
    prompt, the completion just received and that same embedding. *)
Theorem loop_body_step_order :
  forall cfg svc (user_input : string) (w : VCore.world),
    let (r, w') := VCore.Chat.loop_body cfg svc user_input w in
    exists evs,
      VCore.trace w' = VCore.trace w ++ evs
      /\ VCore.steps evs `prefix_of`
           [VCore.Embed; VCore.Search; VCore.ReadHistory; VCore.Complete;
            VCore.WriteCache]
      /\ (r = Ok tt ->
          exists emb pipeline filter projection field direction limit messages
                 completion choice line document,
            evs =
              [ VCore.EmbeddingsCreate (VStr user_input)
                  (VCore.openai_embeddings_deployment cfg)
                  (VCore.openai_embeddings_dimensions cfg);
                VCore.Aggregate pipeline;
                VCore.FindSortLimit filter projection field direction limit;
                VCore.ChatCompletionsCreate
                  (VCore.openai_completions_deployment cfg) messages "Mark";
                VCore.Print line;
                VCore.Print (print_repr (content (message choice)));
                VCore.InsertOne VCore.Cache document ]
            /\ fst (VCore.Chat.generate_embeddings cfg svc (VStr user_input) w)
               = Ok emb
            /\ VCore.search_vector pipeline = Ok (vector_value emb)
            /\ VCore.chat_api svc (3 + VCore.calls w) messages = Ok completion
            /\ first (choices completion) = Ok choice
            /\ dict_get "prompt" document = Some (VStr user_input)
            /\ dict_get "completion" document
               = Some (optional_str (content (message choice)))
            /\ dict_get "vectorContent" document = Some (vector_value emb)).
Proof.
  intros cfg svc u w.
  unfold_chat.
  repeat (destruct_match; simpl).
  all: eexists; split; [tidy_trace; reflexivity|].
  all: split; [simpl; eexists; reflexivity|].
  all: intros Hok; try discriminate Hok.
  do 12 eexists. split; [reflexivity|].
  repeat split; try reflexivity; eassumption.
Qed.

Lemma loop_body_step_order_witness :
  fst (VCore.Chat.loop_body Sample.vcore_cfg Sample.vcore_svc
         "What is Azure ML?" Sample.vcore_world) = Ok tt
  /\ VCore.steps
       (VCore.trace
          (snd (VCore.Chat.loop_body Sample.vcore_cfg Sample.vcore_svc
                  "What is Azure ML?" Sample.vcore_world)))
     = [VCore.Embed; VCore.Search; VCore.ReadHistory; VCore.Complete;
        VCore.WriteCache].
Proof.
  pose proof (loop_body_step_order Sample.vcore_cfg Sample.vcore_svc
                "What is Azure ML?" Sample.vcore_world) as H.
  destruct (VCore.Chat.loop_body Sample.vcore_cfg Sample.vcore_svc
              "What is Azure ML?" Sample.vcore_world) as [r w'] eqn:E.
  vm_compute in E. injection E as <- <-.
  split; [reflexivity|].
  destruct H as (evs & Ht & _ & Hok).
  destruct (Hok eq_refl) as (emb & p & f & pj & fd & dr & lm & ms & c & ch
                             & ln & d & Hevs & _).
  simpl in Ht. rewrite Ht, Hevs. reflexivity.
Defined.

(** ** The cache collection under the loop *)

Lemma qa_cell_eq cfg svc u pending w :
  VCore.Chat.qa_cell cfg svc (u :: pending) w
  = VCore.Chat.qa_loop cfg svc u pending
      (VCore.mkWorld (VCore.db_exists w) (VCore.products w) (VCore.cache w)
         (VCore.calls w)
         (VCore.trace w
            ++ [VCore.Print VCore.Chat.banner; VCore.Input "Prompt: "])).
Proof.
  unfold VCore.Chat.qa_cell, VCore.Chat.input_prompt, VCore.print,
    VCore.console, bind. simpl. by rewrite <- app_assoc.
Qed.


(** ** The terminator *)

Lemma lower_ascii_e c :
  lower_ascii c = "e"%char -> c = "e"%char \/ c = "E"%char.
Proof.
  destruct c as [[] [] [] [] [] [] [] []]; vm_compute; intros H;
    first [discriminate H | by left | by right].
Qed.

Lemma lower_ascii_n c :
  lower_ascii c = "n"%char -> c = "n"%char \/ c = "N"%char.
Proof.
  destruct c as [[] [] [] [] [] [] [] []]; vm_compute; intros H;
    first [discriminate H | by left | by right].
Qed.

Lemma lower_ascii_d c :
  lower_ascii c = "d"%char -> c = "d"%char \/ c = "D"%char.
Proof.
  destruct c as [[] [] [] [] [] [] [] []]; vm_compute; intros H;
    first [discriminate H | by left | by right].
Qed.

Lemma lower_end_spellings s :
  lower s = "end" <->
  In s ["end"; "enD"; "eNd"; "eND"; "End"; "EnD"; "ENd"; "END"].
Proof.
  split.
  - destruct s as [|a [|b [|c [|]]]]; simpl; try discriminate.
    intros H. injection H as Ha Hb Hc.
    apply lower_ascii_e in Ha. apply lower_ascii_n in Hb.
    apply lower_ascii_d in Hc.
    destruct Ha as [-> | ->], Hb as [-> | ->], Hc as [-> | ->]; tauto.
  - simpl. intros H.
    repeat (destruct H as [<-|H]; [reflexivity|]). destruct H.
Qed.

Lemma qa_loop_terminator cfg svc u pending w :
  lower u = "end" -> VCore.Chat.qa_loop cfg svc u pending w = (Ok tt, w).
Proof. intros H. destruct pending; simpl; by rewrite H. Qed.

Lemma qa_loop_other cfg svc u pending w :
  lower u <> "end" ->
  VCore.Chat.qa_loop cfg svc u pending w
  = (run! VCore.Chat.loop_body cfg svc u in
     run! VCore.Chat.input_prompt in
     match pending with
     | [] => raise EOFError
     | next :: pending' => VCore.Chat.qa_loop cfg svc next pending'
     end) w.
Proof.
  intros H. destruct (String.eqb (lower u) "end") eqn:E.
  - by apply string_eqb_true in E.
  - destruct pending; simpl; by rewrite E.
Qed.

(** Lines typed after the terminator are never looked at. *)
Lemma qa_loop_rest_unread cfg svc t after :
  lower t = "end" ->
  forall before u w,
    VCore.Chat.qa_loop cfg svc u (before ++ t :: after) w
    = VCore.Chat.qa_loop cfg svc u (before ++ [t]) w.
Proof.
  intros Ht. induction before as [|b before IH]; intros u w.
  - destruct (String.eqb (lower u) "end") eqn:E.
    + apply string_eqb_true in E. by rewrite !qa_loop_terminator.
    + apply string_eqb_false in E. rewrite !qa_loop_other by done. simpl app.
      unfold bind. destruct (VCore.Chat.loop_body cfg svc u w) as [[|] w1]; [|done].
      destruct (VCore.Chat.input_prompt w1) as [[|] w2]; [|done].
      by rewrite !qa_loop_terminator.
  - destruct (String.eqb (lower u) "end") eqn:E.
    + apply string_eqb_true in E. by rewrite !qa_loop_terminator.
    + apply string_eqb_false in E. rewrite !qa_loop_other by done. simpl app.
      unfold bind. destruct (VCore.Chat.loop_body cfg svc u w) as [[|] w1]; [|done].
      destruct (VCore.Chat.input_prompt w1) as [[|] w2]; [|done].
      apply IH.
Qed.

Lemma take_before_terminator {A} (P : A -> Prop) (before after : list A) t k :
  Forall P (firstn k (before ++ t :: after)) -> ~ P t ->
  (k <= length before)%nat.
Proof.
  intros HF Ht. destruct (decide (k <= length before)%nat) as [|Hgt]; [done|].
  exfalso. apply Ht.
  rewrite Forall_lookup in HF. apply (HF (length before)).
  rewrite lookup_take_lt by lia. apply list_lookup_middle. done.
Qed.

(** C9: the loop body runs for an input exactly when the input lowered
    differs from the word end, which the eight spellings of that word in
    upper and lower case are alone to match.  On such an input the loop
    returns at once and leaves the world as it is.  In a run of the cell
    whose first terminating line comes after the lines [before], the body
    runs on lines of [before] only, in order, and on all of them when no
    exception ends the run; the terminating line is never sent to the
    embeddings endpoint, gives rise to no search and is never the prompt of
    a cache document, and nothing typed after it is read. *)
Theorem qa_loop_ends_at_end :
  (forall s, lower s = "end" <->
             In s ["end"; "enD"; "eNd"; "eND"; "End"; "EnD"; "ENd"; "END"])
  /\ (forall cfg svc u pending w,
         lower u = "end" ->
         VCore.Chat.qa_loop cfg svc u pending w = (Ok tt, w))
  /\ (forall cfg svc u pending w,
         lower u <> "end" ->
         VCore.Chat.qa_loop cfg svc u pending w
         = (run! VCore.Chat.loop_body cfg svc u in
            run! VCore.Chat.input_prompt in
            match pending with
            | [] => raise EOFError
            | next :: pending' => VCore.Chat.qa_loop cfg svc next pending'
            end) w)
  /\ (forall cfg svc (before : list string) (t : string) (after : list string)
             (w : VCore.world),
         Forall (fun u => lower u <> "end") before ->
         lower t = "end" ->
         VCore.Chat.qa_cell cfg svc (before ++ t :: after) w
         = VCore.Chat.qa_cell cfg svc (before ++ [t]) w
         /\ let (r, w') := VCore.Chat.qa_cell cfg svc (before ++ t :: after) w in
            exists evs new k j,
              VCore.trace w' = VCore.trace w ++ evs
              /\ VCore.cache w' = VCore.cache w ++ new
              /\ (j <= k <= length before)%nat
              /\ VCore.embedded_inputs evs = map VStr (firstn k before)
              /\ (length (VCore.searches evs) <= k)%nat
              /\ map (dict_get "prompt") new
                 = map (fun x => Some (VStr x)) (firstn j before)
              /\ ~ In (VStr t) (VCore.embedded_inputs evs)
              /\ ~ In (Some (VStr t)) (map (dict_get "prompt") new)
              /\ (r = Ok tt -> j = length before /\ k = length before)).
Proof.
  split; [exact lower_end_spellings|].
  split; [exact qa_loop_terminator|].
  split; [exact qa_loop_other|].
  intros cfg svc before t after w Hbefore Ht.
  assert (Hnot : forall n, ~ In t (firstn n before)).
  { intros n Hin. apply list_elem_of_In, elem_of_take in Hin as (i & Hi & _).
    rewrite Forall_lookup in Hbefore. by apply (Hbefore i t). }
  split.
  { destruct before as [|b before]; simpl app; rewrite !qa_cell_eq.
    - by rewrite !qa_loop_terminator.
    - apply qa_loop_rest_unread. done. }
  destruct (before ++ t :: after) as [|u pending] eqn:Hin.
  { by destruct before. }
  rewrite qa_cell_eq.
  match goal with |- context [VCore.Chat.qa_loop _ _ _ _ ?w2] =>
    pose proof (qa_loop_run cfg svc pending u w2) as H;
    destruct (VCore.Chat.qa_loop cfg svc u pending w2) as [r w'] end.
  destruct H as (evs & new & k & j & Htr & Hc & _ & Hjk & Hnt & Hemb & Hs
                 & Hi & Hnew & _ & Hok).
  simpl in Htr, Hc. rewrite <- Hin in *.
  assert (Hk : (k <= length before)%nat).
  { eapply take_before_terminator; [exact Hnt|]. by intros H. }
  rewrite take_app_le in Hemb by lia.
  rewrite take_app_le in Hnew by lia.
  exists (VCore.Print VCore.Chat.banner :: VCore.Input "Prompt: " :: evs),
    new, k, j.
  split; [by rewrite Htr, <- app_assoc|]. split; [done|].
  split; [lia|]. split; [done|]. split; [done|]. split; [done|].
  split.
  { simpl. rewrite Hemb. intros Hx. apply in_map_iff in Hx as (x & Hx & Hinx).
    injection Hx as ->. by apply (Hnot k). }
  split.
  { rewrite Hnew. intros Hx. apply in_map_iff in Hx as (x & Hx & Hinx).
    injection Hx as ->. by apply (Hnot j). }
  intros Hr. destruct (Hok Hr) as (-> & t' & Hlk & Ht').
  assert (k = length before); [|lia].
  destruct (decide (k = length before)) as [|Hne]; [done|]. exfalso.
  rewrite lookup_app_l in Hlk by lia.
  rewrite Forall_lookup in Hbefore. by apply (Hbefore k t').
Qed.

Lemma qa_loop_ends_at_end_witness :
  Forall (fun u => lower u <> "end") ["What is Azure ML?"]
  /\ lower "END" = "end"
  /\ VCore.Chat.qa_cell Sample.vcore_cfg Sample.vcore_svc
       (["What is Azure ML?"] ++ "END" :: ["never read"]) Sample.vcore_empty
     = VCore.Chat.qa_cell Sample.vcore_cfg Sample.vcore_svc
         (["What is Azure ML?"] ++ ["END"]) Sample.vcore_empty.
Proof.
  assert (H1 : Forall (fun u => lower u <> "end") ["What is Azure ML?"])
    by (repeat constructor; discriminate).
  assert (H2 : lower "END" = "end") by reflexivity.
  split; [exact H1|]. split; [exact H2|].
  exact (proj1 (proj2 (proj2 (proj2 qa_loop_ends_at_end)) Sample.vcore_cfg
                  Sample.vcore_svc ["What is Azure ML?"] "END" ["never read"]
                  Sample.vcore_empty H1 H2)).
Defined.

(** ** The message list *)

Lemma dict_get_project fields k d :
  In k ("_id" :: fields) ->
  dict_get k (VCore.project fields d) = dict_get k d.
Proof.
  intros Hin. unfold VCore.project.
  induction d as [|[k' v] d IH]; [done|].
  cbn [List.filter fst dict_get].
  destruct (existsb (String.eqb k') ("_id" :: fields)) eqn:Ex.
  - cbn [dict_get]. by rewrite IH.
  - destruct (String.eqb k k') eqn:E; [|done].
    apply String.eqb_eq in E as <-.
    assert (existsb (String.eqb k) ("_id" :: fields) = true) as Hex.
    { apply existsb_exists. exists k. split; [done|apply String.eqb_refl]. }
    congruence.
Qed.

Lemma history_content_ok item p c :
  dict_get "prompt" item = Some (VStr p) ->
  dict_get "completion" item = Some (VStr c) ->
  VCore.Chat.history_content (VCore.project ["prompt"; "completion"] item)
  = Ok (VStr ((p +:+ " ") +:+ c)).
Proof.
  intros Hp Hc. unfold VCore.Chat.history_content, getitem, VCore.Chat.rbind.
  rewrite !dict_get_project by (simpl; tauto).
  by rewrite Hp, Hc.
Qed.

Lemma append_system_ok {A} (f : A -> result value) items contents :
  Forall2 (fun item c => f item = Ok c) items contents ->
  forall messages,
    VCore.Chat.append_system f items messages
    = Ok (messages ++ map VCore.Chat.system_message contents).
Proof.
  induction 1 as [|item c items contents Hf _ IH]; intros messages; simpl.
  - by rewrite app_nil_r.
  - rewrite Hf. simpl. rewrite IH, <- app_assoc. reflexivity.
Qed.






(** A cached completion that is not a string (the endpoint may answer
    with no content) cannot be rendered: the concatenation raises and the
    completion endpoint is not called. *)
Example generate_completion_none_completion :
  let w := VCore.mkWorld true []
             [[("_id", VObjectId 1); ("prompt", VStr "q"); ("completion", VNone)]]
             0 [] in
  let (r, w') :=
    VCore.Chat.generate_completion Sample.vcore_cfg Sample.vcore_svc [] "next" w in
  r = Raise TypeError /\ VCore.steps (VCore.trace w') = [VCore.ReadHistory].
Proof. vm_compute. by split. Qed.


(** ** [insert_data] *)

Lemma stored_id_inv d i :
  NoSql.stored_id d = Some i ->
  NoSql.validate_resource d = None
  /\ dict_get "id" d = Some (VStr i) /\ i <> EmptyString.
Proof.
  unfold NoSql.stored_id.
  destruct (NoSql.validate_resource d); [discriminate|].
  destruct (dict_get "id" d) as [[| | | |[|c rest]| | |]|]; try discriminate.
  by intros [= <-].
Qed.

(** An upsert that neither the client nor the service refuses. *)
Lemma upsert_item_accepted svc d i w :
  NoSql.stored_id d = Some i ->
  NoSql.cosmos_fault svc (NoSql.calls w) = None ->
  NoSql.upsert_item svc (VDict d) w
  = (Ok tt,
     NoSql.mkWorld (<[i := d]> (NoSql.container w)) (S (NoSql.calls w))
       (NoSql.trace w ++ [NoSql.UpsertItem (VDict d)])).
Proof.
  intros Hst Hok. apply stored_id_inv in Hst as (Hv & Hid & Hne).
  unfold NoSql.upsert_item. rewrite Hv, Hok, Hid.
  by destruct i.
Qed.

Lemma upsert_item_spec svc body w :
  exists r c,
    NoSql.upsert_item svc body w
    = (r, NoSql.mkWorld c (S (NoSql.calls w))
            (NoSql.trace w ++ [NoSql.UpsertItem body]))
    /\ match r with
       | Ok _ =>
           exists i d,
             body = VDict d /\ NoSql.stored_id d = Some i
             /\ dict_get "id" d = Some (VStr i)
             /\ c = <[i := d]> (NoSql.container w)
       | Raise _ => c = NoSql.container w
       end.
Proof.
  unfold NoSql.upsert_item.
  destruct body as [| | | | | | |d];
    try (eexists _, _; split; [reflexivity|done]).
  destruct (NoSql.validate_resource d) eqn:Hv.
  { eexists _, _. split; [reflexivity|done]. }
  destruct (NoSql.cosmos_fault svc (NoSql.calls w)).
  { eexists _, _. split; [reflexivity|done]. }
  destruct (dict_get "id" d) as [[| | | |[|c rest]| | |]|] eqn:E;
    try (eexists _, _; split; [reflexivity|done]).
  eexists _, _. split; [reflexivity|]. exists (String c rest), d.
  unfold NoSql.stored_id. by rewrite Hv, E.
Qed.

Lemma upserted_app a b :
  NoSql.upserted (a ++ b) = NoSql.upserted a ++ NoSql.upserted b.
Proof. apply omap_app. Qed.

Lemma upserted_loop_trace loaded counter :
  NoSql.upserted (NoSql.loop_trace loaded counter) = loaded.
Proof.
  revert counter. induction loaded as [|object loaded IH]; intros counter; [done|].
  simpl. rewrite upserted_app, IH.
  by destruct ((counter + 1) mod 100 =? 0)%Z.
Qed.

(** The loop, from any counter and any world. *)
Lemma insert_loop_run svc : forall loaded counter w,
  let (r, w') := NoSql.insert_loop svc loaded counter w in
  exists evs,
    NoSql.trace w' = NoSql.trace w ++ evs
    /\ NoSql.upserted evs `prefix_of` loaded
    /\ (forall i, ~ In i (NoSql.written_ids loaded) ->
                  NoSql.container w' !! i = NoSql.container w !! i)
    /\ match r with
       | Ok c =>
           c = counter + Z.of_nat (length loaded)
           /\ evs = NoSql.loop_trace loaded counter
       | Raise _ => True
       end.
Proof.
  induction loaded as [|object loaded IH]; intros counter w.
  - simpl. exists []. split; [by rewrite app_nil_r|].
    split; [apply prefix_nil|]. split; [done|]. split; [lia|done].
  - cbn [NoSql.insert_loop]. unfold bind at 1.
    destruct (upsert_item_spec svc object w) as (r & c & -> & Hr).
    destruct r as [[]|e].
    + destruct Hr as (i & d & -> & Hst & Hid & ->).
      unfold bind at 1.
      match goal with |- context [NoSql.insert_loop _ _ _] =>
        set (w1 := NoSql.mkWorld (<[i:=d]> (NoSql.container w))
                     (S (NoSql.calls w))
                     (NoSql.trace w ++ [NoSql.UpsertItem (VDict d)])) end.
      destruct ((counter + 1) mod 100 =? 0)%Z eqn:Hmod.
      * unfold NoSql.print, NoSql.note. cbn beta iota.
        match goal with |- context [NoSql.insert_loop _ _ _ ?w2] =>
          specialize (IH (counter + 1) w2);
          destruct (NoSql.insert_loop svc loaded (counter + 1) w2) as [r w'] end.
        destruct IH as (evs & Ht & Hpre & Hother & Hr). simpl in Ht, Hother.
        exists (NoSql.UpsertItem (VDict d)
                :: NoSql.Print (NoSql.progress_message (counter + 1)) :: evs).
        split; [by rewrite Ht, <- !app_assoc|].
        split; [simpl; by apply prefix_cons|].
        split.
        { intros k Hk. simpl in Hk. rewrite Hid in Hk. rewrite Hother.
          - apply lookup_insert_ne. intros ->. apply Hk. by left.
          - intros Hin. apply Hk. by right. }
        destruct r; [|done]. destruct Hr as [-> ->].
        split; [simpl length; lia|]. simpl. by rewrite Hmod.
      * unfold ret. cbn beta iota.
        specialize (IH (counter + 1) w1).
        destruct (NoSql.insert_loop svc loaded (counter + 1) w1) as [r w'].
        destruct IH as (evs & Ht & Hpre & Hother & Hr). simpl in Ht, Hother.
        exists (NoSql.UpsertItem (VDict d) :: evs).
        split; [by rewrite Ht, <- !app_assoc|].
        split; [simpl; by apply prefix_cons|].
        split.
        { intros k Hk. simpl in Hk. rewrite Hid in Hk. rewrite Hother.
          - apply lookup_insert_ne. intros ->. apply Hk. by left.
          - intros Hin. apply Hk. by right. }
        destruct r; [|done]. destruct Hr as [-> ->].
        split; [simpl length; lia|]. simpl. by rewrite Hmod.
    + subst c. exists [NoSql.UpsertItem object]. simpl.
      split; [done|]. split; [|done].
      destruct object; simpl; try apply prefix_cons, prefix_nil.
      all: by apply prefix_cons, prefix_nil.
Qed.

Lemma printed_app a b :
  NoSql.printed (a ++ b) = NoSql.printed a ++ NoSql.printed b.
Proof. apply omap_app. Qed.

(** One progress line per counter value that is a multiple of 100. *)
Lemma printed_loop_trace loaded : forall counter,
  NoSql.printed (NoSql.loop_trace loaded counter)
  = map NoSql.progress_message
      (List.filter (fun c => (c mod 100 =? 0)%Z)
         (map (fun i => counter + Z.of_nat i) (seq 1 (length loaded)))).
Proof.
  induction loaded as [|object loaded IH]; intros counter; [done|].
  cbn [NoSql.loop_trace length seq map].
  change (NoSql.printed (NoSql.UpsertItem object :: ?l))
    with (NoSql.printed l).
  rewrite printed_app, IH, <- (seq_shift (length loaded) 1), map_map.
  replace (counter + Z.of_nat 1) with (counter + 1) by lia.
  assert (Hshift : map (fun i => counter + 1 + Z.of_nat i) (seq 1 (length loaded))
                   = map (fun i => counter + Z.of_nat (S i)) (seq 1 (length loaded))).
  { apply map_ext. intros i. lia. }
  rewrite Hshift. cbn [List.filter].
  by destruct ((counter + 1) mod 100 =? 0)%Z.
Qed.

(** C8: [insert_data] writes the loaded documents one after the other in
    list order: the upserts it issues are always a first part of the list,
    an upsert being issued only once the one before has returned, and a
    run that completes has issued exactly one upsert per document.  The
    counter then ends at the number of documents, and a progress line is
    printed right after an upsert exactly when the counter has reached a
    multiple of 100. *)
Theorem insert_data_is_sequential :
  forall svc (loaded : list value) (w : NoSql.world),
    (forall counter,
        let (r, w') := NoSql.insert_loop svc loaded counter w in
        exists evs,
          NoSql.trace w' = NoSql.trace w ++ evs
          /\ NoSql.upserted evs `prefix_of` loaded
          /\ (forall c, r = Ok c ->
                        c = counter + Z.of_nat (length loaded)
                        /\ evs = NoSql.loop_trace loaded counter
                        /\ NoSql.upserted evs = loaded))
    /\ (let (r, w') := NoSql.insert_data svc loaded w in
        exists evs,
          NoSql.trace w' = NoSql.trace w ++ evs
          /\ NoSql.upserted evs `prefix_of` loaded
          /\ (r = Ok tt ->
              evs = NoSql.ClientEnter
                    :: NoSql.loop_trace loaded 0
                    ++ [NoSql.Print "Upsert completed!"]
              /\ NoSql.upserted evs = loaded))
    /\ NoSql.printed (NoSql.loop_trace loaded 0)
       = map NoSql.progress_message
           (List.filter (fun c => (c mod 100 =? 0)%Z)
              (map Z.of_nat (seq 1 (length loaded)))).
Proof.
  intros svc loaded w. split; [|split].
  - intros counter. pose proof (insert_loop_run svc loaded counter w) as H.
    destruct (NoSql.insert_loop svc loaded counter w) as [r w'].
    destruct H as (evs & Ht & Hpre & _ & Hr). exists evs.
    split; [done|]. split; [done|]. intros c ->. destruct Hr as [-> ->].
    split; [done|]. split; [done|]. apply upserted_loop_trace.
  - unfold NoSql.insert_data, NoSql.cosmos_call, bind at 1.
    destruct (NoSql.cosmos_fault svc (NoSql.calls w)).
    { exists [NoSql.ClientEnter]. split; [done|]. split; [apply prefix_nil|].
      discriminate. }
    unfold bind.
    match goal with |- context [NoSql.insert_loop _ _ _ ?w1] =>
      pose proof (insert_loop_run svc loaded 0 w1) as H;
      destruct (NoSql.insert_loop svc loaded 0 w1) as [r w'] end.
    destruct H as (evs & Ht & Hpre & _ & Hr). simpl in Ht.
    destruct r as [c|e].
    + destruct Hr as [-> ->]. unfold NoSql.print, NoSql.note.
      exists (NoSql.ClientEnter :: NoSql.loop_trace loaded 0
              ++ [NoSql.Print "Upsert completed!"]).
      cbn [NoSql.trace]. split; [by rewrite Ht, <- !app_assoc|].
      assert (Hu : NoSql.upserted
                     (NoSql.ClientEnter :: NoSql.loop_trace loaded 0
                      ++ [NoSql.Print "Upsert completed!"]) = loaded).
      { change (NoSql.upserted (NoSql.ClientEnter :: ?l)) with (NoSql.upserted l).
        rewrite upserted_app, upserted_loop_trace. simpl. apply app_nil_r. }
      rewrite Hu. done.
    + exists (NoSql.ClientEnter :: evs).
      split; [by rewrite Ht, <- !app_assoc|]. split; [done|]. discriminate.
  - rewrite printed_loop_trace. do 2 f_equal.
Qed.

Lemma insert_data_is_sequential_witness :
  fst (NoSql.insert_data Sample.nosql_svc
         [Sample.movie "1" "Toy Story"; Sample.movie "2" "Heat"]
         Sample.nosql_empty) = Ok tt
  /\ NoSql.upserted
       (NoSql.trace
          (snd (NoSql.insert_data Sample.nosql_svc
                  [Sample.movie "1" "Toy Story"; Sample.movie "2" "Heat"]
                  Sample.nosql_empty)))
     = [Sample.movie "1" "Toy Story"; Sample.movie "2" "Heat"].
Proof.
  pose proof (proj1 (proj2 (insert_data_is_sequential Sample.nosql_svc
                              [Sample.movie "1" "Toy Story";
                               Sample.movie "2" "Heat"]
                              Sample.nosql_empty))) as H.
  split; [reflexivity|].
  destruct H as (evs & Ht & _ & Hok).
  destruct (Hok eq_refl) as [_ Hu].
  transitivity (NoSql.upserted evs); [|exact Hu].
  f_equal. exact Ht.
Defined.

(** Two hundred documents: two progress lines, then the closing line. *)
Example insert_data_progress_lines :
  NoSql.printed
    (NoSql.trace
       (snd (NoSql.insert_data Sample.nosql_svc
               (replicate 200 (Sample.movie "1" "Toy Story"))
               Sample.nosql_empty)))
  = ["Inserted 100 documents into collection.";
     "Inserted 200 documents into collection.";
     "Upsert completed!"].
Proof. vm_compute. reflexivity. Qed.

(** ** Item documents *)

Lemma insert_one_products svc d w :
  let (r, w') := VCore.insert_one svc VCore.Products d w in
  VCore.cache w' = VCore.cache w
  /\ match r with
     | Ok _ =>
         exists stored,
           VCore.products w' = VCore.products w ++ [stored]
           /\ (stored = d \/ exists n, stored = ("_id", VObjectId n) :: d)
     | Raise _ => VCore.products w' = VCore.products w
     end.
Proof.
  unfold VCore.insert_one.
  destruct (VCore.mongo_fault svc (VCore.calls w)); [done|].
  destruct (dict_get "_id" d); cbv zeta; (destruct (existsb _ _); [done|]);
    simpl.
  - split; [done|]. eexists. split; [reflexivity|by left].
  - split; [done|]. eexists. split; [reflexivity|]. right. by eexists.
Qed.

Lemma ingest_object_outcome cfg svc obj w :
  let (r, w') := VCore.Ingest.ingest_object cfg svc obj w in
  VCore.cache w' = VCore.cache w
  /\ match r with
     | Ok _ =>
         exists d v stored,
           obj = VDict d
           /\ VCore.products w' = VCore.products w ++ [stored]
           /\ (stored = dict_set "contentVector" v d
               \/ exists n,
                   stored = ("_id", VObjectId n) :: dict_set "contentVector" v d)
     | Raise _ => VCore.products w' = VCore.products w
     end.
Proof.
  unfold VCore.Ingest.ingest_object, bind, lift.
  destruct (VCore.json_dumps svc obj) as [s|e]; [|done].
  rewrite ingest_generate_embeddings_eq.
  destruct (first_embedding_of _) as [v|e]; [|done].
  destruct obj as [| | | | | | |d]; try done.
  match goal with |- context [VCore.insert_one svc _ ?doc ?w1] =>
    pose proof (insert_one_products svc doc w1) as H;
    destruct (VCore.insert_one svc VCore.Products doc w1) as [[[]|e] w'] end.
  - destruct H as (Hc & stored & Hp & Hs). split; [done|].
    exists d, (vector_value v), stored. auto.
  - done.
Qed.

(** The ingestion loop only appends to the items collection. *)
Lemma ingest_loop_appends cfg svc : forall objects w,
  let (r, w') := for_each (VCore.Ingest.ingest_object cfg svc) objects w in
  exists new,
    VCore.products w' = VCore.products w ++ new
    /\ (length new <= length objects)%nat
    /\ match r with
       | Ok _ =>
           Forall2
             (fun obj stored =>
                exists d v,
                  obj = VDict d
                  /\ (stored = dict_set "contentVector" v d
                      \/ exists n,
                          stored
                          = ("_id", VObjectId n) :: dict_set "contentVector" v d))
             objects new
       | Raise _ => True
       end.
Proof.
  induction objects as [|obj objects IH]; intros w.
  - simpl. exists []. rewrite app_nil_r. repeat split; auto.
  - cbn [for_each]. unfold bind.
    pose proof (ingest_object_outcome cfg svc obj w) as H.
    destruct (VCore.Ingest.ingest_object cfg svc obj w) as [[[]|e] w1].
    + destruct H as (_ & d & v & stored & -> & Hp & Hs).
      specialize (IH w1).
      destruct (for_each (VCore.Ingest.ingest_object cfg svc) objects w1)
        as [r w'].
      destruct IH as (new & Hp' & Hlen & Hr).
      exists (stored :: new).
      split; [by rewrite Hp', Hp, <- app_assoc|].
      split; [simpl; lia|].
      destruct r; [|done]. constructor; [|done]. eauto.
    + destruct H as [_ Hp]. exists []. rewrite app_nil_r.
      split; [done|]. split; [simpl; lia|done].
Qed.

Lemma setup_database_products svc w :
  let w' := snd (VCore.Ingest.setup_database svc w) in
  (VCore.db_exists w = false -> VCore.products w' = VCore.products w)
  /\ (VCore.db_exists w = true ->
      VCore.mongo_fault svc (VCore.calls w) = None ->
      VCore.mongo_fault svc (S (VCore.calls w)) = None ->
      VCore.products w' = [] /\ VCore.cache w' = []).
Proof.
  unfold VCore.Ingest.setup_database,
    VCore.Ingest.create_collection_and_vector_index, VCore.database_listed,
    VCore.drop_database, VCore.create_indexes, bind, ret.
  split.
  - intros Hno. rewrite Hno.
    repeat (destruct_match; simpl); done.
  - intros Hyes H1 H2. rewrite Hyes, H1. simpl. rewrite H2. simpl.
    repeat (destruct_match; simpl); done.
Qed.

(** The claim that a stored item document is never overwritten fails on
    the NoSQL notebook: [insert_data] upserts, so a loaded document takes
    the place of the stored document that has its id. *)
Lemma stored_item_overwritten_by_upsert :
  ~ (forall svc (loaded : list value) (w : NoSql.world) (i : string) (d : dict),
        NoSql.container w !! i = Some d ->
        NoSql.container (snd (NoSql.insert_data svc loaded w)) !! i = Some d).
Proof.
  intros H.
  specialize (H Sample.nosql_svc [Sample.movie "7" "Heat"]
                (NoSql.mkWorld
                   {["7" := [("id", VStr "7");
                             ("original_title", VStr "Toy Story")]]} 0 [])
                "7"
                [("id", VStr "7"); ("original_title", VStr "Toy Story")]).
  simpl in H. rewrite lookup_singleton_eq, lookup_insert_eq in H.
  specialize (H eq_refl). discriminate H.
Qed.

(** The set-up cell of the vCore ingestion notebook deletes what is
    stored: run on an existing database, it leaves no item document. *)
Example setup_database_drops_items :
  VCore.products
    (snd (VCore.Ingest.setup_database Sample.vcore_svc
            (VCore.mkWorld true
               [[("_id", VObjectId 1); ("content", VStr "Azure ML")]] [] 0 [])))
  = [].
Proof. reflexivity. Qed.

(** One upsert per loaded document, in order, as long as none fails. *)
Lemma insert_data_upserts svc loaded w :
  let (r, w') := NoSql.insert_data svc loaded w in
  exists evs,
    NoSql.trace w' = NoSql.trace w ++ evs
    /\ NoSql.upserted evs `prefix_of` loaded
    /\ (r = Ok tt -> NoSql.upserted evs = loaded).
Proof.
  unfold NoSql.insert_data, NoSql.cosmos_call, bind at 1.
  destruct (NoSql.cosmos_fault svc (NoSql.calls w)).
  { exists [NoSql.ClientEnter]. split; [done|]. split; [apply prefix_nil|].
    discriminate. }
  unfold bind.
  match goal with |- context [NoSql.insert_loop _ _ _ ?w1] =>
    pose proof (insert_loop_run svc loaded 0 w1) as H;
    destruct (NoSql.insert_loop svc loaded 0 w1) as [r w'] end.
  destruct H as (evs & Ht & Hpre & _ & Hr). simpl in Ht.
  destruct r as [c|e].
  - destruct Hr as [_ ->]. unfold NoSql.print, NoSql.note.
    exists (NoSql.ClientEnter :: NoSql.loop_trace loaded 0
            ++ [NoSql.Print "Upsert completed!"]).
    cbn [NoSql.trace]. split; [by rewrite Ht, <- !app_assoc|].
    change (NoSql.upserted (NoSql.ClientEnter :: ?l)) with (NoSql.upserted l).
    rewrite upserted_app, upserted_loop_trace. simpl. rewrite app_nil_r.
    done.
  - exists (NoSql.ClientEnter :: evs).
    split; [by rewrite Ht, <- !app_assoc|]. split; [done|]. discriminate.
Qed.

(** C6, amended: item documents are created by ingestion and read by
    search.  The vCore ingestion loop only appends: every stored item
    document stays in place and unchanged, and each object ingested adds
    one document, the object with its contentVector set.  The question
    answering cell never changes the items collection.  The NoSQL
    [insert_data] loop issues its upserts in the order of the loaded
    data, one per element when none fails.  It leaves every stored
    document whose id is not the id of a loaded document as it was; an
    upsert that raises changes nothing; and an upsert that the client and
    the service accept puts the loaded document in the place of whatever
    was stored under its id.  The vCore set-up cell leaves the items
    alone when there is no database yet and drops them all with the
    database when there is one. *)
Theorem item_documents_lifecycle :
  (forall cfg svc (objects : list value) (w : VCore.world),
      let (r, w') :=
        for_each (VCore.Ingest.ingest_object cfg svc) objects w in
      exists new,
        VCore.products w' = VCore.products w ++ new
        /\ (length new <= length objects)%nat
        /\ (r = Ok tt ->
            Forall2
              (fun obj stored =>
                 exists d v,
                   obj = VDict d
                   /\ (stored = dict_set "contentVector" v d
                       \/ exists n,
                           stored
                           = ("_id", VObjectId n)
                             :: dict_set "contentVector" v d))
              objects new))
  /\ (forall cfg svc (inputs : list string) (w : VCore.world),
         VCore.products (snd (VCore.Chat.qa_cell cfg svc inputs w))
         = VCore.products w)
  /\ (forall svc (loaded : list value) (w : NoSql.world),
         let (r, w') := NoSql.insert_data svc loaded w in
         exists evs,
           NoSql.trace w' = NoSql.trace w ++ evs
           /\ NoSql.upserted evs `prefix_of` loaded
           /\ (r = Ok tt -> NoSql.upserted evs = loaded))
  /\ (forall svc (loaded : list value) (w : NoSql.world) (i : string),
         ~ In i (NoSql.written_ids loaded) ->
         NoSql.container (snd (NoSql.insert_data svc loaded w)) !! i
         = NoSql.container w !! i)
  /\ (forall svc (body : value) (w : NoSql.world) (e : exn),
         fst (NoSql.upsert_item svc body w) = Raise e ->
         NoSql.container (snd (NoSql.upsert_item svc body w))
         = NoSql.container w)
  /\ (forall svc (d : dict) (i : string) (w : NoSql.world),
         NoSql.stored_id d = Some i ->
         NoSql.cosmos_fault svc (NoSql.calls w) = None ->
         NoSql.container (snd (NoSql.upsert_item svc (VDict d) w)) !! i
         = Some d)
  /\ (forall svc (w : VCore.world),
         VCore.db_exists w = false ->
         VCore.products (snd (VCore.Ingest.setup_database svc w))
         = VCore.products w)
  /\ (forall svc (w : VCore.world),
         VCore.db_exists w = true ->
         VCore.mongo_fault svc (VCore.calls w) = None ->
         VCore.mongo_fault svc (S (VCore.calls w)) = None ->
         VCore.products (snd (VCore.Ingest.setup_database svc w)) = []).
Proof.
  split; [|split; [|split; [|split; [|split; [|split; [|split]]]]]].
  - intros cfg svc objects w.
    pose proof (ingest_loop_appends cfg svc objects w) as H.
    destruct (for_each _ objects w) as [r w'].
    destruct H as (new & Hp & Hlen & Hr). exists new.
    split; [done|]. split; [done|]. by intros ->.
  - intros cfg svc [|u pending] w.
    + reflexivity.
    + rewrite qa_cell_eq.
      match goal with |- context [VCore.Chat.qa_loop _ _ _ _ ?w2] =>
        pose proof (qa_loop_run cfg svc pending u w2) as H;
        destruct (VCore.Chat.qa_loop cfg svc u pending w2) as [r w'] end.
      destruct H as (evs & new & k & j & _ & _ & Hp & _). exact Hp.
  - intros svc loaded w. apply insert_data_upserts.
  - intros svc loaded w i Hi.
    unfold NoSql.insert_data, NoSql.cosmos_call, bind at 1.
    destruct (NoSql.cosmos_fault svc (NoSql.calls w)); [done|].
    unfold bind.
    match goal with |- context [NoSql.insert_loop _ _ _ ?w1] =>
      pose proof (insert_loop_run svc loaded 0 w1) as H;
      destruct (NoSql.insert_loop svc loaded 0 w1) as [r w'] end.
    destruct H as (evs & _ & _ & Hother & _).
    destruct r; simpl; by rewrite Hother.
  - intros svc body w e.
    destruct (upsert_item_spec svc body w) as (r & c & -> & Hr).
    simpl. by intros ->.
  - intros svc d i w Hst Hok.
    rewrite (upsert_item_accepted svc d i w Hst Hok). simpl.
    apply lookup_insert_eq.
  - intros svc w. apply (setup_database_products svc w).
  - intros svc w H0 H1 H2.
    by destruct (proj2 (setup_database_products svc w) H0 H1 H2).
Qed.

(** ** Retry and propagation *)

Lemma embedding_calls_app a b :
  NoSql.embedding_calls (a ++ b)
  = NoSql.embedding_calls a ++ NoSql.embedding_calls b.
Proof. apply omap_app. Qed.

(** The decorated function, from any attempt number: it calls the
    endpoint [n] times, sleeping between the calls, until a call yields an
    embedding or the budget is used up.  The sleep after attempt [k] is
    drawn from the window of that attempt. *)
Lemma retry_from_run cfg svc text p : forall budget attempt_number w,
  let (r, w') :=
    NoSql.retry_from svc p (NoSql.generate_embeddings_undecorated cfg svc text)
      budget attempt_number w in
  exists evs n,
    NoSql.trace w' = NoSql.trace w ++ evs
    /\ NoSql.container w' = NoSql.container w
    /\ NoSql.calls w' = (NoSql.calls w + n)%nat
    /\ (1 <= n <= S budget)%nat
    /\ NoSql.embedding_calls evs = replicate n text
    /\ length (NoSql.sleeps evs) = (n - 1)%nat
    /\ Forall2 (fun k s =>
                  (attempt_number <= k)%nat
                  /\ exists m,
                      s = NoSql.random_uniform svc m (NoSql.wait_min p)
                            (NoSql.wait_high p k))
               (seq attempt_number (n - 1)) (NoSql.sleeps evs)
    /\ (forall i, (i < n - 1)%nat ->
                  exists e,
                    first_embedding_of
                      (NoSql.embeddings_api svc (NoSql.calls w + i)%nat text)
                    = Raise e)
    /\ match r with
       | Ok v =>
           first_embedding_of
             (NoSql.embeddings_api svc (NoSql.calls w + (n - 1))%nat text)
           = Ok v
       | Raise x =>
           n = S budget
           /\ exists e,
               first_embedding_of
                 (NoSql.embeddings_api svc (NoSql.calls w + budget)%nat text)
               = Raise e
               /\ x = RetryError e
       end.
Proof.
  induction budget as [|budget IH]; intros attempt_number w;
    cbn [NoSql.retry_from]; rewrite nosql_undecorated_eq;
    destruct (first_embedding_of
                (NoSql.embeddings_api svc (NoSql.calls w) text)) as [v|e] eqn:E.
  1,2,3: eexists [_], 1%nat; simpl; rewrite ?Nat.add_0_r, ?Nat.add_1_r;
         repeat split; auto; try lia; try (intros i Hi; lia);
         try apply Forall2_nil; eauto.
  unfold bind, NoSql.wait_random_exponential, NoSql.sleep, NoSql.note.
  cbn beta iota.
  match goal with |- context [NoSql.retry_from _ _ _ _ _ ?w2] =>
    specialize (IH (S attempt_number) w2);
    destruct (NoSql.retry_from svc p
                (NoSql.generate_embeddings_undecorated cfg svc text) budget
                (S attempt_number) w2) as [r w'] end.
  destruct IH as (evs & n & Ht & Hc & Hcalls & Hn & Hemb & Hsl & Hw & Hfail
                  & Hr).
  simpl in Ht, Hc, Hcalls, Hfail, Hr.
  eexists (_ :: NoSql.Sleep _ :: evs), (S n).
  split; [by rewrite Ht, <- !app_assoc|]. split; [done|].
  split; [lia|]. split; [lia|].
  split; [simpl; by rewrite Hemb|].
  split; [simpl; rewrite Hsl; lia|].
  split.
  { replace (S n - 1)%nat with (S (n - 1)) by lia.
    cbn [seq]. simpl NoSql.sleeps.
    constructor; [split; [lia|eauto]|].
    eapply Forall2_impl; [exact Hw|].
    intros k s [Hk Hs]. split; [lia|done]. }
  split.
  { intros [|i] Hi.
    - rewrite Nat.add_0_r. eauto.
    - destruct (Hfail i) as [e' He']; [lia|]. exists e'.
      by replace (NoSql.calls w + S i)%nat with (S (NoSql.calls w + i)) by lia. }
  destruct r as [v|x].
  - replace (NoSql.calls w + (S n - 1))%nat
      with (S (NoSql.calls w + (n - 1))) by lia. done.
  - destruct Hr as (-> & e' & He' & ->). split; [done|]. exists e'.
    by replace (NoSql.calls w + S budget)%nat
      with (S (NoSql.calls w + budget)) by lia.
Qed.

Lemma wait_high_1_10 k :
  (1 <= NoSql.wait_high
          {| NoSql.wait_min := 1; NoSql.wait_max := 10;
             NoSql.stop_after_attempt := 20 |} k <= 10)%Q.
Proof.
  unfold NoSql.wait_high. simpl. split.
  - eapply Qle_trans; [|apply Q.le_max_l]. apply Q.le_max_r.
  - apply Q.max_lub; [apply Q.max_lub; discriminate|apply Q.le_min_r].
Qed.

(** The window after attempt [k] ends at [2 ** (k - 1)] seconds, and at 10
    seconds from the fifth attempt on. *)
Lemma wait_high_window k :
  (1 <= k)%nat ->
  (NoSql.wait_high
     {| NoSql.wait_min := 1; NoSql.wait_max := 10;
        NoSql.stop_after_attempt := 20 |} k
   == Qmin (inject_Z (2 ^ (Z.of_nat k - 1))) 10)%Q.
Proof.
  intros Hk. unfold NoSql.wait_high. cbn [NoSql.wait_min NoSql.wait_max].
  apply Q.max_r. apply Q.max_lub.
  - apply Q.min_glb; [|discriminate].
    change 0%Q with (inject_Z 0). rewrite <- Zle_Qle.
    apply Z.pow_nonneg. lia.
  - apply Q.min_glb; [|discriminate].
    change 1%Q with (inject_Z 1). rewrite <- Zle_Qle.
    pose proof (Z.pow_pos_nonneg 2 (Z.of_nat k - 1)). lia.
Qed.

Lemma try_except_raise_same {A} (body : M NoSql.world A) caught w :
  NoSql.try_except_raise body caught w = body w.
Proof.
  unfold NoSql.try_except_raise. destruct (body w) as [[a|e] w']; [done|].
  by destruct (caught e).
Qed.

Lemma bind_raise {S A B} (m : M S A) (k : A -> M S B) s e s' :
  m s = (Raise e, s') -> bind m k s = (Raise e, s').
Proof. intros H. unfold bind. by rewrite H. Qed.

Lemma bind_ok {S A B} (m : M S A) (k : A -> M S B) s a s' :
  m s = (Ok a, s') -> bind m k s = k a s'.
Proof. intros H. unfold bind. by rewrite H. Qed.

(** When the completion endpoint is down, [generate_completion] raises:
    what the endpoint raised if it got as far as calling it. *)
Lemma generate_completion_endpoint_down cfg svc results user_prompt w e :
  (forall messages,
      VCore.chat_api svc (S (VCore.calls w)) messages = Raise e) ->
  let (r, w') :=
    VCore.Chat.generate_completion cfg svc results user_prompt w in
  (exists e', r = Raise e')
  /\ (VCore.calls w' <= 2 + VCore.calls w)%nat
  /\ (VCore.calls w' = (2 + VCore.calls w)%nat -> r = Raise e).
Proof.
  intros Hdown.
  unfold VCore.Chat.generate_completion, VCore.Chat.get_conversation_history,
    VCore.find_sort_limit, VCore.chat_completions_create, bind, lift, ret.
  destruct (VCore.mongo_fault svc (VCore.calls w)) as [e0|]; simpl.
  { split; [eauto|]. split; lia. }
  destruct (VCore.Chat.append_system VCore.Chat.history_content _ _)
    as [m1|e1]; simpl.
  2: { split; [eauto|]. split; lia. }
  destruct (VCore.Chat.append_system VCore.Chat.result_content _ _)
    as [m2|e2]; simpl.
  2: { split; [eauto|]. split; lia. }
  rewrite Hdown. simpl. split; [eauto|]. split; [lia|done].
Qed.

(** A failing call of the set-up cell is the cell's failure. *)
Lemma setup_database_failure svc w e :
  fst (VCore.Ingest.setup_database svc w) = Raise e ->
  VCore.mongo_fault svc
    (VCore.calls (snd (VCore.Ingest.setup_database svc w)) - 1)%nat
  = Some e.
Proof.
  unfold VCore.Ingest.setup_database,
    VCore.Ingest.create_collection_and_vector_index, VCore.database_listed,
    VCore.drop_database, VCore.create_indexes, bind, ret.
  destruct (VCore.db_exists w).
  all: repeat (destruct_match; simpl).
  all: intros H; try discriminate H; injection H as <-.
  all: rewrite ?Nat.sub_0_r; assumption.
Qed.

(** A failing call of the container cell is the cell's failure. *)
Lemma create_containers_cell_failure cfg svc w e :
  fst (NoSql.create_containers_cell cfg svc w) = Raise e ->
  NoSql.cosmos_fault svc
    (NoSql.calls (snd (NoSql.create_containers_cell cfg svc w)) - 1)%nat
  = Some e.
Proof.
  unfold NoSql.create_containers_cell, NoSql.try_except_raise,
    NoSql.cosmos_call, NoSql.print, NoSql.note, bind.
  cbn [NoSql.calls NoSql.issue].
  destruct (NoSql.cosmos_fault svc (NoSql.calls w)) as [e0|] eqn:E0; simpl.
  2: destruct (NoSql.cosmos_fault svc (S (NoSql.calls w))) as [e1|] eqn:E1;
       simpl.
  2: destruct (NoSql.is_cosmos_http_response_error e1); simpl.
  4: destruct (NoSql.cosmos_fault svc (S (S (NoSql.calls w)))) as [e2|] eqn:E2;
       simpl.
  4: destruct (NoSql.is_cosmos_http_response_error e2); simpl.
  all: intros H; try discriminate H; injection H as <-.
  all: rewrite ?Nat.sub_0_r; assumption.
Qed.

(** C5, amended: the embeddings function of the NoSQL notebook is the
    one place where a failure is retried.  Under its decorator the
    endpoint is called again after every exception, at most 20 times in
    all; the sleep after the [k]-th failed call is drawn uniformly
    between 1 second and the smaller of [2 ** (k - 1)] and 10 seconds.
    The first call that yields an embedding ends the function.  When the
    twentieth has failed, what is raised is not that call's exception but
    a [RetryError] carrying it.  Everywhere else an exception goes up as
    it is, after the one call that raised it: in the embeddings function
    of the two vCore notebooks, the vector search, the history read, the
    completion call, the cache write and the loop around them; in the
    set-up cell, the download, the body and the loop of the ingestion; in
    the container cell (whose [try] blocks raise again whatever they
    catch), the upsert and its loop; and in the submit callback of the
    chat form. *)
Theorem retry_only_around_nosql_embeddings :
  (forall cfg svc (text : value) (w : NoSql.world),
      let (r, w') := NoSql.generate_embeddings cfg svc text w in
      exists evs n,
        NoSql.trace w' = NoSql.trace w ++ evs
        /\ (1 <= n <= 20)%nat
        /\ NoSql.embedding_calls evs = replicate n text
        /\ length (NoSql.sleeps evs) = (n - 1)%nat
        /\ Forall2 (fun k s =>
                      exists m high,
                        s = NoSql.random_uniform svc m 1 high
                        /\ (high == Qmin (inject_Z (2 ^ (Z.of_nat k - 1))) 10)%Q)
                   (seq 1 (n - 1)) (NoSql.sleeps evs)
        /\ ((forall m a b, (a <= b)%Q ->
                           (a <= NoSql.random_uniform svc m a b <= b)%Q) ->
            Forall2 (fun k s =>
                       (1 <= s <= Qmin (inject_Z (2 ^ (Z.of_nat k - 1))) 10)%Q)
                    (seq 1 (n - 1)) (NoSql.sleeps evs)
            /\ Forall (fun s => (1 <= s <= 10)%Q) (NoSql.sleeps evs))
        /\ (forall i, (i < n - 1)%nat ->
                      exists e,
                        first_embedding_of
                          (NoSql.embeddings_api svc (NoSql.calls w + i)%nat text)
                        = Raise e)
        /\ match r with
           | Ok v =>
               first_embedding_of
                 (NoSql.embeddings_api svc (NoSql.calls w + (n - 1))%nat text)
               = Ok v
           | Raise x =>
               n = 20%nat
               /\ exists e,
                   first_embedding_of
                     (NoSql.embeddings_api svc (NoSql.calls w + 19)%nat text)
                   = Raise e
                   /\ x = RetryError e
           end)
  /\ (forall cfg svc (text : value) (w : VCore.world),
         let outcome :=
           (first_embedding_of (VCore.embeddings_api svc (VCore.calls w) text),
            VCore.issue
              (VCore.EmbeddingsCreate text
                 (VCore.openai_embeddings_deployment cfg)
                 (VCore.openai_embeddings_dimensions cfg)) w) in
         VCore.Chat.generate_embeddings cfg svc text w = outcome
         /\ VCore.Ingest.generate_embeddings cfg svc text w = outcome)
  /\ (forall svc (query_embedding : value) (num_results : option value)
             (w : VCore.world),
         exists pipeline,
           VCore.Chat.vector_search svc query_embedding num_results w
           = (VCore.vector_index svc (VCore.calls w) (VCore.products w)
                pipeline,
              VCore.issue (VCore.Aggregate pipeline) w))
  /\ (forall svc (completions : option Z) (w : VCore.world) e,
         VCore.mongo_fault svc (VCore.calls w) = Some e ->
         fst (VCore.Chat.get_conversation_history svc completions w) = Raise e
         /\ VCore.calls
              (snd (VCore.Chat.get_conversation_history svc completions w))
            = S (VCore.calls w))
  /\ (forall cfg svc (results : list value) (user_prompt : string)
             (w : VCore.world) e,
         VCore.mongo_fault svc (VCore.calls w) = Some e ->
         fst (VCore.Chat.generate_completion cfg svc results user_prompt w)
         = Raise e
         /\ VCore.calls
              (snd (VCore.Chat.generate_completion cfg svc results
                      user_prompt w))
            = S (VCore.calls w))
  /\ (forall cfg svc (results : list value) (user_prompt : string)
             (w : VCore.world) e,
         (forall messages,
             VCore.chat_api svc (S (VCore.calls w)) messages = Raise e) ->
         let (r, w') :=
           VCore.Chat.generate_completion cfg svc results user_prompt w in
         (exists e', r = Raise e')
         /\ (VCore.calls w' <= 2 + VCore.calls w)%nat
         /\ (VCore.calls w' = (2 + VCore.calls w)%nat -> r = Raise e))
  /\ (forall svc c d (w : VCore.world) e,
         VCore.mongo_fault svc (VCore.calls w) = Some e ->
         fst (VCore.insert_one svc c d w) = Raise e)
  /\ (forall svc (user_prompt : string) (emb : list float64)
             (response : ChatCompletion) choice others tokens
             (w : VCore.world),
         choices response = choice :: others ->
         usage response = Some tokens ->
         exists document,
           VCore.Chat.cache_generation svc user_prompt emb response w
           = VCore.insert_one svc VCore.Cache document w)
  /\ (forall cfg svc u (w : VCore.world),
         let (r, w') := VCore.Chat.loop_body cfg svc u w in
         exists evs,
           VCore.trace w' = VCore.trace w ++ evs
           /\ VCore.steps evs `prefix_of`
                [VCore.Embed; VCore.Search; VCore.ReadHistory; VCore.Complete;
                 VCore.WriteCache])
  /\ (forall cfg svc u (w : VCore.world) e,
         VCore.embeddings_api svc (VCore.calls w) (VStr u) = Raise e ->
         fst (VCore.Chat.loop_body cfg svc u w) = Raise e)
  /\ (forall cfg svc u (w w1 : VCore.world) e,
         VCore.Chat.generate_embeddings cfg svc (VStr u) w = (Raise e, w1) ->
         VCore.Chat.loop_body cfg svc u w = (Raise e, w1))
  /\ (forall cfg svc u (w w1 w2 : VCore.world) emb e,
         VCore.Chat.generate_embeddings cfg svc (VStr u) w = (Ok emb, w1) ->
         VCore.Chat.vector_search svc (vector_value emb) None w1
         = (Raise e, w2) ->
         VCore.Chat.loop_body cfg svc u w = (Raise e, w2))
  /\ (forall cfg svc u (w w1 w2 w3 : VCore.world) emb results e,
         VCore.Chat.generate_embeddings cfg svc (VStr u) w = (Ok emb, w1) ->
         VCore.Chat.vector_search svc (vector_value emb) None w1
         = (Ok results, w2) ->
         VCore.Chat.generate_completion cfg svc results u w2
         = (Raise e, w3) ->
         VCore.Chat.loop_body cfg svc u w = (Raise e, w3))
  /\ (forall cfg svc u (w w1 w2 w3 : VCore.world) emb results completion
             choice others,
         VCore.Chat.generate_embeddings cfg svc (VStr u) w = (Ok emb, w1) ->
         VCore.Chat.vector_search svc (vector_value emb) None w1
         = (Ok results, w2) ->
         VCore.Chat.generate_completion cfg svc results u w2
         = (Ok completion, w3) ->
         choices completion = choice :: others ->
         VCore.Chat.loop_body cfg svc u w
         = VCore.Chat.cache_generation svc u emb completion
             (snd ((run! VCore.print (nl +:+ u) in
                    VCore.print (print_repr (content (message choice))))
                     w3)))
  /\ (forall cfg svc u pending (w : VCore.world) e w',
         lower u <> "end" ->
         VCore.Chat.loop_body cfg svc u w = (Raise e, w') ->
         VCore.Chat.qa_loop cfg svc u pending w = (Raise e, w'))
  /\ (forall svc (w : VCore.world) e,
         fst (VCore.Ingest.setup_database svc w) = Raise e ->
         VCore.mongo_fault svc
           (VCore.calls (snd (VCore.Ingest.setup_database svc w)) - 1)%nat
         = Some e)
  /\ (forall cfg svc (w : VCore.world) e,
         VCore.blob_items svc (VCore.calls w) = Raise e ->
         fst (VCore.Ingest.ingest_cell cfg svc w) = Raise e)
  /\ (forall cfg svc obj text (w w1 : VCore.world) e,
         VCore.json_dumps svc obj = Ok text ->
         VCore.Ingest.generate_embeddings cfg svc (VStr text) w
         = (Raise e, w1) ->
         VCore.Ingest.ingest_object cfg svc obj w = (Raise e, w1))
  /\ (forall cfg svc d text (w w1 : VCore.world) emb,
         VCore.json_dumps svc (VDict d) = Ok text ->
         VCore.Ingest.generate_embeddings cfg svc (VStr text) w
         = (Ok emb, w1) ->
         VCore.Ingest.ingest_object cfg svc (VDict d) w
         = VCore.insert_one svc VCore.Products
             (dict_set "contentVector" (vector_value emb) d) w1)
  /\ (forall cfg svc obj objects (w : VCore.world) e w',
         VCore.Ingest.ingest_object cfg svc obj w = (Raise e, w') ->
         for_each (VCore.Ingest.ingest_object cfg svc) (obj :: objects) w
         = (Raise e, w'))
  /\ (forall cfg svc (w : NoSql.world) e,
         fst (NoSql.create_containers_cell cfg svc w) = Raise e ->
         NoSql.cosmos_fault svc
           (NoSql.calls (snd (NoSql.create_containers_cell cfg svc w)) - 1)%nat
         = Some e)
  /\ (forall A (body : M NoSql.world A) caught w,
         NoSql.try_except_raise body caught w = body w)
  /\ (forall svc d (w : NoSql.world) e,
         NoSql.validate_resource d = None ->
         NoSql.cosmos_fault svc (NoSql.calls w) = Some e ->
         fst (NoSql.upsert_item svc (VDict d) w) = Raise e)
  /\ (forall svc obj rest counter (w : NoSql.world) e w',
         NoSql.upsert_item svc obj w = (Raise e, w') ->
         NoSql.insert_loop svc (obj :: rest) counter w = (Raise e, w'))
  /\ (forall svc loaded (w : NoSql.world) e w',
         NoSql.cosmos_fault svc (NoSql.calls w) = None ->
         NoSql.insert_loop svc loaded 0 (NoSql.issue NoSql.ClientEnter w)
         = (Raise e, w') ->
         NoSql.insert_data svc loaded w = (Raise e, w'))
  /\ (forall (lib message : Type) (buffer_as_messages : M lib (list message))
             (chain_invoke : string -> list message -> M lib value)
             (add_user_message : string -> M lib unit)
             (add_ai_message : value -> M lib unit)
             (user_message : string) (chat_history : list (list value))
             (w : Chatbot.world lib) buffer l1 e l2,
         buffer_as_messages (Chatbot.langchain w) = (Ok buffer, l1) ->
         chain_invoke user_message (Chatbot.last_n 6 buffer) l1
         = (Raise e, l2) ->
         fst (Chatbot.user buffer_as_messages chain_invoke add_user_message
                add_ai_message user_message chat_history w)
         = Raise e).
Proof.
  split.
  { intros cfg svc text w. unfold NoSql.generate_embeddings, NoSql.retry.
    cbn [NoSql.stop_after_attempt]. change (20 - 1)%nat with 19%nat.
    match goal with |- context [NoSql.retry_from _ ?p _ _ _ _] =>
      pose proof (retry_from_run cfg svc text p 19 1 w) as H;
      destruct (NoSql.retry_from svc p
                  (NoSql.generate_embeddings_undecorated cfg svc text)
                  19 1 w) as [r w'] end.
    destruct H as (evs & n & Ht & _ & _ & Hn & Hemb & Hsl & Hw & Hfail & Hr).
    exists evs, n. repeat (split; [done|]).
    assert (Hwin : Forall2
                     (fun k s =>
                        exists m high,
                          s = NoSql.random_uniform svc m 1 high
                          /\ (high
                              == Qmin (inject_Z (2 ^ (Z.of_nat k - 1))) 10)%Q)
                     (seq 1 (n - 1)) (NoSql.sleeps evs)).
    { eapply Forall2_impl; [exact Hw|].
      intros k s (Hk & m & ->). eexists m, _. split; [reflexivity|].
      by apply wait_high_window. }
    split; [exact Hwin|]. split; [|split; [done|exact Hr]].
    intros Huniform.
    assert (Hbounds : Forall2
                        (fun k s =>
                           (1 <= s
                            <= Qmin (inject_Z (2 ^ (Z.of_nat k - 1))) 10)%Q)
                        (seq 1 (n - 1)) (NoSql.sleeps evs)).
    { eapply Forall2_impl; [exact Hw|].
      intros k s (Hk & m & ->). cbn [NoSql.wait_min].
      destruct (wait_high_1_10 k) as [Hlo Hhi].
      destruct (Huniform m 1%Q _ Hlo) as [H1 H2].
      split; [done|]. eapply Qle_trans; [exact H2|].
      rewrite (wait_high_window k Hk). apply Qle_refl. }
    split; [exact Hbounds|].
    clear -Hbounds. induction Hbounds as [|k s ks ss [H1 H2] _ IH];
      constructor; [|done].
    split; [done|]. eapply Qle_trans; [exact H2|apply Q.le_min_r]. }
  split.
  { intros cfg svc text w outcome. subst outcome.
    by rewrite ingest_generate_embeddings_eq, chat_generate_embeddings_eq. }
  split.
  { intros svc q k w. eexists.
    unfold VCore.Chat.vector_search, VCore.aggregate, bind, ret.
    destruct (VCore.vector_index svc (VCore.calls w) (VCore.products w) _)
      eqn:E; rewrite <- E; reflexivity. }
  split.
  { intros svc n w e Hf.
    unfold VCore.Chat.get_conversation_history, VCore.find_sort_limit, bind.
    by rewrite Hf. }
  split.
  { intros cfg svc results p w e Hf.
    unfold VCore.Chat.generate_completion,
      VCore.Chat.get_conversation_history, VCore.find_sort_limit, bind.
    by rewrite Hf. }
  split; [exact generate_completion_endpoint_down|].
  split.
  { intros svc c d w e Hf. unfold VCore.insert_one. by rewrite Hf. }
  split.
  { intros svc p emb response choice others tokens w Hc Hu. eexists.
    unfold VCore.Chat.cache_generation, VCore.Chat.usage_of, bind, lift.
    rewrite Hc, Hu. reflexivity. }
  split.
  { intros cfg svc u w. pose proof (loop_body_outcome cfg svc u w) as H.
    destruct (VCore.Chat.loop_body cfg svc u w) as [r w'].
    destruct H as (evs & Ht & _ & _ & _ & Hs & _). by exists evs. }
  split.
  { intros cfg svc u w e Hapi. unfold VCore.Chat.loop_body.
    erewrite bind_raise; [reflexivity|].
    rewrite chat_generate_embeddings_eq, Hapi. reflexivity. }
  split.
  { intros cfg svc u w w1 e H1. unfold VCore.Chat.loop_body.
    by apply bind_raise. }
  split.
  { intros cfg svc u w w1 w2 emb e H1 H2. unfold VCore.Chat.loop_body.
    rewrite (bind_ok _ _ _ _ _ H1). by apply bind_raise. }
  split.
  { intros cfg svc u w w1 w2 w3 emb results e H1 H2 H3.
    unfold VCore.Chat.loop_body.
    rewrite (bind_ok _ _ _ _ _ H1), (bind_ok _ _ _ _ _ H2).
    by apply bind_raise. }
  split.
  { intros cfg svc u w w1 w2 w3 emb results completion choice others
      H1 H2 H3 Hc.
    unfold VCore.Chat.loop_body.
    rewrite (bind_ok _ _ _ _ _ H1), (bind_ok _ _ _ _ _ H2),
      (bind_ok _ _ _ _ _ H3).
    unfold bind, lift, VCore.print, VCore.console. rewrite Hc. reflexivity. }
  split.
  { intros cfg svc u pending w e w' Hu Hbody.
    rewrite qa_loop_other by done. by apply bind_raise. }
  split; [exact setup_database_failure|].
  split.
  { intros cfg svc w e Hb.
    unfold VCore.Ingest.ingest_cell, VCore.download_items, bind.
    by rewrite Hb. }
  split.
  { intros cfg svc obj text w w1 e Hj He.
    unfold VCore.Ingest.ingest_object, bind at 1, lift. rewrite Hj.
    by apply bind_raise. }
  split.
  { intros cfg svc d text w w1 emb Hj He.
    unfold VCore.Ingest.ingest_object, bind at 1, lift. rewrite Hj.
    by rewrite (bind_ok _ _ _ _ _ He). }
  split.
  { intros cfg svc obj objects w e w' H. cbn [for_each]. by apply bind_raise. }
  split; [exact create_containers_cell_failure|].
  split.
  { intros A body caught w. apply try_except_raise_same. }
  split.
  { intros svc d w e Hv Hf. unfold NoSql.upsert_item. by rewrite Hv, Hf. }
  split.
  { intros svc obj rest counter w e w' H. cbn [NoSql.insert_loop].
    by apply bind_raise. }
  split.
  { intros svc loaded w e w' Hok Hloop.
    unfold NoSql.insert_data, NoSql.cosmos_call, bind at 1. rewrite Hok.
    by apply bind_raise. }
  intros lib message buffer_as_messages chain_invoke add_user_message
    add_ai_message m ch w buffer l1 e l2 Hb Hc.
  unfold Chatbot.user, Chatbot.in_lib, bind. rewrite Hb. cbn.
  by rewrite Hc.
Qed.

(** The exception of the twentieth failed call does not go up as it is:
    with the endpoint down for good, what [generate_embeddings] raises is
    tenacity's [RetryError], not the endpoint's exception. *)
Lemma last_exception_is_wrapped :
  ~ (forall cfg svc (text : value) (w : NoSql.world) (e : exn),
        (forall n, NoSql.embeddings_api svc n text = Raise e) ->
        fst (NoSql.generate_embeddings cfg svc text w) = Raise e).
Proof.
  intros H.
  specialize (H Sample.nosql_cfg Sample.nosql_svc_down (VStr "Toy Story")
                Sample.nosql_empty (OpenAIError "429") (fun _ => eq_refl)).
  vm_compute in H. discriminate H.
Qed.

Lemma retry_only_around_nosql_embeddings_witness :
  (forall m a b, (a <= b)%Q ->
                 (a <= NoSql.random_uniform Sample.nosql_svc_down m a b <= b)%Q)
  /\ Forall (fun s => (1 <= s <= 10)%Q)
       (NoSql.sleeps
          (NoSql.trace
             (snd (NoSql.generate_embeddings Sample.nosql_cfg
                     Sample.nosql_svc_down (VStr "Toy Story")
                     Sample.nosql_empty))))
  /\ VCore.embeddings_api Sample.vcore_svc_down
       (VCore.calls Sample.vcore_empty) (VStr "What is Azure ML?")
     = Raise (OpenAIError "429")
  /\ fst (VCore.Chat.loop_body Sample.vcore_cfg Sample.vcore_svc_down
            "What is Azure ML?" Sample.vcore_empty)
     = Raise (OpenAIError "429").
Proof.
  assert (Hu : forall m a b, (a <= b)%Q ->
                 (a <= NoSql.random_uniform Sample.nosql_svc_down m a b <= b)%Q).
  { intros m a b Hab. split; [apply Qle_refl|exact Hab]. }
  destruct retry_only_around_nosql_embeddings
    as (Hretry & _ & _ & _ & _ & _ & _ & _ & _ & Hbody & _).
  split; [exact Hu|]. split.
  - specialize (Hretry Sample.nosql_cfg Sample.nosql_svc_down
                  (VStr "Toy Story") Sample.nosql_empty).
    destruct (NoSql.generate_embeddings Sample.nosql_cfg Sample.nosql_svc_down
                (VStr "Toy Story") Sample.nosql_empty) as [r w'].
    destruct Hretry as (evs & n & Ht & _ & _ & _ & _ & Hw & _).
    simpl snd. rewrite Ht. exact (proj2 (Hw Hu)).
  - split; [reflexivity|].
    exact (Hbody Sample.vcore_cfg Sample.vcore_svc_down "What is Azure ML?"
             Sample.vcore_empty (OpenAIError "429") eq_refl).
Defined.

(** With the endpoint down for good: twenty calls, nineteen sleeps, then
    the [RetryError]. *)
Example generate_embeddings_gives_up :
  let (r, w') :=
    NoSql.generate_embeddings Sample.nosql_cfg Sample.nosql_svc_down
      (VStr "Toy Story") Sample.nosql_empty in
  r = Raise (RetryError (OpenAIError "429"))
  /\ length (NoSql.embedding_calls (NoSql.trace w')) = 20%nat
  /\ length (NoSql.sleeps (NoSql.trace w')) = 19%nat.
Proof. vm_compute. repeat split. Qed.

(** ** Runs on the sample services *)

Lemma cache_generation_document_fields_witness :
  choices Sample.completion
  = [ {| message := {| content := Some "Use Azure ML." |} |} ]
  /\ VCore.cache
       (snd (VCore.Chat.cache_generation Sample.vcore_svc "What is Azure ML?"
               [11; 12] Sample.completion Sample.vcore_empty))
     = [ [ ("_id", VObjectId 100);
           ("prompt", VStr "What is Azure ML?");
           ("completion", VStr "Use Azure ML.");
           ("completionTokens", VStr "5");
           ("promptTokens", VStr "70");
           ("totalTokens", VStr "75");
           ("model", VStr "gpt-35-turbo");
           ("vectorContent", VList [VFloat 11; VFloat 12]) ] ].
Proof.
  split; [reflexivity|].
  destruct (proj1 (cache_generation_document_fields Sample.vcore_svc
                     "What is Azure ML?" [11; 12] Sample.completion
                     Sample.vcore_empty)
              _ _ _ eq_refl eq_refl) as (_ & _ & Hcache).
  cbv zeta in Hcache. exact (proj1 Hcache eq_refl (List.Forall_nil _)).
Defined.

Lemma item_documents_lifecycle_witness :
  NoSql.stored_id [("id", VStr "7"); ("original_title", VStr "Heat")]
  = Some "7"
  /\ NoSql.container
       (snd (NoSql.upsert_item Sample.nosql_svc (Sample.movie "7" "Heat")
               (NoSql.mkWorld
                  {["7" := [("id", VStr "7");
                            ("original_title", VStr "Toy Story")]]} 0 [])))
     !! "7"
     = Some [("id", VStr "7"); ("original_title", VStr "Heat")].
Proof.
  split; [reflexivity|].
  exact (proj1 (proj2 (proj2 (proj2 (proj2 (proj2 item_documents_lifecycle)))))
           Sample.nosql_svc
           [("id", VStr "7"); ("original_title", VStr "Heat")] "7"
           (NoSql.mkWorld
              {["7" := [("id", VStr "7");
                        ("original_title", VStr "Toy Story")]]} 0 [])
           eq_refl eq_refl).
Defined.

(** * Further properties *)

(** ** Reading the conversation history *)

Lemma insert_desc_perm d sorted :
  Permutation (VCore.insert_desc d sorted) (d :: sorted).
Proof.
  induction sorted as [|d' sorted IH]; simpl; [done|].
  destruct (VCore.id_leb _ _); [done|].
  rewrite IH. apply perm_swap.
Qed.

Lemma sort_id_desc_perm docs : Permutation (VCore.sort_id_desc docs) docs.
Proof.
  induction docs as [|d docs IH]; [done|].
  change (VCore.sort_id_desc (d :: docs))
    with (VCore.insert_desc d (VCore.sort_id_desc docs)).
  by rewrite insert_desc_perm, IH.
Qed.

Lemma project_keys fields d :
  incl (dict_keys (VCore.project fields d)) ("_id" :: fields).
Proof.
  unfold VCore.project, dict_keys. intros k Hk.
  apply in_map_iff in Hk as ([k' v] & <- & Hin).
  apply filter_In in Hin as [_ Hex]. simpl in Hex |- *.
  apply orb_prop in Hex as [Hex|Hex].
  - left. symmetry. by apply String.eqb_eq.
  - right. apply existsb_exists in Hex as (x & Hx & Heq).
    apply String.eqb_eq in Heq as ->. done.
Qed.

Lemma limit_docs_length {A} n (docs : list A) :
  length (VCore.limit_docs n docs)
  = if (n =? 0)%Z then length docs else Nat.min (Z.abs_nat n) (length docs).
Proof.
  unfold VCore.limit_docs. destruct (n =? 0)%Z; [done|]. apply length_take.
Qed.

Lemma limit_docs_In {A} n (docs : list A) x :
  In x (VCore.limit_docs n docs) -> In x docs.
Proof.
  unfold VCore.limit_docs. destruct (n =? 0)%Z; [done|].
  intros H. apply list_elem_of_In. apply list_elem_of_In in H.
  by apply elem_of_take in H as (i & H & _); apply list_elem_of_lookup_2 in H.
Qed.

(** X1: [get_conversation_history] only reads.  It returns projections of
    stored cache documents onto [_id], [prompt] and [completion]: as many
    as asked for (3 when nothing is asked) or all there are if fewer, and
    all of them when 0 is asked for; the one way it fails is with the
    database's own exception. *)
Theorem get_conversation_history_reads_projections :
  forall svc (completions : option Z) (w : VCore.world),
    let (r, w') := VCore.Chat.get_conversation_history svc completions w in
    VCore.cache w' = VCore.cache w
    /\ VCore.products w' = VCore.products w
    /\ match r with
       | Ok docs =>
           length docs
           = (if (default 3 completions =? 0)%Z
              then length (VCore.cache w)
              else Nat.min (Z.abs_nat (default 3 completions))
                     (length (VCore.cache w)))
           /\ Forall (fun d =>
                        exists stored,
                          In stored (VCore.cache w)
                          /\ d = VCore.project ["prompt"; "completion"] stored)
                     docs
           /\ Forall (fun d =>
                        incl (dict_keys d) ["_id"; "prompt"; "completion"])
                     docs
       | Raise e => VCore.mongo_fault svc (VCore.calls w) = Some e
       end.
Proof.
  intros svc completions w.
  unfold VCore.Chat.get_conversation_history, VCore.find_sort_limit, bind, ret.
  destruct (VCore.mongo_fault svc (VCore.calls w)) as [e|]; simpl; [done|].
  split; [done|]. split; [done|]. split; [|split].
  - rewrite length_map, limit_docs_length.
    by rewrite (Permutation_length (sort_id_desc_perm (VCore.cache w))).
  - apply Forall_forall. intros d Hd. apply list_elem_of_In in Hd.
    apply in_map_iff in Hd as (stored & <- & Hin).
    exists stored. split; [|done].
    apply limit_docs_In in Hin.
    eapply Permutation_in; [apply sort_id_desc_perm|done].
  - apply Forall_forall. intros d Hd. apply list_elem_of_In in Hd.
    apply in_map_iff in Hd as (stored & <- & _). apply project_keys.
Qed.

(** ** What reaches the completion endpoint *)

Lemma append_system_inv {A} (f : A -> result value) : forall items messages out,
  VCore.Chat.append_system f items messages = Ok out ->
  exists contents,
    Forall2 (fun item c => f item = Ok c) items contents
    /\ out = messages ++ map VCore.Chat.system_message contents.
Proof.
  induction items as [|item items IH]; intros messages out H; simpl in H.
  - injection H as <-. exists []. split; [constructor|by rewrite app_nil_r].
  - destruct (f item) as [c|e] eqn:Hf; simpl in H; [|discriminate].
    apply IH in H as (contents & HF & ->). exists (c :: contents).
    split; [by constructor|]. by rewrite <- app_assoc.
Qed.




(** X2: whatever the cache and the search results hold,
    [generate_completion] calls the completion endpoint at most once, and
    when it does the message list is the system prompt, then one system
    message per history document read (3, or all cached documents when
    fewer), then the user message, then one system message per search
    result: 2 + min(3, cached) + results messages in all.  No collection
    is changed. *)
Theorem generate_completion_endpoint_call_shape :
  forall cfg svc (vector_search_results : list value) (user_prompt : string)
         (w : VCore.world),
    let (r, w') :=
      VCore.Chat.generate_completion cfg svc vector_search_results
        user_prompt w in
    exists evs,
      VCore.trace w' = VCore.trace w ++ evs
      /\ VCore.cache w' = VCore.cache w
      /\ VCore.products w' = VCore.products w
      /\ ((Reading.completion_calls evs = [] /\ exists e, r = Raise e)
          \/ exists history contents,
              let messages :=
                {| role := "system";
                   msg_content := VStr VCore.Chat.system_prompt |}
                :: map VCore.Chat.system_message history
                ++ {| role := "user"; msg_content := VStr user_prompt |}
                :: map VCore.Chat.system_message contents in
              Reading.completion_calls evs = [messages]
              /\ length history = Nat.min 3 (length (VCore.cache w))
              /\ length contents = length vector_search_results
              /\ length messages
                 = (2 + Nat.min 3 (length (VCore.cache w))
                    + length vector_search_results)%nat
              /\ r = VCore.chat_api svc (S (VCore.calls w)) messages).
Proof.
  intros cfg svc results user_prompt w.
  unfold VCore.Chat.generate_completion, VCore.Chat.get_conversation_history,
    VCore.find_sort_limit, VCore.chat_completions_create, bind, lift, ret.
  simpl default.
  destruct (VCore.mongo_fault svc (VCore.calls w)) as [e|].
  { eexists [_]. repeat split; eauto. }
  destruct (VCore.Chat.append_system VCore.Chat.history_content _ _)
    as [m1|e] eqn:H1.
  2: { eexists [_]. repeat split; eauto. }
  destruct (VCore.Chat.append_system VCore.Chat.result_content _ _)
    as [m2|e] eqn:H2.
  2: { eexists [_]. repeat split; eauto. }
  apply append_system_inv in H1 as (history & HF1 & ->).
  apply append_system_inv in H2 as (contents & HF2 & ->).
  apply Forall2_length in HF1. apply Forall2_length in HF2.
  rewrite length_map, limit_docs_length in HF1.
  change (if (3 =? 0)%Z then ?a else Nat.min (Z.abs_nat 3) ?b)
    with (Nat.min 3 b) in HF1.
  rewrite (Permutation_length (sort_id_desc_perm (VCore.cache w))) in HF1.
  assert (Hm : ([VCore.Chat.system_message (VStr VCore.Chat.system_prompt)]
                ++ map VCore.Chat.system_message history)
               ++ [VCore.Chat.user_message (VStr user_prompt)]
               = {| role := "system";
                    msg_content := VStr VCore.Chat.system_prompt |}
                 :: map VCore.Chat.system_message history
                 ++ [{| role := "user"; msg_content := VStr user_prompt |}])
    by reflexivity.
  rewrite Hm. clear Hm.
  match goal with |- context [VCore.chat_api svc _ ?m] => set (msgs := m) end.
  assert (Hmsgs : msgs
                  = {| role := "system";
                       msg_content := VStr VCore.Chat.system_prompt |}
                    :: map VCore.Chat.system_message history
                    ++ {| role := "user"; msg_content := VStr user_prompt |}
                    :: map VCore.Chat.system_message contents).
  { subst msgs. simpl. by rewrite <- app_assoc. }
  cbn [VCore.calls VCore.issue].
  destruct (VCore.chat_api svc (S (VCore.calls w)) msgs) as [resp|e] eqn:Hapi.
  all: eexists [_; VCore.ChatCompletionsCreate _ msgs "Mark"].
  all: split; [simpl; by rewrite <- app_assoc|].
  all: split; [done|]; split; [done|].
  all: right; exists history, contents; cbv zeta; rewrite <- Hmsgs.
  all: split; [done|]; split; [lia|]; split; [lia|]; split; [|done].
  all: rewrite Hmsgs; cbn [length]; rewrite length_app; cbn [length].
  all: repeat rewrite length_map; lia.
Qed.



(** ** Malformed completions, and what the cache keeps *)

Lemma printed_lines_app a b :
  Reading.printed_lines (a ++ b)
  = Reading.printed_lines a ++ Reading.printed_lines b.
Proof. apply omap_app. Qed.

Lemma Forall_exists_Forall2 {A B} (R : A -> B -> Prop) (l : list A) :
  Forall (fun x => exists y, R x y) l -> exists k, Forall2 R l k.
Proof.
  induction 1 as [|x l [y Hy] _ [k IH]]; [by exists []|].
  exists (y :: k). by constructor.
Qed.

Lemma vector_search_eq svc query_embedding num_results w :
  exists pipeline,
    VCore.Chat.vector_search svc query_embedding num_results w
    = (VCore.vector_index svc (VCore.calls w) (VCore.products w) pipeline,
       VCore.issue (VCore.Aggregate pipeline) w).
Proof.
  eexists. unfold VCore.Chat.vector_search, VCore.aggregate, bind, ret.
  destruct (VCore.vector_index svc (VCore.calls w) (VCore.products w) _)
    eqn:E; rewrite <- E; reflexivity.
Qed.

(** [generate_completion] when the history is read and everything can be
    rendered. *)
Lemma generate_completion_eq cfg svc results user_prompt w hc rc :
  VCore.mongo_fault svc (VCore.calls w) = None ->
  Forall2 (fun item c => VCore.Chat.history_content item = Ok c)
    (map (VCore.project ["prompt"; "completion"])
       (firstn 3 (VCore.sort_id_desc (VCore.cache w)))) hc ->
  Forall2 (fun item c => VCore.Chat.result_content item = Ok c) results rc ->
  let messages :=
    VCore.Chat.system_message (VStr VCore.Chat.system_prompt)
    :: map VCore.Chat.system_message hc
    ++ VCore.Chat.user_message (VStr user_prompt)
    :: map VCore.Chat.system_message rc in
  VCore.Chat.generate_completion cfg svc results user_prompt w
  = (VCore.chat_api svc (S (VCore.calls w)) messages,
     VCore.issue
       (VCore.ChatCompletionsCreate (VCore.openai_completions_deployment cfg)
          messages "Mark")
       (VCore.issue
          (VCore.FindSortLimit (VDict [])
             (VDict [("prompt", VInt 1); ("completion", VInt 1)])
             "_id" (-1) 3) w)).
Proof.
  intros Hok Hh Hr messages.
  unfold VCore.Chat.generate_completion, VCore.Chat.get_conversation_history,
    VCore.find_sort_limit, VCore.chat_completions_create, bind, lift, ret.
  rewrite Hok. simpl default.
  change (VCore.limit_docs 3 (VCore.sort_id_desc (VCore.cache w)))
    with (firstn 3 (VCore.sort_id_desc (VCore.cache w))).
  rewrite (append_system_ok _ _ _ Hh).
  rewrite (append_system_ok _ _ _ Hr).
  assert (Hm : (([VCore.Chat.system_message (VStr VCore.Chat.system_prompt)]
                 ++ map VCore.Chat.system_message hc)
                ++ [VCore.Chat.user_message (VStr user_prompt)])
               ++ map VCore.Chat.system_message rc = messages).
  { subst messages. repeat rewrite <- app_assoc. reflexivity. }
  rewrite Hm.
  by destruct (VCore.chat_api svc _ messages).
Qed.

(** A pass whose first steps go through, up to the answer of the
    completion endpoint. *)
Lemma loop_body_from_completion cfg svc u w emb results :
  Reading.reaches_completion svc u w emb results ->
  exists pipeline messages,
    VCore.Chat.loop_body cfg svc u w
    = (let! completions_results :=
         lift (VCore.chat_api svc (3 + VCore.calls w) messages) in
       run! VCore.print (nl +:+ u) in
       let! choice := lift (first (choices completions_results)) in
       run! VCore.print (print_repr (content (message choice))) in
       VCore.Chat.cache_generation svc u emb completions_results)
        (VCore.mkWorld (VCore.db_exists w) (VCore.products w)
           (VCore.cache w) (4 + VCore.calls w)
           (VCore.trace w
              ++ [ VCore.EmbeddingsCreate (VStr u)
                     (VCore.openai_embeddings_deployment cfg)
                     (VCore.openai_embeddings_dimensions cfg);
                   VCore.Aggregate pipeline;
                   VCore.FindSortLimit (VDict [])
                     (VDict [("prompt", VInt 1); ("completion", VInt 1)])
                     "_id" (-1) 3;
                   VCore.ChatCompletionsCreate
                     (VCore.openai_completions_deployment cfg) messages
                     "Mark" ])).
Proof.
  intros (Hemb & Hsearch & Hres & Hfind & Hhist).
  assert (Hh : exists hc,
             Forall2 (fun item c => VCore.Chat.history_content item = Ok c)
               (map (VCore.project ["prompt"; "completion"])
                  (firstn 3 (VCore.sort_id_desc (VCore.cache w)))) hc).
  { apply Forall_exists_Forall2. apply Forall_map.
    eapply Forall_impl; [exact Hhist|].
    intros item (p & c & Hp & Hc). eexists. by apply history_content_ok. }
  destruct Hh as [hc Hh].
  destruct (Forall_exists_Forall2 _ _ Hres) as [rc Hr].
  unfold VCore.Chat.loop_body.
  rewrite (bind_ok _ _ _ (emb) _ (eq_trans
             (chat_generate_embeddings_eq cfg svc (VStr u) w)
             (f_equal (fun r => (r, _)) Hemb))).
  match goal with |- context [VCore.Chat.vector_search _ _ _] =>
    match goal with |- context [bind _ _ ?w1] =>
      destruct (vector_search_eq svc (vector_value emb) None w1)
        as [pipeline Hvs] end end.
  cbn [VCore.calls VCore.issue VCore.products] in Hvs.
  pose proof (Hsearch pipeline) as Hs. cbn [Nat.add] in Hs.
  rewrite Hs in Hvs. clear Hs.
  rewrite (bind_ok _ _ _ _ _ Hvs).
  match goal with |- context [bind _ _ ?w2] =>
    pose proof (generate_completion_eq cfg svc results u w2 hc rc Hfind Hh Hr)
      as Hgc end.
  cbv zeta in Hgc.
  eexists pipeline, _.
  unfold bind at 1. rewrite Hgc. unfold bind at 1, lift.
  unfold VCore.issue. cbn [VCore.calls VCore.trace VCore.products VCore.cache
                             VCore.db_exists].
  repeat rewrite <- app_assoc. reflexivity.
Qed.

(** X4: when the steps before it go through and the completion endpoint
    answers with a completion that has no choice, the pass raises
    [IndexError] once the user input has been printed; when the completion
    has a choice but no usage, the pass raises [TypeError] once the answer
    has been printed too.  In both cases the endpoint has been called and
    nothing is written to the cache. *)
Theorem loop_body_malformed_completion :
  forall cfg svc (user_input : string) (w : VCore.world)
         (emb : list float64) (results : list value)
         (completion : ChatCompletion),
    Reading.reaches_completion svc user_input w emb results ->
    (forall messages,
        VCore.chat_api svc (3 + VCore.calls w) messages = Ok completion) ->
    let (r, w') := VCore.Chat.loop_body cfg svc user_input w in
    exists evs,
      VCore.trace w' = VCore.trace w ++ evs
      /\ (choices completion = [] ->
          r = Raise IndexError
          /\ VCore.steps evs
             = [VCore.Embed; VCore.Search; VCore.ReadHistory; VCore.Complete]
          /\ Reading.printed_lines evs = [nl +:+ user_input]
          /\ VCore.cache w' = VCore.cache w)
      /\ (forall choice others,
             choices completion = choice :: others ->
             usage completion = None ->
             r = Raise TypeError
             /\ VCore.steps evs
                = [VCore.Embed; VCore.Search; VCore.ReadHistory;
                   VCore.Complete]
             /\ Reading.printed_lines evs
                = [nl +:+ user_input; print_repr (content (message choice))]
             /\ VCore.cache w' = VCore.cache w).
Proof.
  intros cfg svc u w emb results completion Hreach Hapi.
  destruct (loop_body_from_completion cfg svc u w emb results Hreach)
    as (pipeline & messages & ->).
  unfold bind at 1, lift. rewrite Hapi.
  unfold bind at 1, VCore.print, VCore.console.
  unfold bind at 1, lift.
  destruct (choices completion) as [|choice others] eqn:Hc.
  - cbn [first]. eexists. split; [tidy_trace; reflexivity|].
    split; [|discriminate]. intros _. by repeat split.
  - cbn [first]. unfold bind at 1.
    unfold VCore.Chat.cache_generation, bind at 1, lift. rewrite Hc.
    cbn [first]. unfold bind at 1, VCore.Chat.usage_of.
    destruct (usage completion) as [tokens|] eqn:Hu.
    + cbn [first]. unfold bind at 1.
      match goal with |- context [VCore.insert_one svc ?c ?d ?w1] =>
        pose proof (insert_one_trace svc c d w1) as Ht;
        destruct (VCore.insert_one svc c d w1) as [r w'] end.
      cbn [snd VCore.trace] in Ht.
      eexists. split; [rewrite Ht; tidy_trace; reflexivity|].
      split; [discriminate|]. intros choice' others' _ Hno. discriminate Hno.
    + eexists. split; [tidy_trace; reflexivity|].
      split; [discriminate|]. intros choice' others' [= <- <-] _.
      by repeat split.
Qed.

Lemma loop_body_malformed_completion_witness :
  let empty := {| choices := []; model := "gpt-35-turbo"; usage := None |} in
  let svc := Sample.vcore_svc_answering empty in
  Reading.reaches_completion svc "What is Azure ML?" Sample.vcore_world
    [11; 12] [Sample.hit "Azure ML"; Sample.hit "Azure AI"]
  /\ (forall messages,
         VCore.chat_api svc (3 + VCore.calls Sample.vcore_world) messages
         = Ok empty)
  /\ fst (VCore.Chat.loop_body Sample.vcore_cfg svc "What is Azure ML?"
            Sample.vcore_world) = Raise IndexError.
Proof.
  intros empty svc.
  assert (Hreach : Reading.reaches_completion svc "What is Azure ML?"
                     Sample.vcore_world [11; 12]
                     [Sample.hit "Azure ML"; Sample.hit "Azure AI"]).
  { split; [reflexivity|]. split; [reflexivity|]. split.
    { repeat (constructor; [eexists; reflexivity|]). constructor. }
    split; [reflexivity|].
    repeat (constructor; [eexists _, _; split; reflexivity|]). constructor. }
  assert (Hapi : forall messages,
             VCore.chat_api svc (3 + VCore.calls Sample.vcore_world) messages
             = Ok empty) by reflexivity.
  split; [exact Hreach|]. split; [exact Hapi|].
  pose proof (loop_body_malformed_completion Sample.vcore_cfg svc
                "What is Azure ML?" Sample.vcore_world [11; 12]
                [Sample.hit "Azure ML"; Sample.hit "Azure AI"] empty
                Hreach Hapi) as H.
  destruct (VCore.Chat.loop_body Sample.vcore_cfg svc "What is Azure ML?"
              Sample.vcore_world) as [r w'].
  destruct H as (evs & _ & Hno & _).
  exact (proj1 (Hno eq_refl)).
Defined.

(** ** Write, then read *)








(** ** Where the vectors are stored *)

Lemma dict_get_set_eq k v d : dict_get k (dict_set k v d) = Some v.
Proof.
  induction d as [|[k' v'] d IH]; simpl.
  - by rewrite String.eqb_refl.
  - destruct (String.eqb k k') eqn:E; simpl; rewrite ?String.eqb_refl, ?E; done.
Qed.

Lemma dict_get_set_ne k k' v d :
  k <> k' -> dict_get k' (dict_set k v d) = dict_get k' d.
Proof.
  intros Hne. induction d as [|[k0 v0] d IH]; simpl.
  - destruct (String.eqb k' k) eqn:E; [|done].
    apply String.eqb_eq in E. congruence.
  - destruct (String.eqb k k0) eqn:E; simpl.
    + apply String.eqb_eq in E as <-.
      destruct (String.eqb k' k) eqn:E'; [|done].
      apply String.eqb_eq in E'. congruence.
    + by rewrite IH.
Qed.

Lemma dict_keys_set k v d :
  dict_keys (dict_set k v d)
  = if existsb (String.eqb k) (dict_keys d) then dict_keys d
    else dict_keys d ++ [k].
Proof.
  induction d as [|[k' v'] d IH]; simpl; [done|].
  destruct (String.eqb k k') eqn:E; simpl.
  - apply String.eqb_eq in E as <-. done.
  - rewrite IH. unfold dict_keys. by destruct (existsb _ _).
Qed.

(** ** The ingestion loop *)

(** X8: what the ingestion loop stores for an object.  The text embedded
    is the serialisation of the object as loaded, before any vector is
    added; the stored document is that object with [contentVector] set to
    the embedding returned (replacing a field of that name), every other
    field as loaded, plus, when the object brings no [_id], an ObjectId
    that no stored item document has. *)
Theorem ingest_object_stores_vectorised_object :
  forall cfg svc (d : dict) (w : VCore.world),
    let (r, w') := VCore.Ingest.ingest_object cfg svc (VDict d) w in
    r = Ok tt ->
    exists text emb stored,
      VCore.json_dumps svc (VDict d) = Ok text
      /\ fst (VCore.Ingest.generate_embeddings cfg svc (VStr text) w) = Ok emb
      /\ VCore.products w' = VCore.products w ++ [stored]
      /\ VCore.cache w' = VCore.cache w
      /\ dict_get "contentVector" stored = Some (vector_value emb)
      /\ (forall k, k <> "contentVector" -> k <> "_id" ->
                    dict_get k stored = dict_get k d)
      /\ match dict_get "_id" d with
         | Some i => dict_get "_id" stored = Some i
         | None =>
             exists n,
               dict_get "_id" stored = Some (VObjectId n)
               /\ Forall (fun old => VCore.doc_id old <> VObjectId n)
                         (VCore.products w)
         end.
Proof.
  intros cfg svc d w.
  unfold VCore.Ingest.ingest_object, bind, lift.
  destruct (VCore.json_dumps svc (VDict d)) as [text|e]; [|discriminate].
  rewrite ingest_generate_embeddings_eq.
  destruct (first_embedding_of _) as [emb|e] eqn:Hemb; [|discriminate].
  assert (Hgen : fst (VCore.Ingest.generate_embeddings cfg svc (VStr text) w)
                 = Ok emb)
    by (by rewrite ingest_generate_embeddings_eq).
  unfold VCore.insert_one. cbn [VCore.calls VCore.issue].
  destruct (VCore.mongo_fault svc (S (VCore.calls w))); [discriminate|].
  assert (Hid : dict_get "_id" (dict_set "contentVector" (vector_value emb) d)
                = dict_get "_id" d) by (by apply dict_get_set_ne).
  rewrite Hid.
  destruct (dict_get "_id" d) as [i|] eqn:Hd; cbv zeta;
    (destruct (existsb _ _) eqn:Ex; [discriminate|]).
  - intros _.
    exists text, emb, (dict_set "contentVector" (vector_value emb) d).
    split; [done|]. split; [done|]. split; [done|]. split; [done|].
    split; [apply dict_get_set_eq|]. split; [|done].
    intros k Hk _. by apply dict_get_set_ne.
  - intros _. eexists text, emb, (_ :: _).
    split; [done|]. split; [done|]. split; [done|]. split; [done|].
    split.
    { simpl. apply dict_get_set_eq. }
    split.
    { intros k Hk Hk'. simpl.
      destruct (String.eqb k "_id") eqn:E.
      - by apply String.eqb_eq in E.
      - by apply dict_get_set_ne. }
    eexists. split; [reflexivity|]. by apply oid_not_stored.
Qed.

Lemma ingest_object_stores_vectorised_object_witness :
  fst (VCore.Ingest.ingest_object Sample.vcore_cfg Sample.vcore_svc
         (VDict [("id", VStr "1"); ("content", VStr "Azure ML")])
         Sample.vcore_empty) = Ok tt
  /\ exists stored,
      VCore.products
        (snd (VCore.Ingest.ingest_object Sample.vcore_cfg Sample.vcore_svc
                (VDict [("id", VStr "1"); ("content", VStr "Azure ML")])
                Sample.vcore_empty)) = [stored]
      /\ dict_get "contentVector" stored = Some (VList [VFloat 11; VFloat 12]).
Proof.
  split; [reflexivity|].
  pose proof (ingest_object_stores_vectorised_object Sample.vcore_cfg
                Sample.vcore_svc [("id", VStr "1"); ("content", VStr "Azure ML")]
                Sample.vcore_empty) as H.
  destruct (VCore.Ingest.ingest_object Sample.vcore_cfg Sample.vcore_svc
              (VDict [("id", VStr "1"); ("content", VStr "Azure ML")])
              Sample.vcore_empty) as [r w'] eqn:E.
  assert (Hr : r = Ok tt).
  { apply (f_equal fst) in E. vm_compute in E. by symmetry. }
  destruct (H Hr) as (text & emb & stored & _ & Hemb & Hp & _ & Hv & _).
  exists stored. split; [exact Hp|].
  vm_compute in Hemb. injection Hemb as <-. exact Hv.
Defined.

Lemma for_each_app {S A} (body : A -> M S unit) xs ys s :
  for_each body (xs ++ ys) s
  = (run! for_each body xs in for_each body ys) s.
Proof.
  revert s. induction xs as [|x xs IH]; intros s; simpl; [done|].
  unfold bind in *. destruct (body x s) as [[[]|e] s1]; [|done].
  apply IH.
Qed.

(** X9: the ingestion loop has no rollback and no skip.  When the objects
    [before] have been stored and the next object fails, the loop ends
    with that exception in the state the failure left: the documents of
    [before] stay stored, one each, the objects after the failing one are
    neither serialised nor embedded, and the cell never prints its closing
    line. *)
Theorem ingestion_stops_at_first_failure :
  forall cfg svc (before : list value) (bad : value) (rest : list value)
         (w w1 w2 : VCore.world) (e : exn),
    for_each (VCore.Ingest.ingest_object cfg svc) before w = (Ok tt, w1) ->
    VCore.Ingest.ingest_object cfg svc bad w1 = (Raise e, w2) ->
    for_each (VCore.Ingest.ingest_object cfg svc) (before ++ bad :: rest) w
    = (Raise e, w2)
    /\ (exists new,
           VCore.products w2 = VCore.products w ++ new
           /\ length new = length before)
    /\ (forall w0,
           VCore.blob_items svc (VCore.calls w0) = Ok (before ++ bad :: rest) ->
           w = VCore.issue VCore.DownloadBlob w0 ->
           VCore.Ingest.ingest_cell cfg svc w0 = (Raise e, w2)).
Proof.
  intros cfg svc before bad rest w w1 w2 e Hbefore Hbad.
  assert (Hloop : for_each (VCore.Ingest.ingest_object cfg svc)
                    (before ++ bad :: rest) w = (Raise e, w2)).
  { rewrite for_each_app. unfold bind at 1. rewrite Hbefore.
    cbn [for_each]. unfold bind. by rewrite Hbad. }
  split; [exact Hloop|]. split.
  - pose proof (ingest_loop_appends cfg svc before w) as H1.
    rewrite Hbefore in H1. destruct H1 as (new & Hp & _ & HF).
    pose proof (ingest_object_outcome cfg svc bad w1) as H2.
    rewrite Hbad in H2. destruct H2 as [_ Hp2].
    exists new. split; [congruence|].
    symmetry. by apply Forall2_length in HF.
  - intros w0 Hblob ->. unfold VCore.Ingest.ingest_cell, VCore.download_items.
    unfold bind at 1. rewrite Hblob. unfold bind at 1. by rewrite Hloop.
Qed.

Lemma ingestion_stops_at_first_failure_witness :
  let w0 := VCore.issue VCore.DownloadBlob Sample.vcore_empty in
  let good := VDict [("id", VStr "1"); ("content", VStr "Azure ML")] in
  exists w1 w2,
    for_each (VCore.Ingest.ingest_object Sample.vcore_cfg Sample.vcore_svc)
      [good] w0 = (Ok tt, w1)
    /\ VCore.Ingest.ingest_object Sample.vcore_cfg Sample.vcore_svc
         (VInt 7) w1 = (Raise TypeError, w2)
    /\ for_each (VCore.Ingest.ingest_object Sample.vcore_cfg Sample.vcore_svc)
         ([good] ++ VInt 7 :: [good]) w0 = (Raise TypeError, w2).
Proof.
  intros w0 good.
  destruct (for_each (VCore.Ingest.ingest_object Sample.vcore_cfg
                        Sample.vcore_svc) [good] w0) as [r1 w1] eqn:E1.
  assert (Hr1 : r1 = Ok tt).
  { apply (f_equal fst) in E1. vm_compute in E1. by symmetry. }
  subst r1.
  destruct (VCore.Ingest.ingest_object Sample.vcore_cfg Sample.vcore_svc
              (VInt 7) w1) as [r2 w2] eqn:E2.
  assert (Hr2 : r2 = Raise TypeError).
  { apply (f_equal fst) in E2. by symmetry. }
  subst r2. exists w1, w2. split; [done|]. split; [done|].
  exact (proj1 (ingestion_stops_at_first_failure Sample.vcore_cfg
                  Sample.vcore_svc [good] (VInt 7) [good] w0 w1 w2 TypeError
                  E1 E2)).
Defined.

(** X10: how one object can fail.  If the object cannot be serialised,
    the loop body raises before any call is made.  If it is serialised,
    the text is sent for embedding whatever the object is: a failure of
    the endpoint, and an item that is not a JSON object (so cannot take a
    [contentVector] field, a [TypeError]), are both met after that one
    call, and nothing is stored. *)
Theorem ingest_object_failures :
  forall cfg svc (obj : value) (w : VCore.world),
    (forall e, VCore.json_dumps svc obj = Raise e ->
               VCore.Ingest.ingest_object cfg svc obj w = (Raise e, w))
    /\ (forall text,
           VCore.json_dumps svc obj = Ok text ->
           let after :=
             VCore.issue
               (VCore.EmbeddingsCreate (VStr text)
                  (VCore.openai_embeddings_deployment cfg)
                  (VCore.openai_embeddings_dimensions cfg)) w in
           (forall e,
               first_embedding_of
                 (VCore.embeddings_api svc (VCore.calls w) (VStr text))
               = Raise e ->
               VCore.Ingest.ingest_object cfg svc obj w = (Raise e, after))
           /\ (forall emb,
                  first_embedding_of
                    (VCore.embeddings_api svc (VCore.calls w) (VStr text))
                  = Ok emb ->
                  (forall d, obj <> VDict d) ->
                  VCore.Ingest.ingest_object cfg svc obj w
                  = (Raise TypeError, after))).
Proof.
  intros cfg svc obj w. split.
  - intros e He. unfold VCore.Ingest.ingest_object, bind, lift. by rewrite He.
  - intros text Ht after. subst after. split.
    + intros e He. unfold VCore.Ingest.ingest_object, bind, lift.
      by rewrite Ht, ingest_generate_embeddings_eq, He.
    + intros emb He Hobj. unfold VCore.Ingest.ingest_object, bind, lift.
      rewrite Ht, ingest_generate_embeddings_eq, He.
      destruct obj; try reflexivity. by destruct (Hobj d).
Qed.

Lemma ingest_object_failures_witness :
  VCore.json_dumps Sample.vcore_svc (VList [VInt 1; VInt 2]) = Ok "{}"
  /\ VCore.Ingest.ingest_object Sample.vcore_cfg Sample.vcore_svc
       (VList [VInt 1; VInt 2]) Sample.vcore_empty
     = (Raise TypeError,
        VCore.issue (VCore.EmbeddingsCreate (VStr "{}") "embeddings" 2)
          Sample.vcore_empty).
Proof.
  split; [reflexivity|].
  refine (proj2 (proj2 (ingest_object_failures Sample.vcore_cfg
                          Sample.vcore_svc (VList [VInt 1; VInt 2])
                          Sample.vcore_empty) "{}" eq_refl)
            [11; 12] eq_refl _).
  intros d Hd. discriminate Hd.
Defined.

(** ** Ids that are already stored *)

Lemma value_eqb_refl (v : value) : value_eqb v v = true.
Proof.
  revert v. fix value_eqb_refl 1. intros v.
  destruct v as [| b | n | f | s | n | l | d]; simpl.
  - reflexivity.
  - by destruct b.
  - apply Z.eqb_refl.
  - apply Z.eqb_refl.
  - apply String.eqb_refl.
  - apply N.eqb_refl.
  - induction l as [|x l IH]; [reflexivity|].
    by rewrite (value_eqb_refl x), IH.
  - induction d as [|[k x] d IH]; [reflexivity|].
    by rewrite String.eqb_refl, (value_eqb_refl x), IH.
Qed.

(** X11: the ingestion loop cannot be run again over what it has
    stored.  Once an object that carries an [_id] has been ingested, and
    whatever has been added to the items since, ingesting it again
    embeds it again and then fails: [insert_one] raises
    [DuplicateKeyError] and the items collection stays as it was. *)
Theorem ingesting_twice_is_refused :
  forall cfg svc (d : dict) (i : value) (w w1 later : VCore.world)
         (text : string) (emb : list float64),
    dict_get "_id" d = Some i ->
    VCore.Ingest.ingest_object cfg svc (VDict d) w = (Ok tt, w1) ->
    VCore.products w1 `prefix_of` VCore.products later ->
    VCore.json_dumps svc (VDict d) = Ok text ->
    first_embedding_of
      (VCore.embeddings_api svc (VCore.calls later) (VStr text)) = Ok emb ->
    VCore.mongo_fault svc (1 + VCore.calls later) = None ->
    let (r, w') := VCore.Ingest.ingest_object cfg svc (VDict d) later in
    r = Raise DuplicateKeyError
    /\ VCore.products w' = VCore.products later
    /\ VCore.cache w' = VCore.cache later
    /\ VCore.trace w' =
       VCore.trace later
         ++ [ VCore.EmbeddingsCreate (VStr text)
                (VCore.openai_embeddings_deployment cfg)
                (VCore.openai_embeddings_dimensions cfg);
              VCore.InsertOne VCore.Products
                (dict_set "contentVector" (vector_value emb) d) ].
Proof.
  intros cfg svc d i w w1 later text emb Hid Hfirst [more Hlater] Hjson Hemb
    Hok.
  assert (Hkeep : forall v,
             dict_get "_id" (dict_set "contentVector" v d) = Some i).
  { intros v. by rewrite dict_get_set_ne. }
  assert (Hstored : exists stored,
             In stored (VCore.products later) /\ VCore.doc_id stored = i).
  { clear Hemb Hok. revert Hfirst.
    unfold VCore.Ingest.ingest_object, bind, lift.
    rewrite Hjson, ingest_generate_embeddings_eq.
    destruct (first_embedding_of _) as [emb0|e]; [|discriminate].
    unfold VCore.insert_one.
    destruct (VCore.mongo_fault svc _); [discriminate|].
    rewrite Hkeep. destruct (existsb _ _); [discriminate|].
    intros [= <-]. eexists. split.
    - rewrite Hlater. cbn [VCore.products VCore.set_collection
                             VCore.collection VCore.issue].
      apply in_or_app. left. apply in_or_app. right. by left.
    - unfold VCore.doc_id. by rewrite Hkeep. }
  destruct Hstored as (stored & Hin & Hsid).
  unfold VCore.Ingest.ingest_object, bind, lift.
  rewrite Hjson, ingest_generate_embeddings_eq, Hemb.
  unfold VCore.insert_one. cbn [VCore.calls VCore.issue VCore.collection
                                  VCore.products].
  cbn [Nat.add] in Hok. rewrite Hok, Hkeep.
  assert (Hex : existsb (fun x => value_eqb (VCore.doc_id x) i)
                  (VCore.products later) = true).
  { apply existsb_exists. exists stored. split; [done|].
    rewrite Hsid. apply value_eqb_refl. }
  rewrite Hex. cbn [VCore.products VCore.cache VCore.trace VCore.issue].
  by rewrite <- app_assoc.
Qed.

Lemma ingesting_twice_is_refused_witness :
  let service := [("_id", VStr "azure-ml"); ("content", VStr "Azure ML")] in
  let w1 := snd (VCore.Ingest.ingest_object Sample.vcore_cfg Sample.vcore_svc
                   (VDict service) Sample.vcore_empty) in
  VCore.Ingest.ingest_object Sample.vcore_cfg Sample.vcore_svc
    (VDict service) Sample.vcore_empty = (Ok tt, w1)
  /\ fst (VCore.Ingest.ingest_object Sample.vcore_cfg Sample.vcore_svc
            (VDict service) w1)
     = Raise DuplicateKeyError.
Proof.
  intros service w1.
  assert (Hfirst : VCore.Ingest.ingest_object Sample.vcore_cfg
                     Sample.vcore_svc (VDict service) Sample.vcore_empty
                   = (Ok tt, w1)) by reflexivity.
  split; [exact Hfirst|].
  assert (Hp : VCore.products w1 `prefix_of` VCore.products w1) by done.
  pose proof (ingesting_twice_is_refused Sample.vcore_cfg Sample.vcore_svc
                service (VStr "azure-ml") Sample.vcore_empty w1 w1 "{}"
                [11; 12] eq_refl Hfirst Hp eq_refl eq_refl eq_refl) as H.
  destruct (VCore.Ingest.ingest_object Sample.vcore_cfg Sample.vcore_svc
              (VDict service) w1) as [r w'].
  exact (proj1 H).
Defined.

(** ** The set-up cell *)

(** X12: the set-up cell asks for the database names first and drops the
    database exactly when it is listed; then it creates the index of the
    items collection, then that of the cache collection, stopping at the
    first call that fails.  After a run that completes the database is
    there; both collections are empty if it was there before, and as they
    were if not. *)
Theorem setup_database_sequence :
  forall svc (w : VCore.world),
    let plan :=
      VCore.ListDatabaseNames
      :: (if VCore.db_exists w then [VCore.DropDatabase] else [])
      ++ [VCore.CreateIndexes VCore.Products; VCore.CreateIndexes VCore.Cache] in
    let (r, w') := VCore.Ingest.setup_database svc w in
    exists evs,
      VCore.trace w' = VCore.trace w ++ evs
      /\ evs `prefix_of` plan
      /\ match r with
         | Ok _ =>
             evs = plan
             /\ VCore.db_exists w' = true
             /\ VCore.products w'
                = (if VCore.db_exists w then [] else VCore.products w)
             /\ VCore.cache w'
                = (if VCore.db_exists w then [] else VCore.cache w)
         | Raise e =>
             evs <> []
             /\ VCore.mongo_fault svc (VCore.calls w + length evs - 1)%nat
                = Some e
         end.
Proof.
  intros svc w. cbv zeta.
  unfold VCore.Ingest.setup_database,
    VCore.Ingest.create_collection_and_vector_index, VCore.database_listed,
    VCore.drop_database, VCore.create_indexes, bind, ret.
  destruct (VCore.db_exists w) eqn:Hdb.
  all: repeat (destruct_match; simpl).
  all: eexists; split; [tidy_trace; reflexivity|].
  all: split; [simpl; eexists; reflexivity|].
  all: simpl; rewrite ?Nat.add_0_r, ?Nat.sub_0_r.
  all: repeat match goal with
         | |- context [(?a + ?b - 1)%nat] =>
             replace (a + b - 1)%nat with (a + (b - 1))%nat by (simpl; lia);
             simpl
         end.
  all: rewrite ?Nat.add_0_r, ?Nat.add_1_r.
  all: try (split; [discriminate|]).
  all: try done.
  all: try (replace (VCore.calls w + 2)%nat with (S (S (VCore.calls w))) by lia).
  all: try (replace (VCore.calls w + 3)%nat
              with (S (S (S (VCore.calls w)))) by lia).
  all: try done.
Qed.

(** ** The upsert loop, further *)

Lemma progress_is_not_closing c : NoSql.progress_message c <> "Upsert completed!".
Proof. unfold NoSql.progress_message. simpl. discriminate. Qed.

(** The loop from any counter: where it stops and what is stored then. *)
Lemma insert_loop_state svc : forall loaded counter w,
  let (r, w') := NoSql.insert_loop svc loaded counter w in
  exists evs,
    NoSql.trace w' = NoSql.trace w ++ evs
    /\ ~ In "Upsert completed!" (NoSql.printed evs)
    /\ match r with
       | Ok _ =>
           NoSql.container w' = Reading.upsert_all loaded (NoSql.container w)
           /\ NoSql.upserted evs = loaded
       | Raise _ =>
           exists k,
             (1 <= k <= length loaded)%nat
             /\ NoSql.upserted evs = firstn k loaded
             /\ NoSql.container w'
                = Reading.upsert_all (firstn (k - 1) loaded) (NoSql.container w)
       end.
Proof.
  induction loaded as [|object loaded IH]; intros counter w.
  - simpl. exists []. rewrite app_nil_r. repeat split; auto.
  - cbn [NoSql.insert_loop]. unfold bind at 1.
    destruct (upsert_item_spec svc object w) as (r & c & -> & Hr).
    destruct r as [[]|e].
    + destruct Hr as (i & d & -> & Hst & Hid & ->). unfold bind at 1.
      assert (Hup : Reading.upsertable (VDict d) = Some (i, d))
        by (unfold Reading.upsertable; by rewrite Hst).
      destruct ((counter + 1) mod 100 =? 0)%Z eqn:Hmod.
      * unfold NoSql.print, NoSql.note. cbn beta iota.
        match goal with |- context [NoSql.insert_loop _ _ _ ?w2] =>
          specialize (IH (counter + 1) w2);
          destruct (NoSql.insert_loop svc loaded (counter + 1) w2) as [r w'] end.
        destruct IH as (evs & Ht & Hnot & Hr). simpl in Ht, Hr.
        exists (NoSql.UpsertItem (VDict d)
                :: NoSql.Print (NoSql.progress_message (counter + 1)) :: evs).
        split; [by rewrite Ht, <- !app_assoc|].
        split.
        { simpl. intros [Heq|Hin]; [by apply progress_is_not_closing in Heq|done]. }
        destruct r.
        -- destruct Hr as [-> Hu]. split; [cbn [Reading.upsert_all]; by rewrite Hup|].
           simpl. by rewrite Hu.
        -- destruct Hr as (k & Hk & Hu & ->). exists (S k).
           split; [simpl; lia|]. split; [simpl; by rewrite Hu|].
           replace (S k - 1)%nat with (S (k - 1)) by lia.
           cbn [firstn Reading.upsert_all]. by rewrite Hup.
      * unfold ret. cbn beta iota.
        match goal with |- context [NoSql.insert_loop _ _ _ ?w2] =>
          specialize (IH (counter + 1) w2);
          destruct (NoSql.insert_loop svc loaded (counter + 1) w2) as [r w'] end.
        destruct IH as (evs & Ht & Hnot & Hr). simpl in Ht, Hr.
        exists (NoSql.UpsertItem (VDict d) :: evs).
        split; [by rewrite Ht, <- !app_assoc|].
        split; [done|].
        destruct r.
        -- destruct Hr as [-> Hu]. split; [cbn [Reading.upsert_all]; by rewrite Hup|].
           simpl. by rewrite Hu.
        -- destruct Hr as (k & Hk & Hu & ->). exists (S k).
           split; [simpl; lia|]. split; [simpl; by rewrite Hu|].
           replace (S k - 1)%nat with (S (k - 1)) by lia.
           cbn [firstn Reading.upsert_all]. by rewrite Hup.
    + subst c. exists [NoSql.UpsertItem object]. simpl.
      split; [done|]. split; [tauto|]. exists 1%nat.
      split; [lia|]. by split.
Qed.

(** X13: [insert_data] ends at the first upsert that fails, and the
    documents before that one stay written: there is no rollback.  The
    line saying the upsert completed is printed exactly when every
    document was written; then the container holds all of them. *)
Theorem insert_data_stops_at_first_failure :
  forall svc (loaded : list value) (w : NoSql.world),
    let (r, w') := NoSql.insert_data svc loaded w in
    exists evs,
      NoSql.trace w' = NoSql.trace w ++ evs
      /\ (In "Upsert completed!" (NoSql.printed evs) <-> r = Ok tt)
      /\ match r with
         | Ok _ =>
             NoSql.container w'
             = Reading.upsert_all loaded (NoSql.container w)
         | Raise _ =>
             exists k,
               (k <= length loaded)%nat
               /\ NoSql.upserted evs = firstn k loaded
               /\ NoSql.container w'
                  = Reading.upsert_all (firstn (k - 1) loaded)
                      (NoSql.container w)
         end.
Proof.
  intros svc loaded w.
  unfold NoSql.insert_data, NoSql.cosmos_call, bind at 1.
  destruct (NoSql.cosmos_fault svc (NoSql.calls w)).
  { exists [NoSql.ClientEnter]. split; [done|]. split.
    - simpl. split; [tauto|discriminate].
    - exists 0%nat. split; [lia|]. by split. }
  unfold bind.
  match goal with |- context [NoSql.insert_loop _ _ _ ?w1] =>
    pose proof (insert_loop_state svc loaded 0 w1) as H;
    destruct (NoSql.insert_loop svc loaded 0 w1) as [r w'] end.
  destruct H as (evs & Ht & Hnot & Hr). simpl in Ht, Hr.
  destruct r as [c|e].
  - destruct Hr as [Hc Hu]. unfold NoSql.print, NoSql.note.
    exists (NoSql.ClientEnter :: evs ++ [NoSql.Print "Upsert completed!"]).
    cbn [NoSql.trace NoSql.container].
    split; [by rewrite Ht, <- !app_assoc|]. split; [|done].
    split; [done|]. intros _.
    change (NoSql.printed (NoSql.ClientEnter :: ?l)) with (NoSql.printed l).
    rewrite printed_app. apply in_or_app. right. by left.
  - destruct Hr as (k & Hk & Hu & Hc).
    exists (NoSql.ClientEnter :: evs).
    split; [by rewrite Ht, <- !app_assoc|]. split.
    + split; [done|discriminate].
    + exists k. split; [lia|]. by split.
Qed.

Lemma insert_data_stops_at_first_failure_witness :
  fst (NoSql.insert_data Sample.nosql_svc
         [Sample.movie "1" "Toy Story"; VInt 7; Sample.movie "2" "Heat"]
         Sample.nosql_empty) = Raise TypeError
  /\ ~ In "Upsert completed!"
         (NoSql.printed
            (NoSql.trace
               (snd (NoSql.insert_data Sample.nosql_svc
                       [Sample.movie "1" "Toy Story"; VInt 7;
                        Sample.movie "2" "Heat"]
                       Sample.nosql_empty)))).
Proof.
  split; [reflexivity|].
  pose proof (insert_data_stops_at_first_failure Sample.nosql_svc
                [Sample.movie "1" "Toy Story"; VInt 7; Sample.movie "2" "Heat"]
                Sample.nosql_empty) as H.
  destruct (NoSql.insert_data Sample.nosql_svc
              [Sample.movie "1" "Toy Story"; VInt 7; Sample.movie "2" "Heat"]
              Sample.nosql_empty) as [r w'] eqn:E.
  assert (Hr : r = Raise TypeError).
  { apply (f_equal fst) in E. by symmetry. }
  destruct H as (evs & Ht & Hiff & _). simpl in Ht |- *. rewrite Ht.
  intros Hin. apply Hiff in Hin. congruence.
Defined.

Lemma lookup_upsert_all : forall loaded stored i,
  Reading.upsert_all loaded stored !! i
  = match Reading.written_last i loaded with
    | Some d => Some d
    | None => stored !! i
    end.
Proof.
  induction loaded as [|object loaded IH]; intros stored i; [done|].
  cbn [Reading.upsert_all Reading.written_last].
  destruct (Reading.upsertable object) as [[j d]|].
  - rewrite IH. destruct (Reading.written_last i loaded); [done|].
    destruct (String.eqb i j) eqn:E.
    + apply String.eqb_eq in E as ->. apply lookup_insert_eq.
    + apply lookup_insert_ne. intros ->. by rewrite String.eqb_refl in E.
  - rewrite IH. by destruct (Reading.written_last i loaded).
Qed.

Lemma upsert_all_idempotent loaded stored :
  Reading.upsert_all loaded (Reading.upsert_all loaded stored)
  = Reading.upsert_all loaded stored.
Proof.
  apply map_eq. intros i. rewrite !lookup_upsert_all.
  by destruct (Reading.written_last i loaded).
Qed.

(** With the service answering and every document carrying an id that
    the client and the service accept, the loop completes. *)
Lemma insert_loop_completes svc :
  (forall n, NoSql.cosmos_fault svc n = None) ->
  forall loaded counter w,
    Forall (fun object => is_Some (Reading.upsertable object)) loaded ->
    exists c, fst (NoSql.insert_loop svc loaded counter w) = Ok c.
Proof.
  intros Hok. induction loaded as [|object loaded IH]; intros counter w HF.
  - by exists counter.
  - apply Forall_cons in HF as [[[i d] Hup] HF].
    cbn [NoSql.insert_loop]. unfold Reading.upsertable in Hup.
    destruct object as [| | | | | | |d']; try discriminate.
    destruct (NoSql.stored_id d') as [i'|] eqn:Hst; [|discriminate].
    unfold bind at 1.
    rewrite (upsert_item_accepted svc d' i' w Hst (Hok _)).
    unfold bind at 1.
    destruct ((counter + 1) mod 100 =? 0)%Z;
      unfold NoSql.print, NoSql.note, ret; cbn beta iota; by apply IH.
Qed.

Lemma insert_data_completes svc loaded w0 :
  (forall n, NoSql.cosmos_fault svc n = None) ->
  Forall (fun object => is_Some (Reading.upsertable object)) loaded ->
  let (r, w1) := NoSql.insert_data svc loaded w0 in
  r = Ok tt
  /\ NoSql.container w1 = Reading.upsert_all loaded (NoSql.container w0).
Proof.
  intros Hok HF.
  unfold NoSql.insert_data, NoSql.cosmos_call, bind at 1. rewrite Hok.
  unfold bind.
  match goal with |- context [NoSql.insert_loop _ _ _ ?w1] =>
    pose proof (insert_loop_state svc loaded 0 w1) as H;
    destruct (insert_loop_completes svc Hok loaded 0 w1 HF) as [c Hc];
    destruct (NoSql.insert_loop svc loaded 0 w1) as [r w'] end.
  simpl in Hc. subst r. destruct H as (evs & _ & _ & Hcont & _).
  unfold NoSql.print, NoSql.note. simpl. by split.
Qed.

(** X14: when the service answers and every loaded document carries an
    id that the client and the service accept (a non-empty string free of
    [/ \ ? #] that does not end with a space), [insert_data] completes;
    under each id the container ends up with the last loaded document of
    that id, and keeps what it had under the ids not loaded; and running
    it again on the same data completes too and leaves the container
    exactly as the first run did. *)
Theorem insert_data_last_writer_wins :
  forall svc (loaded : list value) (w : NoSql.world),
    (forall n, NoSql.cosmos_fault svc n = None) ->
    Forall (fun object => is_Some (Reading.upsertable object)) loaded ->
    let (r, w1) := NoSql.insert_data svc loaded w in
    r = Ok tt
    /\ (forall i,
           NoSql.container w1 !! i
           = match Reading.written_last i loaded with
             | Some d => Some d
             | None => NoSql.container w !! i
             end)
    /\ let (r2, w2) := NoSql.insert_data svc loaded w1 in
       r2 = Ok tt /\ NoSql.container w2 = NoSql.container w1.
Proof.
  intros svc loaded w Hok HF.
  assert (Hrun : forall w0,
             let (r, w1) := NoSql.insert_data svc loaded w0 in
             r = Ok tt
             /\ NoSql.container w1
                = Reading.upsert_all loaded (NoSql.container w0)).
  { intros w0.
    pose proof (insert_data_completes svc loaded w0 Hok HF)
      as H. exact H. }
  pose proof (Hrun w) as H1.
  destruct (NoSql.insert_data svc loaded w) as [r w1].
  destruct H1 as [-> Hc1]. split; [done|]. split.
  - intros i. by rewrite Hc1, lookup_upsert_all.
  - pose proof (Hrun w1) as H2.
    destruct (NoSql.insert_data svc loaded w1) as [r2 w2].
    destruct H2 as [-> Hc2]. split; [done|].
    by rewrite Hc2, Hc1, upsert_all_idempotent.
Qed.

(** Ids the client refuses: nothing is sent, stored or printed. *)
Example insert_data_refused_ids :
  NoSql.insert_data Sample.nosql_svc [Sample.movie "a/b" "Heat"]
    Sample.nosql_empty
  = (Raise ValueError,
     NoSql.mkWorld ∅ 2
       [NoSql.ClientEnter; NoSql.UpsertItem (Sample.movie "a/b" "Heat")])
  /\ fst (NoSql.upsert_item Sample.nosql_svc
            (VDict [("id", VInt 7); ("original_title", VStr "Heat")])
            Sample.nosql_empty)
     = Raise TypeError
  /\ fst (NoSql.upsert_item Sample.nosql_svc
            (VDict [("id", VStr "seven "); ("original_title", VStr "Heat")])
            Sample.nosql_empty)
     = Raise ValueError
  /\ fst (NoSql.upsert_item Sample.nosql_svc
            (VDict [("original_title", VStr "Heat")]) Sample.nosql_empty)
     = Raise (CosmosHttpResponseError 400).
Proof. repeat split. Qed.

Lemma insert_data_last_writer_wins_witness :
  (forall n, NoSql.cosmos_fault Sample.nosql_svc n = None)
  /\ Forall (fun object => is_Some (Reading.upsertable object))
       [Sample.movie "7" "Toy Story"; Sample.movie "7" "Heat"]
  /\ NoSql.container
       (snd (NoSql.insert_data Sample.nosql_svc
               [Sample.movie "7" "Toy Story"; Sample.movie "7" "Heat"]
               Sample.nosql_empty)) !! "7"
     = Some [("id", VStr "7"); ("original_title", VStr "Heat")].
Proof.
  assert (H1 : forall n, NoSql.cosmos_fault Sample.nosql_svc n = None)
    by reflexivity.
  assert (H2 : Forall (fun object => is_Some (Reading.upsertable object))
                 [Sample.movie "7" "Toy Story"; Sample.movie "7" "Heat"]).
  { repeat constructor; by eexists. }
  split; [exact H1|]. split; [exact H2|].
  pose proof (insert_data_last_writer_wins Sample.nosql_svc
                [Sample.movie "7" "Toy Story"; Sample.movie "7" "Heat"]
                Sample.nosql_empty H1 H2) as H.
  destruct (NoSql.insert_data Sample.nosql_svc
              [Sample.movie "7" "Toy Story"; Sample.movie "7" "Heat"]
              Sample.nosql_empty) as [r w1].
  destruct H as (_ & Hlast & _). simpl snd. rewrite Hlast. reflexivity.
Defined.

(** One more progress line each time the counter reaches a multiple of
    100. *)
Lemma progress_count n :
  Z.of_nat
    (length (List.filter (fun c => (c mod 100 =? 0)%Z)
               (map Z.of_nat (seq 1 n))))
  = Z.of_nat n / 100.
Proof.
  induction n as [|n IH]; [done|].
  rewrite seq_S, map_app, List.filter_app, length_app, Nat2Z.inj_add, IH.
  cbn [map List.filter]. change (1 + n)%nat with (S n).
  destruct (Z.of_nat (S n) mod 100 =? 0)%Z eqn:E; cbn [length].
  - apply Z.eqb_eq in E. Z.div_mod_to_equations. lia.
  - apply Z.eqb_neq in E. Z.div_mod_to_equations. lia.
Qed.

(** X15: a run of [insert_data] that completes prints one progress line
    per full hundred of documents, then the closing line: [n / 100 + 1]
    lines for [n] documents, so the closing line alone below a hundred. *)
Theorem insert_data_progress_count :
  forall svc (loaded : list value) (w : NoSql.world),
    let (r, w') := NoSql.insert_data svc loaded w in
    r = Ok tt ->
    exists evs,
      NoSql.trace w' = NoSql.trace w ++ evs
      /\ Z.of_nat (length (NoSql.printed evs))
         = Z.of_nat (length loaded) / 100 + 1
      /\ last (NoSql.printed evs) = Some "Upsert completed!"
      /\ ((length loaded < 100)%nat ->
          NoSql.printed evs = ["Upsert completed!"]).
Proof.
  intros svc loaded w.
  unfold NoSql.insert_data, NoSql.cosmos_call, bind at 1.
  destruct (NoSql.cosmos_fault svc (NoSql.calls w)); [discriminate|].
  unfold bind.
  match goal with |- context [NoSql.insert_loop _ _ _ ?w1] =>
    pose proof (insert_loop_run svc loaded 0 w1) as H;
    destruct (NoSql.insert_loop svc loaded 0 w1) as [r w'] end.
  destruct H as (evs & Ht & _ & _ & Hr). simpl in Ht.
  destruct r as [c|e]; [|discriminate].
  destruct Hr as [_ ->]. unfold NoSql.print, NoSql.note. intros _.
  exists (NoSql.ClientEnter :: NoSql.loop_trace loaded 0
          ++ [NoSql.Print "Upsert completed!"]).
  cbn [NoSql.trace]. split; [by rewrite Ht, <- !app_assoc|].
  change (NoSql.printed (NoSql.ClientEnter :: ?l)) with (NoSql.printed l).
  rewrite printed_app, printed_loop_trace.
  change (NoSql.printed [NoSql.Print "Upsert completed!"])
    with ["Upsert completed!"].
  assert (Hcount := progress_count (length loaded)).
  assert (Hsame : map (fun i : nat => 0 + Z.of_nat i) (seq 1 (length loaded))
                  = map Z.of_nat (seq 1 (length loaded))) by reflexivity.
  rewrite Hsame. split; [|split].
  - rewrite length_app, length_map, Nat2Z.inj_add, Hcount. reflexivity.
  - apply last_snoc.
  - intros Hlt.
    assert (Hz : Z.of_nat (length loaded) / 100 = 0)
      by (apply Z.div_small; lia).
    rewrite Hz in Hcount.
    destruct (List.filter _ _); [reflexivity|]. simpl in Hcount. lia.
Qed.

Lemma insert_data_progress_count_witness :
  fst (NoSql.insert_data Sample.nosql_svc
         [Sample.movie "1" "Toy Story"; Sample.movie "2" "Heat"]
         Sample.nosql_empty) = Ok tt
  /\ NoSql.printed
       (NoSql.trace
          (snd (NoSql.insert_data Sample.nosql_svc
                  [Sample.movie "1" "Toy Story"; Sample.movie "2" "Heat"]
                  Sample.nosql_empty)))
     = ["Upsert completed!"].
Proof.
  split; [reflexivity|].
  pose proof (insert_data_progress_count Sample.nosql_svc
                [Sample.movie "1" "Toy Story"; Sample.movie "2" "Heat"]
                Sample.nosql_empty) as H.
  destruct (NoSql.insert_data Sample.nosql_svc
              [Sample.movie "1" "Toy Story"; Sample.movie "2" "Heat"]
              Sample.nosql_empty) as [r w'] eqn:E.
  assert (Hr : r = Ok tt).
  { apply (f_equal fst) in E. by symmetry. }
  destruct (H Hr) as (evs & Ht & _ & _ & Hsmall).
  simpl in Ht |- *. rewrite Ht. apply Hsmall. simpl. lia.
Defined.

(** ** A response without an embedding *)

(** X16: an answer whose data array is empty has no first element.  In
    the two vCore notebooks [generate_embeddings] then raises [IndexError]
    after its one call.  Under the decorator of the NoSQL notebook the
    [IndexError] is retried like any failure of the endpoint: if every
    answer is empty the endpoint is called 20 times with the same input,
    with 19 sleeps, before a [RetryError] carrying the [IndexError] is
    raised. *)
Theorem empty_response_is_retried :
  forall (text : value),
    (forall cfg svc (w : VCore.world),
        VCore.embeddings_api svc (VCore.calls w) text = Ok {| data := [] |} ->
        fst (VCore.Chat.generate_embeddings cfg svc text w) = Raise IndexError
        /\ fst (VCore.Ingest.generate_embeddings cfg svc text w)
           = Raise IndexError
        /\ VCore.calls (snd (VCore.Chat.generate_embeddings cfg svc text w))
           = S (VCore.calls w))
    /\ (forall cfg svc (w : NoSql.world),
           (forall n, NoSql.embeddings_api svc n text = Ok {| data := [] |}) ->
           let (r, w') := NoSql.generate_embeddings cfg svc text w in
           r = Raise (RetryError IndexError)
           /\ exists evs,
               NoSql.trace w' = NoSql.trace w ++ evs
               /\ NoSql.embedding_calls evs = replicate 20 text
               /\ length (NoSql.sleeps evs) = 19%nat
               /\ NoSql.container w' = NoSql.container w).
Proof.
  intros text. split.
  - intros cfg svc w Hapi.
    rewrite ingest_generate_embeddings_eq, chat_generate_embeddings_eq, Hapi.
    by repeat split.
  - intros cfg svc w Hempty.
    unfold NoSql.generate_embeddings, NoSql.retry.
    cbn [NoSql.stop_after_attempt]. change (20 - 1)%nat with 19%nat.
    match goal with |- context [NoSql.retry_from _ ?p _ _ _ _] =>
      pose proof (retry_from_run cfg svc text p 19 1 w) as H;
      destruct (NoSql.retry_from svc p
                  (NoSql.generate_embeddings_undecorated cfg svc text)
                  19 1 w) as [r w'] end.
    destruct H as (evs & n & Ht & Hc & _ & _ & Hemb & Hsl & _ & _ & Hr).
    destruct r as [v|x].
    + rewrite Hempty in Hr. discriminate Hr.
    + destruct Hr as (-> & e & He & ->). rewrite Hempty in He.
      injection He as <-. split; [done|]. by exists evs.
Qed.

Lemma empty_response_is_retried_witness :
  let svc :=
    {| NoSql.embeddings_api := fun _ _ => Ok {| data := [] |};
       NoSql.cosmos_fault := fun _ => None;
       NoSql.random_uniform := fun _ a _ => a |} in
  (forall n, NoSql.embeddings_api svc n (VStr "Toy Story") = Ok {| data := [] |})
  /\ fst (NoSql.generate_embeddings Sample.nosql_cfg svc (VStr "Toy Story")
            Sample.nosql_empty)
     = Raise (RetryError IndexError).
Proof.
  intros svc.
  assert (H0 : forall n, NoSql.embeddings_api svc n (VStr "Toy Story")
                         = Ok {| data := [] |}) by reflexivity.
  split; [exact H0|].
  pose proof (proj2 (empty_response_is_retried (VStr "Toy Story"))
                Sample.nosql_cfg svc Sample.nosql_empty H0) as H.
  destruct (NoSql.generate_embeddings Sample.nosql_cfg svc (VStr "Toy Story")
              Sample.nosql_empty) as [r w'].
  exact (proj1 H).
Defined.

(** ** Creating the containers *)

(** X17: the cell creates the database, then the data container, then
    the cache container, and stops at the first call that fails, with
    that call's exception: the [try] blocks change nothing to this.  After
    each container that was created it prints the same line, which holds
    the text of Python's builtin [id] and names neither container; no line
    follows the call that failed. *)
Theorem create_containers_cell_sequence :
  forall cfg svc (w : NoSql.world),
    let plan :=
      [ NoSql.CreateDatabaseIfNotExists (NoSql.cosmos_database cfg);
        NoSql.CreateContainerIfNotExists (NoSql.cosmos_collection cfg);
        NoSql.Print "Container with id '<built-in function id>' created";
        NoSql.CreateContainerIfNotExists (NoSql.cosmos_cache cfg);
        NoSql.Print "Container with id '<built-in function id>' created" ] in
    let (r, w') := NoSql.create_containers_cell cfg svc w in
    exists evs,
      NoSql.trace w' = NoSql.trace w ++ evs
      /\ evs `prefix_of` plan
      /\ NoSql.container w' = NoSql.container w
      /\ match r with
         | Ok _ => evs = plan
         | Raise e =>
             NoSql.cosmos_fault svc (NoSql.calls w' - 1)%nat = Some e
             /\ (NoSql.calls w < NoSql.calls w' <= NoSql.calls w + 3)%nat
             /\ length (NoSql.printed evs) = (NoSql.calls w' - NoSql.calls w - 2)%nat
         end.
Proof.
  intros cfg svc w. cbv zeta.
  unfold NoSql.create_containers_cell, NoSql.try_except_raise,
    NoSql.cosmos_call, NoSql.print, NoSql.note, bind.
  cbn [NoSql.calls NoSql.issue].
  destruct (NoSql.cosmos_fault svc (NoSql.calls w)) as [e0|] eqn:E0; simpl.
  2: destruct (NoSql.cosmos_fault svc (S (NoSql.calls w))) as [e1|] eqn:E1;
       simpl.
  2: destruct (NoSql.is_cosmos_http_response_error e1); simpl.
  4: destruct (NoSql.cosmos_fault svc (S (S (NoSql.calls w)))) as [e2|] eqn:E2;
       simpl.
  4: destruct (NoSql.is_cosmos_http_response_error e2); simpl.
  all: eexists; split; [repeat rewrite <- app_assoc; reflexivity|].
  all: split; [simpl; eexists; reflexivity|].
  all: split; [reflexivity|].
  all: try reflexivity.
  all: simpl; rewrite ?Nat.sub_0_r.
  all: repeat split; try eassumption; try lia.
Qed.

(** ** The chat form *)

Section ChatForm.

Context {lib message : Type}.
Variable buffer_as_messages : M lib (list message).
Variable chain_invoke : string -> list message -> M lib value.
Variable add_user_message : string -> M lib unit.
Variable add_ai_message : value -> M lib unit.

#[local] Notation "'callback'" :=
  (Chatbot.user buffer_as_messages chain_invoke add_user_message
     add_ai_message).
#[local] Notation "'form'" :=
  (Chatbot.session buffer_as_messages chain_invoke add_user_message
     add_ai_message).

Lemma user_any_display (m : string) (h1 h2 : list (list value)) w :
  callback m h1 w = callback m h2 w.
Proof. reflexivity. Qed.

Lemma user_hist (m : string) (ch : list (list value)) w :
  (Chatbot.hist (snd (callback m ch w)) = Chatbot.hist w
   \/ exists row, Chatbot.hist (snd (callback m ch w)) = Chatbot.hist w ++ [row])
  /\ match fst (callback m ch w) with
     | Ok (box, shown) =>
         box = EmptyString /\ shown = Chatbot.hist (snd (callback m ch w))
         /\ exists row, shown = Chatbot.hist w ++ [row]
     | Raise _ => True
     end.
Proof.
  unfold Chatbot.user, Chatbot.in_lib, Chatbot.hist_append, lift, bind.
  destruct w as [h l]. cbn [Chatbot.hist Chatbot.langchain].
  destruct (buffer_as_messages l) as [[buf|e] l1]; cbn;
    [|by (split; [left|])].
  destruct (chain_invoke m (Chatbot.last_n 6 buf) l1) as [[response|e] l2];
    cbn; [|by (split; [left|])].
  destruct (getitem response "answer") as [answer|e]; cbn;
    [|by (split; [left|])].
  destruct answer as [| | | |a| | |]; cbn; try by (split; [left|]).
  destruct (add_user_message m l2) as [[[]|e] l3]; cbn;
    [|by (split; [right; eexists|])].
  destruct (add_ai_message (VStr a) l3) as [[[]|e] l4]; cbn;
    [|by (split; [right; eexists|])].
  split; [right; by eexists|]. repeat split. by eexists.
Qed.

Lemma session_app (evs1 evs2 : list Chatbot.ui_event) chatbot w :
  form (evs1 ++ evs2) chatbot w
  = form evs2 (fst (form evs1 chatbot w)) (snd (form evs1 chatbot w)).
Proof.
  revert chatbot w. induction evs1 as [|e evs1 IH]; intros chatbot w; [done|].
  simpl.
  destruct (Chatbot.handle buffer_as_messages chain_invoke
              add_user_message add_ai_message e chatbot w) as [[shown|x] w'];
    apply IH.
Qed.

(** X18: the callback raises without touching [hist] when the chain
    raises, when the response has no ["answer"], or when the answer is
    not a string; nothing is then added to the stored message history
    either, the state of the library being the one the chain left. *)
Theorem user_raises_before_recording :
  forall (m : string) (ch : list (list value)) w buf l1 r l2,
    buffer_as_messages (Chatbot.langchain w) = (Ok buf, l1) ->
    chain_invoke m (Chatbot.last_n 6 buf) l1 = (r, l2) ->
    match r with
    | Ok response => forall a, getitem response "answer" <> Ok (VStr a)
    | Raise _ => True
    end ->
    exists e,
      callback m ch w = (Raise e, Chatbot.mkWorld (Chatbot.hist w) l2)
      /\ match r with
         | Raise e' => e = e'
         | Ok _ => e = TypeError \/ e = KeyError "answer"
         end.
Proof.
  intros m ch w buf l1 r l2 Hbuf Hchain Hbad.
  unfold Chatbot.user, Chatbot.in_lib, Chatbot.hist_append, lift, bind.
  rewrite Hbuf. cbn. rewrite Hchain. cbn.
  destruct r as [response|e']; [|by exists e'].
  unfold getitem in *.
  destruct response as [| | | | | | |d]; cbn; try by (exists TypeError; auto).
  destruct (dict_get "answer" d) as [answer|]; cbn;
    [|by exists (KeyError "answer"); auto].
  destruct answer as [| | | |a| | |]; cbn; try by (exists TypeError; auto).
  by destruct (Hbad a).
Qed.

(** X19: the row is appended to [hist] before anything is stored.  When
    storing the user's message raises, the callback raises with the row
    already in [hist] and the answer is never stored; when storing the
    answer raises, the row is in [hist] and only the user's message is
    stored.  When both succeed the callback empties the text box and
    returns [hist] with the new row at its end. *)
Theorem user_records_row_before_storing :
  forall (m : string) (ch : list (list value)) w buf l1 response l2 a r3 l3,
    buffer_as_messages (Chatbot.langchain w) = (Ok buf, l1) ->
    chain_invoke m (Chatbot.last_n 6 buf) l1 = (Ok response, l2) ->
    getitem response "answer" = Ok (VStr a) ->
    add_user_message m l2 = (r3, l3) ->
    let row := [VStr ("User: " +:+ m); VStr ("Chatbot: " +:+ a)] in
    match r3 with
    | Raise e => callback m ch w = (Raise e, Chatbot.mkWorld (Chatbot.hist w ++ [row]) l3)
    | Ok _ =>
        callback m ch w
        = (match fst (add_ai_message (VStr a) l3) with
           | Ok _ => Ok (EmptyString, Chatbot.hist w ++ [row])
           | Raise e => Raise e
           end,
           Chatbot.mkWorld (Chatbot.hist w ++ [row]) (snd (add_ai_message (VStr a) l3)))
    end.
Proof.
  intros m ch w buf l1 response l2 a r3 l3 Hbuf Hchain Hans Hadd row.
  unfold Chatbot.user, Chatbot.in_lib, Chatbot.hist_append, lift, bind.
  rewrite Hbuf. cbn. rewrite Hchain. cbn. rewrite Hans. cbn.
  rewrite Hadd. destruct r3 as [[]|e]; [|done].
  cbn. by destruct (add_ai_message (VStr a) l3) as [[[]|e] l4].
Qed.

(** X20: over any sequence of submissions and clicks on Clear, [hist]
    only grows, by at most one row per submission, and what the form
    shows is the conversation it started with, nothing, or a non-empty
    beginning of [hist] longer than the [hist] the form started from. *)
Theorem session_history_only_grows :
  forall (events : list Chatbot.ui_event) chatbot w,
    let (shown, w') := form events chatbot w in
    Chatbot.hist w `prefix_of` Chatbot.hist w'
    /\ (length (Chatbot.hist w') <= length (Chatbot.hist w)
                            + length (List.filter Chatbot.is_submit events))%nat
    /\ (shown = chatbot \/ shown = None
        \/ exists rows, shown = Some rows /\ rows `prefix_of` Chatbot.hist w'
                        /\ (length (Chatbot.hist w) < length rows)%nat).
Proof.
  intros events. induction events as [|e events IH]; intros chatbot w.
  - simpl. repeat split; [done|lia|by left].
  - cbn [Chatbot.session].
    destruct e as [text|].
    + cbn [Chatbot.handle]. unfold bind at 1.
      pose proof (user_hist text (default [] chatbot) w) as [Hh Hr].
      destruct (callback text (default [] chatbot) w) as [[[box out]|x] w1].
      * cbn in Hh, Hr. destruct Hr as (_ & -> & row & Hrow).
        unfold ret. cbn [snd].
        specialize (IH (Some (Chatbot.hist w1)) w1).
        destruct (form events (Some (Chatbot.hist w1)) w1) as [shown w'].
        destruct IH as (Hp & Hl & Hs).
        assert (Hlen : length (Chatbot.hist w1) = S (length (Chatbot.hist w)))
          by (rewrite Hrow, length_app; simpl; lia).
        cbn [List.filter Chatbot.is_submit length].
        split; [etrans; [|exact Hp]; rewrite Hrow; by apply prefix_app_r|].
        split; [lia|].
        destruct Hs as [->|[->|(rows & -> & Hrp & Hrl)]].
        -- right; right. exists (Chatbot.hist w1).
           split; [done|]. split; [done|lia].
        -- by right; left.
        -- right; right. exists rows. split; [done|]. split; [done|lia].
      * cbn in Hh. specialize (IH chatbot w1).
        destruct (form events chatbot w1) as [shown w'].
        destruct IH as (Hp & Hl & Hs).
        cbn [List.filter Chatbot.is_submit length].
        assert (Hlen : (length (Chatbot.hist w) <= length (Chatbot.hist w1)
                        <= S (length (Chatbot.hist w)))%nat).
        { destruct Hh as [Hh|[row Hh]]; rewrite Hh; [lia|].
          rewrite length_app. simpl. lia. }
        assert (Hpre : Chatbot.hist w `prefix_of` Chatbot.hist w1).
        { destruct Hh as [Hh|[row Hh]]; rewrite Hh; [done|].
          by apply prefix_app_r. }
        split; [by etrans|]. split; [lia|].
        destruct Hs as [->|[->|(rows & -> & Hrp & Hrl)]];
          [by left|by right; left|].
        right; right. exists rows. split; [done|]. split; [done|lia].
    + cbv [Chatbot.handle Chatbot.clear ret]. cbv beta iota.
      specialize (IH None w).
      destruct (form events None w) as [shown w'].
      destruct IH as (Hp & Hl & Hs).
      cbn [List.filter Chatbot.is_submit].
      split; [done|]. split; [lia|].
      destruct Hs as [->|[->|Hs]]; [by right; left|by right; left|by right; right].
Qed.

(** X21: Clear empties what the form shows but not [hist]: the next
    submission that succeeds shows every row again, those from before the
    click included, followed by the new one. *)
Theorem clear_keeps_earlier_rows :
  forall (events : list Chatbot.ui_event) chatbot w text,
    let (shown0, w0) := form events chatbot w in
    forall out w1,
      callback text [] w0 = (Ok out, w1) ->
      form (events ++ [Chatbot.ClickClear]) chatbot w = (None, w0)
      /\ (exists row,
             Chatbot.hist w1 = Chatbot.hist w0 ++ [row]
             /\ form (events ++ [Chatbot.ClickClear; Chatbot.Submit text])
                  chatbot w
                = (Some (Chatbot.hist w0 ++ [row]), w1)).
Proof.
  intros events chatbot w text.
  pose proof (session_app events [Chatbot.ClickClear] chatbot w) as H1.
  pose proof (session_app events [Chatbot.ClickClear; Chatbot.Submit text]
                chatbot w) as H2.
  destruct (form events chatbot w) as [shown0 w0].
  intros out w1 Hu. cbn [fst snd] in H1, H2.
  split; [by rewrite H1|].
  pose proof (user_hist text [] w0) as [_ Hr].
  rewrite H2. cbn. unfold bind, ret. rewrite Hu in *. cbn in Hr.
  destruct out as [box rows]. destruct Hr as (_ & -> & row & Hrow).
  exists row. split; [done|]. cbn. by rewrite Hrow.
Qed.

End ChatForm.

Lemma user_raises_before_recording_witness :
  fst (Chatbot.user SampleChatbot.buffer
         SampleChatbot.chain_down SampleChatbot.add_user SampleChatbot.add_ai
         "hello" [] SampleChatbot.start)
  = Raise (OpenAIError "429").
Proof.
  destruct (user_raises_before_recording SampleChatbot.buffer
              SampleChatbot.chain_down SampleChatbot.add_user
              SampleChatbot.add_ai "hello" [] SampleChatbot.start
              [] [] (Raise (OpenAIError "429")) []
              eq_refl eq_refl I) as (e & Hu & He).
  rewrite Hu. simpl. by rewrite He.
Defined.

Lemma user_records_row_before_storing_witness :
  let add_user_down : string -> M (list string) unit :=
    fun _ l => (Raise (PyMongoError "not primary"), l) in
  Chatbot.hist
    (snd (Chatbot.user SampleChatbot.buffer
            SampleChatbot.chain add_user_down SampleChatbot.add_ai
            "hello" [] SampleChatbot.start))
  = [[VStr "User: hello"; VStr "Chatbot: Toy Story"]].
Proof.
  intros add_user_down.
  pose proof (user_records_row_before_storing SampleChatbot.buffer
                SampleChatbot.chain add_user_down SampleChatbot.add_ai
                "hello" [] SampleChatbot.start [] []
                (VDict [("answer", VStr "Toy Story");
                        ("question", VStr "hello")])
                [] "Toy Story" (Raise (PyMongoError "not primary")) []
                eq_refl eq_refl eq_refl eq_refl) as Hu.
  cbv zeta in Hu. cbv match in Hu. rewrite Hu. reflexivity.
Defined.

Lemma clear_keeps_earlier_rows_witness :
  fst (Chatbot.session SampleChatbot.buffer
         SampleChatbot.chain SampleChatbot.add_user SampleChatbot.add_ai
         [Chatbot.Submit "hello"; Chatbot.ClickClear; Chatbot.Submit "again"]
         None SampleChatbot.start)
  = Some [[VStr "User: hello"; VStr "Chatbot: Toy Story"];
          [VStr "User: again"; VStr "Chatbot: Toy Story"]].
Proof.
  pose proof (clear_keeps_earlier_rows SampleChatbot.buffer
                SampleChatbot.chain SampleChatbot.add_user SampleChatbot.add_ai
                [Chatbot.Submit "hello"] None SampleChatbot.start "again")
    as H.
  destruct (Chatbot.session SampleChatbot.buffer
              SampleChatbot.chain SampleChatbot.add_user SampleChatbot.add_ai
              [Chatbot.Submit "hello"] None SampleChatbot.start)
    as [shown0 w0] eqn:E.
  vm_compute in E. injection E as <- <-.
  destruct (H _ _ eq_refl) as (_ & row & Hrow & Hs).
  simpl app in Hs. rewrite Hs.
  vm_compute in Hrow. by injection Hrow as <-.
Defined.
